(** * Verification of [bd_feedback_ptakizawa/feedback.py]

    A shallow embedding of the course-evaluation pipeline: the pandas
    tables become lists of records, Python exceptions become a result
    type, the in-place updates of the schedule become a state monad, and
    the unspecified iteration order of Python sets and the date parser
    of pandas become classes that the theorems quantify over.

    Conventions of the model:
    - [str] is [string]; the characters are taken to be ASCII;
    - [float] is an optional exact rational, [None] standing for NaN;
      [round] is decimal rounding, half to even, on the exact value;
      sums and quotients are exact, where the doubles of the code
      round and, beyond 1.8e308, overflow;
    - the writers of the Excel and Word files (openpyxl, python-docx)
      are outside the model: a result [Ok] of the pipeline holds what
      is handed to them, and says nothing of what they accept;
    - text columns of the tables hold strings, except [ResponseText],
      which pandas fills with NaN or numbers where no text was given. *)

From Stdlib Require Import ZArith QArith Qround List String Ascii Bool Lia.
From Stdlib Require Import Permutation Sorted OrdersEx Lqa.
Import ListNotations.

Open Scope string_scope.
Open Scope list_scope.
Open Scope Z_scope.

(** ** Python built-ins used by the module *)
Module Py.

Inductive exn : Type :=
| IndexError
| ValueError
| NameError.

Inductive result (A : Type) : Type :=
| Ok (a : A)
| Raise (e : exn).
Arguments Ok {A} a.
Arguments Raise {A} e.

Definition bind {A B : Type} (r : result A) (k : A -> result B) : result B :=
  match r with
  | Ok a => k a
  | Raise e => Raise e
  end.

(** [s.find(sub)]: the lowest index where [sub] starts in [s], or -1. *)
Fixpoint find_from (i : Z) (sub s : string) : Z :=
  if prefix sub s then i
  else match s with
       | EmptyString => -1
       | String _ s' => find_from (i + 1) sub s'
       end.

Definition find (s sub : string) : Z := find_from 0 sub s.

(** [sub] occurs somewhere inside [s]. *)
Definition occurs_in (sub s : string) : Prop :=
  exists pre post, s = (pre ++ sub ++ post)%string.

(** [x in l] for a list of strings. *)
Definition str_in (x : string) (l : list string) : bool :=
  existsb (String.eqb x) l.

(** [l[i]] with Python's negative indices. *)
Definition getitem {A : Type} (l : list A) (i : Z) : result A :=
  let n := Z.of_nat (List.length l) in
  let j := if i <? 0 then i + n else i in
  if (0 <=? j) && (j <? n)
  then match nth_error l (Z.to_nat j) with
       | Some a => Ok a
       | None => Raise IndexError
       end
  else Raise IndexError.

(** [sub in s]. *)
Definition contains (s sub : string) : bool :=
  negb (find s sub =? -1).

(** [s[-1]]. *)
Fixpoint last_char (s : string) : result ascii :=
  match s with
  | EmptyString => Raise IndexError
  | String c EmptyString => Ok c
  | String _ s' => last_char s'
  end.

(** [int(c)] for a one-character string. *)
Definition int_of_char (c : ascii) : result Z :=
  let n := Z.of_nat (nat_of_ascii c) in
  if (48 <=? n) && (n <=? 57) then Ok (n - 48) else Raise ValueError.

(** [sep.join(l)]. *)
Fixpoint join (sep : string) (l : list string) : string :=
  match l with
  | [] => ""
  | [x] => x
  | x :: xs => (x ++ sep ++ join sep xs)%string
  end.

(** Order of strings and of pairs of strings, as [list.sort] compares
    them. *)
Definition pair_leb (p q : string * string) : bool :=
  String.ltb (fst p) (fst q)
  || (String.eqb (fst p) (fst q) && String.leb (snd p) (snd q)).

(** A stable sort, as [list.sort] and pandas' multi-key [sort_values]
    are: an element is put before the ones it does not exceed. *)
Section Sort.
Context {A : Type} (leb : A -> A -> bool).

Fixpoint insert (x : A) (l : list A) : list A :=
  match l with
  | [] => [x]
  | y :: l' => if leb x y then x :: l else y :: insert x l'
  end.

Fixpoint sort (l : list A) : list A :=
  match l with
  | [] => []
  | x :: l' => insert x (sort l')
  end.
End Sort.

(** Iteration order of [set]: Python leaves it unspecified, so
    [list(set(l))] is any duplicate-free enumeration of the elements of
    [l], chosen as a function of [l]. *)
Class SetOrder : Type := {
  list_set : forall A : Type, (forall x y : A, {x = y} + {x <> y}) ->
             list A -> list A;
  list_set_NoDup : forall A dec (l : list A), NoDup (list_set A dec l);
  list_set_In : forall A dec (l : list A) (x : A),
      In x (list_set A dec l) <-> In x l
}.

(** One admissible order: each element at its last occurrence. *)
Definition last_occurrence_order : SetOrder :=
  {| list_set := nodup;
     list_set_NoDup := NoDup_nodup;
     list_set_In := fun A dec l x => nodup_In dec l x |}.

(** Another: the reverse of it. *)
Definition reversed_order : SetOrder :=
  {| list_set := fun A dec l => rev (nodup dec l);
     list_set_NoDup := fun A dec l =>
       NoDup_rev (NoDup_nodup dec l);
     list_set_In := fun A dec l x =>
       iff_trans (iff_sym (in_rev (nodup dec l) x)) (nodup_In dec l x) |}.

Definition pair_dec (p q : string * string) : {p = q} + {p <> q}.
Proof. decide equality; apply string_dec. Defined.

(** ** Floats *)

(** A float: an exact rational, or NaN. *)
Definition float : Type := option Q.

(** [x > 0.0]; false on NaN. *)
Definition gt_zero (x : float) : bool :=
  match x with
  | Some q => negb (Qle_bool q 0)
  | None => false
  end.

(** Nearest integer, ties to the even one. *)
Definition round_half_even (x : Q) : Z :=
  let f := Qfloor x in
  let r := (x - inject_Z f)%Q in
  match (r ?= 1 # 2)%Q with
  | Lt => f
  | Gt => f + 1
  | Eq => if Z.even f then f else f + 1
  end.

(** [round(x, ndigits)]. *)
Definition round (x : Q) (ndigits : nat) : Q :=
  let p := (10 ^ Z.of_nat ndigits)%Z in
  Qred (inject_Z (round_half_even (x * inject_Z p)) / inject_Z p).

Definition Qsum (l : list Q) : Q := fold_left Qplus l 0%Q.

(** [l.count(v)]. *)
Definition count (v : Q) (l : list Q) : nat :=
  List.length (filter (Qeq_bool v) l).

End Py.

Notation "'let*' x := e 'in' k" := (Py.bind e (fun x => k))
  (at level 10, x pattern, e at level 100, k at level 200).

(** ** The tables *)

(** A cell of an untyped (object) column. *)
Inductive cell : Type :=
| CStr (s : string)
| CInt (z : Z)
| CFloat (q : Q)
| CNaN.

(** One row of the feedback export. *)
Record ResponseRecord : Type := {
  CourseName : string;
  EvalTitle : string;
  EvalName : string;
  QuestionType : string;
  QuestionText : string;
  EvaluateeFirst : string;
  EvaluateeLast : string;
  ResponseValue : Py.float;
  ResponseText : cell
}.

Module Schedule.

(** A cell of the [Date] or [tFrom] column: the text read from the
    file, a missing value (NaN, NaT), or a parsed timestamp. *)
Inductive timecell : Type :=
| Raw (s : string)
| Missing
| Stamp (t : Z).

(** One row of the course schedule.  [label] is the row's index label;
    [saved] holds its values in the columns that [reset_index] has
    inserted, newest first. *)
Record row : Type := {
  label : Z;
  saved : list Z;
  ID : Z;
  Date : timecell;
  tFrom : timecell;
  cName : string;
  iLearningTypeID : string
}.

(** The schedule: [columns] names the columns called "index" or
    "level_0" that the table has, the ones [reset_index] inserts,
    newest first. *)
Record t : Type := {
  columns : list string;
  rows : list row
}.

End Schedule.

Module Sessions.

(** One row of the faculty-sessions table. *)
Record row : Type := {
  ID : Z;
  cLname : string;
  cFname : string
}.

End Sessions.

(** ** pandas operations on the schedule *)
Module Pandas.
Import Py Schedule.

(** [pd.to_datetime(text, format=fmt)] on one string: the timestamp,
    or nothing when the text does not match the format.  The parser
    belongs to pandas; the development holds for any. *)
Class Strptime : Type := {
  strptime : string -> string -> option Z
}.

(** [pd.to_datetime(column, format=fmt)]: timestamps pass, missing
    values stay missing, one bad string fails the whole column. *)
Fixpoint to_datetime `{Strptime} (fmt : string) (col : list timecell)
  : result (list timecell) :=
  match col with
  | [] => Ok []
  | c :: col' =>
      let* c' := match c with
                 | Raw s => match strptime fmt s with
                            | Some t => Ok (Stamp t)
                            | None => Raise ValueError
                            end
                 | Missing => Ok Missing
                 | Stamp t => Ok (Stamp t)
                 end in
      let* rest := to_datetime fmt col' in
      Ok (c' :: rest)
  end.

Definition with_Date (r : row) (c : timecell) : row :=
  {| label := label r; saved := saved r; ID := ID r; Date := c;
     tFrom := tFrom r; cName := cName r;
     iLearningTypeID := iLearningTypeID r |}.

Definition with_tFrom (r : row) (c : timecell) : row :=
  {| label := label r; saved := saved r; ID := ID r; Date := Date r;
     tFrom := c; cName := cName r;
     iLearningTypeID := iLearningTypeID r |}.

(** [df[col] = values], row by row. *)
Fixpoint assign (upd : row -> timecell -> row) (rs : list row)
         (vs : list timecell) : list row :=
  match rs, vs with
  | r :: rs', v :: vs' => upd r v :: assign upd rs' vs'
  | _, _ => []
  end.

(** Order of two cells of a sort key: timestamps ascending, missing
    values last. *)
Definition cell_compare (a b : timecell) : comparison :=
  match a, b with
  | Stamp x, Stamp y => x ?= y
  | Stamp _, _ => Lt
  | _, Stamp _ => Gt
  | _, _ => Eq
  end.

(** [by=['Date', 'tFrom']]. *)
Definition key_leb (r1 r2 : row) : bool :=
  match cell_compare (Date r1) (Date r2) with
  | Lt => true
  | Gt => false
  | Eq => match cell_compare (tFrom r1) (tFrom r2) with
          | Gt => false
          | _ => true
          end
  end.

(** Rows relabelled 0, 1, 2, ... from [i], the old label pushed on
    [saved]. *)
Fixpoint relabel (i : Z) (rs : list row) : list row :=
  match rs with
  | [] => []
  | r :: rs' =>
      {| label := i; saved := label r :: saved r; ID := ID r;
         Date := Date r; tFrom := tFrom r; cName := cName r;
         iLearningTypeID := iLearningTypeID r |}
      :: relabel (i + 1) rs'
  end.

(** [df.reset_index()]: the old index becomes a column named "index",
    or "level_0" when "index" is taken; when both are, pandas refuses
    to insert it. *)
Definition reset_index (df : t) : result t :=
  if negb (str_in "index" (columns df))
  then Ok {| columns := "index" :: columns df;
             rows := relabel 0 (rows df) |}
  else if negb (str_in "level_0" (columns df))
  then Ok {| columns := "level_0" :: columns df;
             rows := relabel 0 (rows df) |}
  else Raise ValueError.

(** [df[a:b]]: rows by position, with the clipping of Python
    slices. *)
Definition clip (n i : Z) : Z :=
  if i <? 0 then Z.max 0 (i + n) else Z.min i n.

Definition slice {A : Type} (l : list A) (a b : Z) : list A :=
  let n := Z.of_nat (List.length l) in
  firstn (Z.to_nat (clip n b - clip n a)) (skipn (Z.to_nat (clip n a)) l).

(** A parser for the zero-padded texts of the two formats the module
    uses, to run the code on concrete schedules.  Timestamps count
    minutes on a calendar of 31-day months, which keeps their order. *)
Definition digit (c : ascii) : option Z :=
  let n := Z.of_nat (nat_of_ascii c) in
  if (48 <=? n) && (n <=? 57) then Some (n - 48) else None.

Definition two_digits (a b : ascii) : option Z :=
  match digit a, digit b with
  | Some x, Some y => Some (10 * x + y)
  | _, _ => None
  end.

Definition minutes_of_date (y m d : Z) : Z :=
  ((y * 12 + (m - 1)) * 31 + (d - 1)) * 1440.

Definition sample_date (s : string) : option Z :=
  match list_ascii_of_string s with
  | [y1; y2; y3; y4; "-"%char; m1; m2; "-"%char; d1; d2] =>
      match two_digits y1 y2, two_digits y3 y4,
            two_digits m1 m2, two_digits d1 d2 with
      | Some c, Some y, Some m, Some d =>
          if (1 <=? m) && (m <=? 12) && (1 <=? d) && (d <=? 31)
          then Some (minutes_of_date (100 * c + y) m d)
          else None
      | _, _, _, _ => None
      end
  | _ => None
  end.

Definition sample_time (s : string) : option Z :=
  match list_ascii_of_string s with
  | [h1; h2; ":"%char; m1; m2; " "%char; p; "M"%char] =>
      match two_digits h1 h2, two_digits m1 m2 with
      | Some h, Some m =>
          if (1 <=? h) && (h <=? 12) && (m <=? 59)
          then
            if Ascii.eqb p "A"
            then Some (minutes_of_date 1900 1 1 + (h mod 12) * 60 + m)
            else if Ascii.eqb p "P"
            then Some (minutes_of_date 1900 1 1 + (h mod 12 + 12) * 60 + m)
            else None
          else None
      | _, _ => None
      end
  | _ => None
  end.

Definition sample_strptime : Strptime :=
  {| strptime := fun fmt s =>
       if String.eqb fmt "%Y-%m-%d" then sample_date s
       else if String.eqb fmt "%I:%M %p" then sample_time s
       else None |}.

End Pandas.

(** ** feedback.py *)
Module Feedback.
Import Py Pandas.

Definition LARGE_GROUPS : list string :=
  ["Lecture"; "TBL"; "Interactive Sessions"; "Panel";
   "Clinical Correlations"].

Definition SMALL_GROUPS : list string := ["Workshop"; "Lab"].

(** A cell of the ratings table: [None], a float or an int. *)
Inductive value : Type :=
| VNone
| VFloat (q : Q)
| VInt (z : Z).

(** One entry of the list [get_sessions_for_names] returns. *)
Record FacultySessions : Type := {
  name : string;
  sessions : list string
}.

(** One entry of [faculty_comments]. *)
Record FacultyComments : Type := {
  Name : string;
  Comments : list string
}.

(** The ratings table handed to the Excel writer: the two-level
    column labels, the row labels, the cells, and the trailing
    'Sessions' column when it was inserted. *)
Record DataFrame : Type := {
  df_columns : list (string * string);
  df_index : list string;
  df_data : list (list value);
  df_Sessions : option (list string)
}.

(** What [save_comments_to_docx] puts in the document. *)
Inductive block : Type :=
| Heading (text : string) (level : Z)
| Paragraph (text : string).

(** The archive behind the download button and the name it is
    offered under. *)
Record Download : Type := {
  Ratings_xlsx : DataFrame;
  Comments_docx : list block;
  file_name : string
}.

(** The module-level names [course], [feedback_type] and
    [feedback_number]: bound by the select boxes of the script part
    (lines 314-316), unbound when the module is imported. *)
Record Globals : Type := {
  course : option string;
  feedback_type : option string;
  feedback_number : option Z
}.

Definition global {A : Type} (v : option A) : result A :=
  match v with
  | Some a => Ok a
  | None => Raise NameError
  end.

(** Code that updates the caller's schedule in place and may raise:
    the result comes with the schedule as the code leaves it. *)
Definition M (A : Type) : Type := Schedule.t -> result A * Schedule.t.

Definition ret {A : Type} (a : A) : M A := fun s => (Ok a, s).

Definition lift {A : Type} (r : result A) : M A := fun s => (r, s).

Definition bindM {A B : Type} (m : M A) (k : A -> M B) : M B :=
  fun s => match m s with
           | (Ok a, s') => k a s'
           | (Raise e, s') => (Raise e, s')
           end.

Definition get : M Schedule.t := fun s => (Ok s, s).

Definition put (s' : Schedule.t) : M unit := fun _ => (Ok tt, s').

Notation "x <- m ;; k" := (bindM m (fun x => k))
  (at level 61, m at next level, right associativity).
Notation "m ;; k" := (bindM m (fun _ => k))
  (at level 61, right associativity).

Section WithRuntime.
Context `{SetOrder} `{Strptime}.

(** [generate_feedback_info], lines 41-56.  [eval_name.strip()] on
    line 54 discards its result and is a no-op. *)
Definition generate_feedback_info (df : list ResponseRecord)
  : result (string * string * Z) :=
  let course := list_set string string_dec (map CourseName df) in
  let course_name :=
    match course with
    | [c] => c
    | _ => "Multiple courses detected"
    end in
  let* eval_title :=
    getitem (list_set string string_dec (map EvalTitle df)) 0 in
  let feedback_type :=
    if negb (find eval_title "Large Group" =? -1) then "Large Group"
    else if negb (find eval_title "Workshop/Lab" =? -1) then "Small Group"
    else "Feedback type not detected" in
  let* eval_name :=
    getitem (list_set string string_dec (map EvalName df)) 0 in
  let* c := last_char eval_name in
  let* evaluation_number := int_of_char c in
  Ok (course_name, feedback_type, evaluation_number).

(** [generate_questions_from_evaluation], lines 96-101. *)
Definition generate_questions_from_evaluation
           (feedback : list ResponseRecord) : list string :=
  let ratings_df :=
    filter (fun r => String.eqb (QuestionType r) "Radio") feedback in
  let radio_questions :=
    list_set string string_dec
      (map QuestionText
         (filter (fun r => String.eqb (QuestionType r) "Radio")
                 ratings_df)) in
  filter (fun q => (find q "offensive remarks" =? -1)
                   && (find q "mistreatment" =? -1))
         radio_questions.

(** [generate_faculty_names], lines 114-119: pairs (last, first). *)
Definition generate_faculty_names (feedback : list ResponseRecord)
  : list (string * string) :=
  let first_name := map EvaluateeFirst feedback in
  let last_name := map EvaluateeLast feedback in
  let full_name := combine last_name first_name in
  let full_name := list_set (string * string)%type pair_dec full_name in
  sort pair_leb full_name.

(** The inner loop of [get_sessions_for_names], lines 193-196. *)
Fixpoint titles_of (schedule : list Schedule.row) (schedule_ids : list Z)
         (session_ids : list Z) (session_titles : list string)
  : result (list string) :=
  match session_ids with
  | [] => Ok session_titles
  | id :: rest =>
      if existsb (Z.eqb id) schedule_ids
      then
        let* title :=
          getitem (map Schedule.cName
                     (filter (fun r => Schedule.ID r =? id) schedule)) 0 in
        titles_of schedule schedule_ids rest (session_titles ++ [title])
      else titles_of schedule schedule_ids rest session_titles
  end.

(** The body of the loop over names, lines 185-199. *)
Definition sessions_for_name (schedule : list Schedule.row)
           (schedule_ids : list Z) (sessions : list Sessions.row)
           (name : string * string) : result FacultySessions :=
  let last_name := fst name in
  let first_name := snd name in
  let full_name := (first_name ++ " " ++ last_name)%string in
  let sessions_taught :=
    filter (fun r => String.eqb (Sessions.cLname r) last_name
                     && String.eqb (Sessions.cFname r) first_name)
           sessions in
  let session_ids := list_set Z Z.eq_dec (map Sessions.ID sessions_taught) in
  let* session_titles :=
    if (0 <? Z.of_nat (List.length session_ids))
    then titles_of schedule schedule_ids session_ids []
    else Ok ["No sessions found"] in
  Ok {| name := full_name; sessions := session_titles |}.

Fixpoint sessions_loop (schedule : list Schedule.row)
         (schedule_ids : list Z) (sessions : list Sessions.row)
         (names : list (string * string))
         (faculty_sessions : list FacultySessions)
  : result (list FacultySessions) :=
  match names with
  | [] => Ok faculty_sessions
  | name :: rest =>
      let* entry := sessions_for_name schedule schedule_ids sessions name in
      sessions_loop schedule schedule_ids sessions rest
                    (faculty_sessions ++ [entry])
  end.

(** [get_sessions_for_names], lines 180-200. *)
Definition get_sessions_for_names (names : list (string * string))
           (schedule : list Schedule.row) (sessions : list Sessions.row)
  : result (list FacultySessions) :=
  let schedule_ids := sort Z.leb (map Schedule.ID schedule) in
  sessions_loop schedule schedule_ids sessions names [].

(** Lines 71-74, one in-place update each. *)
Definition set_Date : M unit :=
  schedule <- get ;;
  dates <- lift (to_datetime "%Y-%m-%d"
                   (map Schedule.Date (Schedule.rows schedule))) ;;
  put {| Schedule.columns := Schedule.columns schedule;
         Schedule.rows :=
           assign with_Date (Schedule.rows schedule) dates |}.

Definition set_tFrom : M unit :=
  schedule <- get ;;
  times <- lift (to_datetime "%I:%M %p"
                   (map Schedule.tFrom (Schedule.rows schedule))) ;;
  put {| Schedule.columns := Schedule.columns schedule;
         Schedule.rows :=
           assign with_tFrom (Schedule.rows schedule) times |}.

Definition sort_values : M unit :=
  schedule <- get ;;
  put {| Schedule.columns := Schedule.columns schedule;
         Schedule.rows := sort key_leb (Schedule.rows schedule) |}.

Definition reset_index_inplace : M unit :=
  schedule <- get ;;
  schedule' <- lift (reset_index schedule) ;;
  put schedule'.

(** [generate_schedule_for_evaluation], lines 71-82. *)
Definition generate_schedule_for_evaluation (evaluation_number : Z)
           (feedback_type : string) : M (list Schedule.row) :=
  set_Date ;;
  set_tFrom ;;
  sort_values ;;
  reset_index_inplace ;;
  schedule <- get ;;
  let assessments :=
    map Schedule.label
        (filter (fun r => contains (Schedule.iLearningTypeID r) "Assessment")
                (Schedule.rows schedule)) in
  let assessments := 0 :: assessments in
  lo <- lift (getitem assessments (evaluation_number - 1)) ;;
  hi <- lift (getitem assessments evaluation_number) ;;
  let schedule_for_feedback := slice (Schedule.rows schedule) lo hi in
  if String.eqb feedback_type "Large Group"
  then ret (filter (fun r => str_in (Schedule.iLearningTypeID r)
                                    LARGE_GROUPS)
                   schedule_for_feedback)
  else if String.eqb feedback_type "Small Group"
  then ret (filter (fun r => str_in (Schedule.iLearningTypeID r)
                                    SMALL_GROUPS)
                   schedule_for_feedback)
  else ret schedule_for_feedback.

(** [[response for response in responses if response > 0.0]]. *)
Fixpoint non_zero (responses : list float) : list Q :=
  match responses with
  | [] => []
  | response :: rest =>
      match response with
      | Some q => if gt_zero response then q :: non_zero rest
                  else non_zero rest
      | None => non_zero rest
      end
  end.

(** The body of the loop over questions, lines 224-241: the four
    cells appended for one question. *)
Definition ratings_for_question (temp_df : list ResponseRecord)
           (question : string) : list value :=
  let question_df :=
    filter (fun r => String.eqb (QuestionText r) question) temp_df in
  let responses := map ResponseValue question_df in
  let non_zero_responses := non_zero responses in
  let n := Z.of_nat (List.length non_zero_responses) in
  let share (a b : Q) : Q :=
    (Py.round (inject_Z (Z.of_nat (count a non_zero_responses
                                   + count b non_zero_responses))
               / inject_Z n) 3 * 100)%Q in
  if 0 <? n
  then [VFloat (Py.round (Qsum non_zero_responses / inject_Z n) 1);
        VInt n;
        VFloat (share 5%Q 4%Q);
        VFloat (share 1%Q 2%Q)]
  else [VNone; VInt n; VNone; VNone].

(** [[c for c in faculty_comments if type(c) is str and
    c.find('-----') == -1]]. *)
Fixpoint keep_comments (faculty_comments : list cell) : list string :=
  match faculty_comments with
  | [] => []
  | CStr comment :: rest =>
      if find comment "-----" =? -1 then comment :: keep_comments rest
      else keep_comments rest
  | _ :: rest => keep_comments rest
  end.

(** [generate_ratings_and_comments_for_name], lines 218-250. *)
Definition generate_ratings_and_comments_for_name
           (feedback : list ResponseRecord) (name : string * string)
           (questions_to_evaluate : list string)
  : string * list value * list string :=
  let last_name := fst name in
  let first_name := snd name in
  let name := (first_name ++ " " ++ last_name)%string in
  let temp_df :=
    filter (fun r => String.eqb (EvaluateeLast r) last_name
                     && String.eqb (EvaluateeFirst r) first_name)
           feedback in
  let ratings :=
    fold_left (fun ratings question =>
                 ratings ++ ratings_for_question temp_df question)
              questions_to_evaluate [] in
  let faculty_comments :=
    map ResponseText
        (filter (fun r => String.eqb (QuestionType r) "Text") temp_df) in
  let faculty_comments := keep_comments faculty_comments in
  let comments :=
    if 0 <? Z.of_nat (List.length faculty_comments)
    then faculty_comments
    else ["No comments"] in
  (name, ratings, comments).

(** [save_comments_to_docx], lines 152-157: the headings and
    paragraphs added to the document.  Whether python-docx accepts
    their text (it refuses control characters) is not modelled. *)
Definition newline : string := String (ascii_of_nat 10) EmptyString.

Definition save_comments_to_docx (comments : list FacultyComments)
           (course feedback_type : string) : list block :=
  Heading (course ++ " - " ++ feedback_type)%string 0
  :: Heading "Comments for Faculty" 1
  :: flat_map (fun person =>
                 Heading (Name person) 2
                 :: map (fun comment => Paragraph (comment ++ newline)%string)
                        (Comments person))
              comments.

(** What the loop of lines 283-290 accumulates. *)
Record Acc : Type := {
  names_for_dataframe : list string;
  faculty_ratings : list (list value);
  faculty_comments : list FacultyComments;
  acc_sessions : list string
}.

(** One round of that loop. *)
Definition collect (feedback : list ResponseRecord) (questions : list string)
           (sessions_taught : option (list FacultySessions))
           (acc : Acc) (name : string * string) : result Acc :=
  let '(faculty_name, ratings, comments) :=
    generate_ratings_and_comments_for_name feedback name questions in
  let* sessions' :=
    match sessions_taught with
    | Some taught =>
        let* faculty_sessions :=
          getitem (map sessions
                     (filter (fun item => String.eqb (Feedback.name item)
                                                     faculty_name)
                             taught)) 0 in
        Ok (acc_sessions acc ++ [join ", " faculty_sessions])
    | None => Ok (acc_sessions acc)
    end in
  Ok {| names_for_dataframe := names_for_dataframe acc ++ [faculty_name];
        faculty_ratings := faculty_ratings acc ++ [ratings];
        faculty_comments :=
          faculty_comments acc
          ++ [{| Name := faculty_name; Comments := comments |}];
        acc_sessions := sessions' |}.

Fixpoint collect_all (feedback : list ResponseRecord)
         (questions : list string)
         (sessions_taught : option (list FacultySessions))
         (full_names : list (string * string)) (acc : Acc) : result Acc :=
  match full_names with
  | [] => Ok acc
  | name :: rest =>
      let* acc' := collect feedback questions sessions_taught acc name in
      collect_all feedback questions sessions_taught rest acc'
  end.

(** Lines 273-277: the schedule is windowed, and mutated, only when
    both optional tables were passed. *)
Definition attribute_sessions (g : Globals)
           (full_names : list (string * string))
           (schedule : option Schedule.t)
           (faculty : option (list Sessions.row))
  : result (option (list FacultySessions)) * option Schedule.t :=
  match schedule, faculty with
  | Some sched, Some fac =>
      match (let* number := global (feedback_number g) in
             let* type := global (feedback_type g) in
             Ok (number, type)) with
      | Ok (number, type) =>
          match generate_schedule_for_evaluation number type sched with
          | (Ok schedule_for_eval, sched') =>
              (let* sessions_taught :=
                 get_sessions_for_names full_names schedule_for_eval fac in
               Ok (Some sessions_taught),
               Some sched')
          | (Raise e, sched') => (Raise e, Some sched')
          end
      | Raise e => (Raise e, Some sched)
      end
  | _, _ => (Ok None, schedule)
  end.

(** [process_feedback_data], lines 266-309.  The call of
    [generate_feedback_info] on line 265 is commented out: [course],
    [feedback_type] and [feedback_number] are read from the module's
    globals.  The result is what is handed to the writers of the
    archive offered for download, with the schedule as the call leaves
    it; a refusal by a writer on lines 301-302 is not modelled. *)
Definition process_feedback_data (g : Globals)
           (feedback : list ResponseRecord)
           (schedule : option Schedule.t)
           (faculty : option (list Sessions.row))
  : result Download * option Schedule.t :=
  let questions := generate_questions_from_evaluation feedback in
  let full_names := generate_faculty_names feedback in
  let '(attributed, schedule') :=
    attribute_sessions g full_names schedule faculty in
  (let* sessions_taught := attributed in
   let* acc :=
     collect_all feedback questions sessions_taught full_names
       {| names_for_dataframe := []; faculty_ratings := [];
          faculty_comments := []; acc_sessions := [] |} in
   let cols :=
     list_prod questions
       ["Average Rating"; "Count"; "Percent Strongly Agree or Agree";
        "Percent Disagree or Strongly Disagree"] in
   let values_and_counts_df :=
     {| df_columns := cols;
        df_index := names_for_dataframe acc;
        df_data := faculty_ratings acc;
        df_Sessions :=
          if Nat.eqb (List.length (acc_sessions acc))
                     (List.length (names_for_dataframe acc))
          then Some (acc_sessions acc)
          else None |} in
   let* course := global (course g) in
   let* type := global (feedback_type g) in
   Ok {| Ratings_xlsx := values_and_counts_df;
         Comments_docx :=
           save_comments_to_docx (faculty_comments acc) course type;
         file_name := (course ++ " " ++ type ++ " Feedback.zip")%string |},
   schedule').

End WithRuntime.

End Feedback.

(** ** Comparing cells of the ratings table *)

(** Two cells hold the same number: floats as rationals, ints as
    integers. *)
Definition value_eq (a b : Feedback.value) : Prop :=
  match a, b with
  | Feedback.VNone, Feedback.VNone => True
  | Feedback.VFloat x, Feedback.VFloat y => (x == y)%Q
  | Feedback.VInt x, Feedback.VInt y => x = y
  | _, _ => False
  end.

(** The text cells the comment collector reads for one instructor
    (line 243). *)
Definition text_cells (feedback : list ResponseRecord)
           (name : string * string) : list cell :=
  map ResponseText
      (filter (fun r => String.eqb (QuestionType r) "Text")
              (filter (fun r => String.eqb (EvaluateeLast r) (fst name)
                                && String.eqb (EvaluateeFirst r) (snd name))
                      feedback)).

(** A cell the comment collector keeps. *)
Definition kept (c : cell) : bool :=
  match c with
  | CStr s => negb (Py.contains s "-----")
  | _ => false
  end.

(** ** Vocabulary for the schedule *)

(** A row flagged as an assessment event (line 75). *)
Definition is_assessment (r : Schedule.row) : bool :=
  Py.contains (Schedule.iLearningTypeID r) "Assessment".

(** The positions, counted from [i], of the elements that satisfy [p],
    in ascending order. *)
Fixpoint positions_from {A : Type} (p : A -> bool) (i : nat) (l : list A)
  : list nat :=
  match l with
  | [] => []
  | x :: l' => if p x then i :: positions_from p (S i) l'
               else positions_from p (S i) l'
  end.

Definition positions {A : Type} (p : A -> bool) (l : list A) : list nat :=
  positions_from p 0 l.

(** The rows at positions [a], ..., [b - 1]: the half-open range
    from [a] to [b]. *)
Definition rows_between {A : Type} (a b : nat) (l : list A) : list A :=
  firstn (b - a) (skipn a l).

(** The filter of lines 78-81. *)
Definition by_category (feedback_type : string) (window : list Schedule.row)
  : list Schedule.row :=
  if String.eqb feedback_type "Large Group"
  then filter (fun r => Py.str_in (Schedule.iLearningTypeID r)
                                  Feedback.LARGE_GROUPS) window
  else if String.eqb feedback_type "Small Group"
  then filter (fun r => Py.str_in (Schedule.iLearningTypeID r)
                                  Feedback.SMALL_GROUPS) window
  else window.

(** The in-place part of [generate_schedule_for_evaluation], lines
    71-74. *)
Definition lines_71_74 `{Pandas.Strptime} : Feedback.M unit :=
  Feedback.bindM Feedback.set_Date (fun _ =>
  Feedback.bindM Feedback.set_tFrom (fun _ =>
  Feedback.bindM Feedback.sort_values (fun _ =>
  Feedback.reset_index_inplace))).

(** A cell after [pd.to_datetime] went through its column. *)
Definition stamped `{Pandas.Strptime} (fmt : string) (c : Schedule.timecell)
  : Schedule.timecell :=
  match c with
  | Schedule.Raw s => match Pandas.strptime fmt s with
                      | Some t => Schedule.Stamp t
                      | None => Schedule.Raw s
                      end
  | c => c
  end.

(** A row with both of its time columns parsed. *)
Definition parsed_row `{Pandas.Strptime} (r : Schedule.row) : Schedule.row :=
  Pandas.with_tFrom
    (Pandas.with_Date r (stamped "%Y-%m-%d" (Schedule.Date r)))
    (stamped "%I:%M %p" (Schedule.tFrom r)).

(** A cell that [pd.to_datetime] accepts under the format. *)
Definition parses `{Pandas.Strptime} (fmt : string) (c : Schedule.timecell)
  : Prop :=
  match c with
  | Schedule.Raw s => Pandas.strptime fmt s <> None
  | _ => True
  end.

(** A schedule the in-place part runs through: its dates and start
    times have the expected formats, and "index" and "level_0" are not
    both columns of it already. *)
Definition well_formed `{Pandas.Strptime} (s : Schedule.t) : Prop :=
  (forall r, In r (Schedule.rows s) ->
             parses "%Y-%m-%d" (Schedule.Date r)
             /\ parses "%I:%M %p" (Schedule.tFrom r))
  /\ (Py.str_in "index" (Schedule.columns s) = false
      \/ Py.str_in "level_0" (Schedule.columns s) = false).

(** The schedule as lines 71-74 leave it: time columns parsed, rows
    in the order of the stable sort and relabelled from 0, the old
    labels in a new column. *)
Definition prepared `{Pandas.Strptime} (s : Schedule.t) : Schedule.t :=
  {| Schedule.columns :=
       (if Py.str_in "index" (Schedule.columns s) then "level_0"
        else "index") :: Schedule.columns s;
     Schedule.rows :=
       Pandas.relabel 0
         (Py.sort Pandas.key_leb (map parsed_row (Schedule.rows s))) |}.

(** The order of the sort keys. *)
Definition key_le (r1 r2 : Schedule.row) : Prop :=
  Pandas.key_leb r1 r2 = true.

(** ** Vocabulary for sessions and for the pipeline *)

(** The title of the first row of the window with a given identifier. *)
Definition title_in (schedule : list Schedule.row) (id : Z) : option string :=
  option_map Schedule.cName
             (List.find (fun r => Schedule.ID r =? id) schedule).

(** The titles of the identifiers that occur in the window, in the
    order of the identifiers. *)
Definition matched_titles (schedule : list Schedule.row) (ids : list Z)
  : list string :=
  flat_map (fun id => match title_in schedule id with
                      | Some title => [title]
                      | None => []
                      end) ids.

(** The teaching-assignment rows of an instructor (line 188). *)
Definition assignments (sessions : list Sessions.row)
           (name : string * string) : list Sessions.row :=
  filter (fun r => String.eqb (Sessions.cLname r) (fst name)
                   && String.eqb (Sessions.cFname r) (snd name))
         sessions.

(** "First Last". *)
Definition display (name : string * string) : string :=
  (snd name ++ " " ++ fst name)%string.

(** A response with its three metadata columns blanked. *)
Definition without_metadata (r : ResponseRecord) : ResponseRecord :=
  {| CourseName := "";
     EvalTitle := "";
     EvalName := "";
     QuestionType := QuestionType r;
     QuestionText := QuestionText r;
     EvaluateeFirst := EvaluateeFirst r;
     EvaluateeLast := EvaluateeLast r;
     ResponseValue := ResponseValue r;
     ResponseText := ResponseText r |}.

(** ** Vocabulary for repeated and failed calls of the windower *)

(** A row whose label has been stored once more in a column inserted
    by [reset_index], the label staying what it was. *)
Definition saved_again (r : Schedule.row) : Schedule.row :=
  {| Schedule.label := Schedule.label r;
     Schedule.saved := Schedule.label r :: Schedule.saved r;
     Schedule.ID := Schedule.ID r;
     Schedule.Date := Schedule.Date r;
     Schedule.tFrom := Schedule.tFrom r;
     Schedule.cName := Schedule.cName r;
     Schedule.iLearningTypeID := Schedule.iLearningTypeID r |}.

(** The rows the windower returns for an evaluation number, none when
    it raises. *)
Definition window_of `{Pandas.Strptime} (s : Schedule.t) (ft : string)
           (N : Z) : list Schedule.row :=
  match fst (Feedback.generate_schedule_for_evaluation N ft s) with
  | Py.Ok window => window
  | Py.Raise _ => []
  end.

(** The schedule with only its Date column converted: what line 71
    leaves when line 72 fails. *)
Definition dates_only `{Pandas.Strptime} (s : Schedule.t) : Schedule.t :=
  {| Schedule.columns := Schedule.columns s;
     Schedule.rows :=
       map (fun r => Pandas.with_Date r (stamped "%Y-%m-%d" (Schedule.Date r)))
           (Schedule.rows s) |}.

(** ** Vocabulary for the assembled report *)

(** The cell of the 'Sessions' column for a display name: the joined
    sessions of the first entry under that name (line 289). *)
Definition sessions_cell (taught : list Feedback.FacultySessions)
           (display_name : string) : string :=
  Py.join ", "
    (match List.find (fun item => String.eqb (Feedback.name item) display_name)
                     taught with
     | Some item => Feedback.sessions item
     | None => []
     end).

(** What the loop of lines 283-290 has accumulated after the given
    instructors. *)
Definition collected (feedback : list ResponseRecord) (questions : list string)
           (sessions_taught : option (list Feedback.FacultySessions))
           (names : list (string * string)) (acc : Feedback.Acc)
  : Feedback.Acc :=
  {| Feedback.names_for_dataframe :=
       Feedback.names_for_dataframe acc ++ map display names;
     Feedback.faculty_ratings :=
       Feedback.faculty_ratings acc
       ++ map (fun name =>
                 snd (fst (Feedback.generate_ratings_and_comments_for_name
                             feedback name questions)))
              names;
     Feedback.faculty_comments :=
       Feedback.faculty_comments acc
       ++ map (fun name =>
                 {| Feedback.Name := display name;
                    Feedback.Comments :=
                      snd (Feedback.generate_ratings_and_comments_for_name
                             feedback name questions) |})
              names;
     Feedback.acc_sessions :=
       match sessions_taught with
       | Some taught =>
           Feedback.acc_sessions acc
           ++ map (fun name => sessions_cell taught (display name)) names
       | None => Feedback.acc_sessions acc
       end |}.

(** Reading a comments document back: the paragraphs that follow a
    heading, and the sections opened by the headings of level 2. *)
Fixpoint leading_paragraphs (doc : list Feedback.block) : list string :=
  match doc with
  | Feedback.Paragraph text :: rest => text :: leading_paragraphs rest
  | _ => []
  end.

Fixpoint sections_of (doc : list Feedback.block)
  : list (string * list string) :=
  match doc with
  | [] => []
  | Feedback.Heading text level :: rest =>
      if level =? 2 then (text, leading_paragraphs rest) :: sections_of rest
      else sections_of rest
  | Feedback.Paragraph _ :: rest => sections_of rest
  end.

(** ** Tables to run the code on *)
Module Examples.

Definition clarity : string := "The instructor explained concepts clearly".

Definition rating (question first last : string) (v : Q) : ResponseRecord :=
  {| CourseName := "Anatomy";
     EvalTitle := "Anatomy Large Group Feedback";
     EvalName := "Mid-course Feedback 1";
     QuestionType := "Radio";
     QuestionText := question;
     EvaluateeFirst := first;
     EvaluateeLast := last;
     ResponseValue := Some v;
     ResponseText := CNaN |}.

Definition comment (first last : string) (c : cell) : ResponseRecord :=
  {| CourseName := "Anatomy";
     EvalTitle := "Anatomy Large Group Feedback";
     EvalName := "Mid-course Feedback 1";
     QuestionType := "Text";
     QuestionText := "Comments for the instructor";
     EvaluateeFirst := first;
     EvaluateeLast := last;
     ResponseValue := None;
     ResponseText := c |}.

Definition feedback : list ResponseRecord :=
  [ rating clarity "Jane" "Doe" 0;
    rating clarity "Jane" "Doe" 0;
    rating clarity "Jane" "Doe" 5;
    rating clarity "Jane" "Doe" 4;
    rating clarity "Jane" "Doe" 3;
    rating "The instructor made offensive remarks" "Jane" "Doe" 1;
    rating "I witnessed mistreatment of students" "Jane" "Doe" 1;
    comment "Jane" "Doe" (CStr "Great job");
    comment "Jane" "Doe" (CStr "-----");
    comment "Jane" "Doe" (CInt 42);
    comment "Jane" "Doe" (CStr "Needs work");
    rating clarity "John" "Roe" 2;
    comment "John" "Roe" (CStr "-----");
    comment "John" "Roe" CNaN ].

(** Responses of two evaluations in one table. *)
Definition second_evaluation (r : ResponseRecord) : ResponseRecord :=
  {| CourseName := CourseName r;
     EvalTitle := "Anatomy Workshop/Lab Feedback";
     EvalName := "Mid-course Feedback 2";
     QuestionType := QuestionType r;
     QuestionText := QuestionText r;
     EvaluateeFirst := EvaluateeFirst r;
     EvaluateeLast := EvaluateeLast r;
     ResponseValue := ResponseValue r;
     ResponseText := ResponseText r |}.

Definition two_evaluations : list ResponseRecord :=
  feedback ++ map second_evaluation feedback.

Definition entry (label id : Z) (date time title type : string)
  : Schedule.row :=
  {| Schedule.label := label;
     Schedule.saved := [];
     Schedule.ID := id;
     Schedule.Date := Schedule.Raw date;
     Schedule.tFrom := Schedule.Raw time;
     Schedule.cName := title;
     Schedule.iLearningTypeID := type |}.

(** A schedule as read from a file: 21 sessions in no particular
    order, three of them assessments. *)
Definition schedule : Schedule.t :=
  {| Schedule.columns := [];
     Schedule.rows := [
    entry 0 103 "2024-09-04" "09:00 AM" "Membranes" "TBL";
    entry 1 115 "2024-09-16" "09:00 AM" "Receptors" "TBL";
    entry 2 107 "2024-09-08" "09:00 AM" "Enzymes" "Lecture";
    entry 3 109 "2024-09-10" "09:00 AM" "Case Workshop" "Workshop";
    entry 4 117 "2024-09-18" "09:00 AM" "Cell Cycle" "Lecture";
    entry 5 106 "2024-09-06" "01:30 PM" "Quiz 1" "Assessment";
    entry 6 113 "2024-09-14" "09:00 AM" "Midterm" "Summative Assessment";
    entry 7 104 "2024-09-04" "01:30 PM" "Histology Lab" "Lab";
    entry 8 120 "2024-09-20" "01:30 PM" "Apoptosis" "Lecture";
    entry 9 121 "2024-09-22" "09:00 AM" "Final Exam" "Final Assessment";
    entry 10 101 "2024-09-02" "09:00 AM" "Cell Structure" "Lecture";
    entry 11 114 "2024-09-14" "01:30 PM" "Signal Transduction" "Lecture";
    entry 12 102 "2024-09-02" "01:30 PM" "Microscopy Workshop" "Workshop";
    entry 13 110 "2024-09-10" "01:30 PM" "Metabolic Pathways" "Interactive Sessions";
    entry 14 111 "2024-09-12" "09:00 AM" "Tissue Lab" "Lab";
    entry 15 116 "2024-09-16" "01:30 PM" "Pharmacology Workshop" "Workshop";
    entry 16 112 "2024-09-12" "01:30 PM" "Diabetes Correlation" "Clinical Correlations";
    entry 17 105 "2024-09-06" "09:00 AM" "Patient Panel" "Panel";
    entry 18 118 "2024-09-18" "01:30 PM" "Mitosis Lab" "Lab";
    entry 19 119 "2024-09-20" "09:00 AM" "Oncology Panel" "Panel";
    entry 20 108 "2024-09-08" "01:30 PM" "Glycolysis" "Lecture" ] |}.

Definition taught (id : Z) (last first : string) : Sessions.row :=
  {| Sessions.ID := id; Sessions.cLname := last; Sessions.cFname := first |}.

Definition faculty : list Sessions.row :=
  [ taught 101 "Doe" "Jane";
    taught 103 "Doe" "Jane";
    taught 103 "Doe" "Jane";
    taught 120 "Doe" "Jane";
    taught 115 "Roe" "John" ].

(** The select boxes set to another course, category and number than
    the ones written in [feedback]. *)
Definition selected : Feedback.Globals :=
  {| Feedback.course := Some "Homeostasis";
     Feedback.feedback_type := Some "Small Group";
     Feedback.feedback_number := Some 2 |}.

(** A response under another evaluation name. *)
Definition renamed (evaluation : string) (r : ResponseRecord)
  : ResponseRecord :=
  {| CourseName := CourseName r;
     EvalTitle := EvalTitle r;
     EvalName := evaluation;
     QuestionType := QuestionType r;
     QuestionText := QuestionText r;
     EvaluateeFirst := EvaluateeFirst r;
     EvaluateeLast := EvaluateeLast r;
     ResponseValue := ResponseValue r;
     ResponseText := ResponseText r |}.

(** The example schedule with one start time that is not on the
    12-hour clock. *)
Definition schedule_bad_time : Schedule.t :=
  {| Schedule.columns := [];
     Schedule.rows :=
       entry 21 122 "2024-09-01" "14:00" "Orientation" "Lecture"
       :: Schedule.rows schedule |}.

(** The example schedule with one date that is no date. *)
Definition schedule_bad_date : Schedule.t :=
  {| Schedule.columns := [];
     Schedule.rows :=
       entry 21 122 "to be announced" "09:00 AM" "Orientation" "Lecture"
       :: Schedule.rows schedule |}.

End Examples.

(** * Properties *)

Import Py Pandas Feedback.

(** ** Strings *)

Lemma prefix_app (sub s : string) :
  prefix sub s = true <-> exists t, s = (sub ++ t)%string.
Proof.
  revert s; induction sub as [|a sub IH]; intros s.
  - split; [intros _; exists s; reflexivity | intros _; destruct s; reflexivity].
  - destruct s as [|b s]; simpl.
    + split; [discriminate | intros [t Ht]; discriminate].
    + destruct (ascii_dec a b) as [->|Hab].
      * rewrite IH. split; intros [t Ht]; exists t; congruence.
      * split; [discriminate | intros [t Ht]; congruence].
Qed.

Lemma find_from_range (sub s : string) (i : Z) :
  find_from i sub s = -1 \/ i <= find_from i sub s.
Proof.
  revert i; induction s as [|c s IH]; intros i; cbn [find_from].
  - destruct (prefix sub ""); [right; lia | left; reflexivity].
  - destruct (prefix sub (String c s)); [right; lia|].
    destruct (IH (i + 1)); [left; assumption | right; lia].
Qed.

Lemma find_from_found (sub s : string) (i : Z) :
  0 <= i -> (find_from i sub s <> -1 <-> occurs_in sub s).
Proof.
  revert i; induction s as [|c s IH]; intros i Hi.
  - cbn [find_from]. destruct (prefix sub "") eqn:Hp.
    + split; [intros _ | intros _; lia].
      apply prefix_app in Hp. destruct Hp as [t Ht].
      exists "", t. exact Ht.
    + split; [intros Hne; exfalso; apply Hne; reflexivity|].
      intros (pre & post & Hs). exfalso.
      destruct pre; [|discriminate]. simpl in Hs.
      assert (prefix sub "" = true) by (apply prefix_app; eauto).
      congruence.
  - cbn [find_from]. destruct (prefix sub (String c s)) eqn:Hp.
    + split; [intros _ | intros _; lia].
      apply prefix_app in Hp. destruct Hp as [t Ht].
      exists "", t. exact Ht.
    + rewrite (IH (i + 1)) by lia. split.
      * intros (pre & post & Hs). exists (String c pre), post.
        simpl. congruence.
      * intros (pre & post & Hs). destruct pre as [|a pre].
        -- simpl in Hs.
           assert (prefix sub (String c s) = true)
             by (apply prefix_app; eauto).
           congruence.
        -- simpl in Hs. injection Hs as _ Hs. exists pre, post. exact Hs.
Qed.

(** [s.find(sub) == -1] says exactly that [sub] does not occur in [s]. *)
Lemma find_minus_one (s sub : string) :
  (find s sub =? -1) = true <-> ~ occurs_in sub s.
Proof.
  unfold find. rewrite Z.eqb_eq, <- (find_from_found sub s 0) by lia.
  destruct (Z.eq_dec (find_from 0 sub s) (-1)); tauto.
Qed.

Lemma contains_occurs (s sub : string) :
  contains s sub = true <-> occurs_in sub s.
Proof.
  unfold contains, find.
  rewrite negb_true_iff, Z.eqb_neq. apply find_from_found. lia.
Qed.

(** ** Question Selector *)

(** C9. Whatever the table and whatever order the set of question
    texts is iterated in, no question returned by
    [generate_questions_from_evaluation] contains "offensive remarks" or
    "mistreatment"; each one is the text of a row of type "Radio". *)
Theorem C9_sensitive_questions_excluded :
  forall (so : SetOrder) (feedback : list ResponseRecord) (q : string),
    In q (generate_questions_from_evaluation feedback) ->
    ~ occurs_in "offensive remarks" q
    /\ ~ occurs_in "mistreatment" q
    /\ exists r, In r feedback /\ QuestionType r = "Radio"
                 /\ QuestionText r = q.
Proof.
  intros so feedback q Hq.
  unfold generate_questions_from_evaluation in Hq.
  apply filter_In in Hq. destruct Hq as [Hin Hkeep].
  apply andb_true_iff in Hkeep. destruct Hkeep as [Hoff Hmis].
  apply find_minus_one in Hoff. apply find_minus_one in Hmis.
  split; [exact Hoff | split; [exact Hmis|]].
  apply list_set_In in Hin. apply in_map_iff in Hin.
  destruct Hin as (r & Hr & Hin).
  apply filter_In in Hin. destruct Hin as [Hin _].
  apply filter_In in Hin. destruct Hin as [Hin Hty].
  exists r. repeat split; try assumption.
  apply String.eqb_eq. exact Hty.
Qed.

Lemma C9_sensitive_questions_excluded_witness :
  In Examples.clarity
     (@generate_questions_from_evaluation last_occurrence_order
        Examples.feedback)
  /\ ~ occurs_in "offensive remarks" Examples.clarity.
Proof.
  assert (Hin : In Examples.clarity
                   (@generate_questions_from_evaluation last_occurrence_order
                      Examples.feedback))
    by (vm_compute; left; reflexivity).
  split; [exact Hin|].
  exact (proj1 (C9_sensitive_questions_excluded
                  last_occurrence_order Examples.feedback
                  Examples.clarity Hin)).
Defined.

(** ** Comment Collector *)

Lemma kept_iff (c : cell) :
  kept c = true <-> exists s, c = CStr s /\ ~ occurs_in "-----" s.
Proof.
  destruct c as [s|z|q|]; simpl.
  - rewrite negb_true_iff, <- not_true_iff_false, contains_occurs.
    split.
    + intros Hs. exists s. split; [reflexivity | exact Hs].
    + intros (s' & Heq & Hs). injection Heq as ->. exact Hs.
  - split; [discriminate | intros (s & Heq & _); discriminate].
  - split; [discriminate | intros (s & Heq & _); discriminate].
  - split; [discriminate | intros (s & Heq & _); discriminate].
Qed.

Lemma keep_comments_filter (l : list cell) :
  map CStr (keep_comments l) = filter kept l.
Proof.
  induction l as [|c l IH]; [reflexivity|].
  destruct c as [s|z|q|]; simpl; try exact IH.
  unfold contains. destruct (find s "-----" =? -1); simpl.
  - now rewrite IH.
  - exact IH.
Qed.

Lemma comments_of_name (feedback : list ResponseRecord)
      (name : string * string) (questions : list string) :
  snd (generate_ratings_and_comments_for_name feedback name questions)
  = match keep_comments (text_cells feedback name) with
    | [] => ["No comments"]
    | kept_comments => kept_comments
    end.
Proof.
  unfold generate_ratings_and_comments_for_name, text_cells. simpl.
  destruct (keep_comments _); reflexivity.
Qed.

(** C8. The comments returned for an instructor are the text cells of
    that instructor's "Text" rows that are strings without "-----", in
    row order; when none is left the result is exactly
    ["No comments"].  The cells "Great job", "-----", 42, "Needs work"
    give ["Great job"; "Needs work"]. *)
Theorem C8_comment_collector :
  forall (feedback : list ResponseRecord) (name : string * string)
         (questions : list string),
    let texts := text_cells feedback name in
    let comments :=
      snd (generate_ratings_and_comments_for_name feedback name questions) in
    (forall c, kept c = true
               <-> exists s, c = CStr s /\ ~ occurs_in "-----" s)
    /\ (filter kept texts <> [] -> map CStr comments = filter kept texts)
    /\ (filter kept texts = [] -> comments = ["No comments"])
    /\ (texts = [CStr "Great job"; CStr "-----"; CInt 42; CStr "Needs work"]
        -> comments = ["Great job"; "Needs work"]).
Proof.
  intros feedback name questions texts comments.
  assert (Hc := comments_of_name feedback name questions).
  fold texts in Hc. fold comments in Hc.
  assert (Hf := keep_comments_filter texts).
  split; [exact kept_iff|]. split; [|split].
  - intros Hne. rewrite Hc.
    destruct (keep_comments texts) as [|s l] eqn:Hk.
    + simpl in Hf. congruence.
    + exact Hf.
  - intros Hnil. rewrite Hc. rewrite Hnil in Hf.
    destruct (keep_comments texts); [reflexivity | discriminate].
  - intros Ht. rewrite Hc, Ht. reflexivity.
Qed.

Lemma C8_comment_collector_witness :
  text_cells Examples.feedback ("Doe", "Jane")
  = [CStr "Great job"; CStr "-----"; CInt 42; CStr "Needs work"]
  /\ snd (generate_ratings_and_comments_for_name
            Examples.feedback ("Doe", "Jane") [Examples.clarity])
     = ["Great job"; "Needs work"]
  /\ filter kept (text_cells Examples.feedback ("Roe", "John")) = []
  /\ snd (generate_ratings_and_comments_for_name
            Examples.feedback ("Roe", "John") [Examples.clarity])
     = ["No comments"].
Proof.
  split; [reflexivity|]. split; [|split; [reflexivity|]].
  - apply (C8_comment_collector
             Examples.feedback ("Doe", "Jane") [Examples.clarity]).
    reflexivity.
  - apply (C8_comment_collector
             Examples.feedback ("Roe", "John") [Examples.clarity]).
    reflexivity.
Defined.

(** ** Rating Aggregator *)

Lemma ratings_flat_map (temp_df : list ResponseRecord)
      (questions : list string) (ratings : list value) :
  fold_left (fun ratings question =>
               ratings ++ ratings_for_question temp_df question)
            questions ratings
  = ratings ++ flat_map (ratings_for_question temp_df) questions.
Proof.
  revert ratings; induction questions as [|q qs IH]; intros ratings; simpl.
  - now rewrite app_nil_r.
  - rewrite IH. now rewrite app_assoc.
Qed.

(** C1 (as the code has it). Responses [0, 0, 5, 4, 3] of one
    instructor to one question leave [5, 4, 3] and give average 4.0,
    count 3, percent favourable 66.7 (the ratio is rounded to three
    decimals and then scaled by 100, so one decimal of the percentage
    is kept) and percent unfavourable 0. *)
Theorem C1_rating_aggregator :
  forall (feedback : list ResponseRecord) (name : string * string)
         (question : string),
    let temp_df :=
      filter (fun r => String.eqb (EvaluateeLast r) (fst name)
                       && String.eqb (EvaluateeFirst r) (snd name))
             feedback in
    let responses :=
      map ResponseValue
          (filter (fun r => String.eqb (QuestionText r) question) temp_df) in
    responses = [Some 0%Q; Some 0%Q; Some 5%Q; Some 4%Q; Some 3%Q] ->
    non_zero responses = [5%Q; 4%Q; 3%Q]
    /\ Forall2 value_eq
         (snd (fst (generate_ratings_and_comments_for_name
                      feedback name [question])))
         [VFloat 4; VInt 3; VFloat (667 # 10); VFloat 0].
Proof.
  intros feedback name question temp_df responses Hr.
  split; [rewrite Hr; reflexivity|].
  unfold generate_ratings_and_comments_for_name. cbn [fst snd].
  fold temp_df. rewrite ratings_flat_map. cbn [flat_map app].
  rewrite app_nil_r. unfold ratings_for_question.
  fold responses. rewrite Hr.
  repeat constructor; vm_compute; reflexivity.
Qed.

Lemma C1_rating_aggregator_witness :
  Forall2 value_eq
    (snd (fst (generate_ratings_and_comments_for_name
                 Examples.feedback ("Doe", "Jane") [Examples.clarity])))
    [VFloat 4; VInt 3; VFloat (667 # 10); VFloat 0].
Proof.
  apply (C1_rating_aggregator
           Examples.feedback ("Doe", "Jane") Examples.clarity).
  reflexivity.
Defined.

(** C1 as stated fails: the percent favourable of [0, 0, 5, 4, 3] is
    66.7, not 67. *)
Lemma C1_percent_favorable_not_67 :
  ~ Forall2 value_eq
      (snd (fst (generate_ratings_and_comments_for_name
                   Examples.feedback ("Doe", "Jane") [Examples.clarity])))
      [VFloat 4; VInt 3; VFloat 67; VFloat 0].
Proof.
  vm_compute. intros Hall.
  inversion Hall as [|a b l l' _ Hrest]; subst.
  inversion Hrest as [|a1 b1 l1 l1' _ Hrest1]; subst.
  inversion Hrest1 as [|a2 b2 l2 l2' Hfav _]; subst.
  vm_compute in Hfav. discriminate.
Qed.

(** ** Sets as lists *)

Section SetOrderFacts.
Context {so : SetOrder} {A : Type} (dec : forall x y : A, {x = y} + {x <> y}).

Lemma list_set_nil : list_set A dec [] = [].
Proof.
  destruct (list_set A dec []) as [|x l] eqn:Hl; [reflexivity|].
  exfalso. apply (proj1 (list_set_In A dec [] x)).
  rewrite Hl. left. reflexivity.
Qed.

Lemma list_set_nonempty (l : list A) : l <> [] -> list_set A dec l <> [].
Proof.
  destruct l as [|x l]; [congruence|]. intros _ Hnil.
  assert (Hin : In x (list_set A dec (x :: l)))
    by (apply list_set_In; left; reflexivity).
  rewrite Hnil in Hin. exact Hin.
Qed.

Lemma list_set_constant (l : list A) (c : A) :
  l <> [] -> (forall x, In x l -> x = c) -> list_set A dec l = [c].
Proof.
  intros Hne Hall.
  assert (Hnd := list_set_NoDup A dec l).
  assert (Hne' := list_set_nonempty l Hne).
  assert (Hall' : forall x, In x (list_set A dec l) -> x = c)
    by (intros x Hx; apply Hall; apply (list_set_In A dec); exact Hx).
  destruct (list_set A dec l) as [|x [|y t]]; [congruence| |].
  - f_equal. apply Hall'. left. reflexivity.
  - exfalso. inversion Hnd as [|? ? Hnotin _]; subst. apply Hnotin.
    rewrite (Hall' x), (Hall' y); simpl; auto.
Qed.

Lemma list_set_distinct (l : list A) (x y : A) :
  In x l -> In y l -> x <> y -> forall c, list_set A dec l <> [c].
Proof.
  intros Hx Hy Hxy c Hl.
  apply (list_set_In A dec) in Hx. apply (list_set_In A dec) in Hy.
  rewrite Hl in Hx, Hy. simpl in Hx, Hy.
  destruct Hx as [Hx|[]]. destruct Hy as [Hy|[]]. congruence.
Qed.

Lemma getitem_first (l : list A) :
  l <> [] -> exists x, getitem (list_set A dec l) 0 = Ok x /\ In x l.
Proof.
  intros Hne. apply list_set_nonempty in Hne.
  destruct (list_set A dec l) as [|x t] eqn:Hl; [congruence|].
  exists x. split.
  - unfold getitem. cbn [List.length]. rewrite Nat2Z.inj_succ.
    replace (0 <? 0) with false by reflexivity.
    replace ((0 <=? 0) && (0 <? Z.succ (Z.of_nat (List.length t))))
      with true by (symmetry; apply andb_true_iff; split;
                    [reflexivity | apply Z.ltb_lt; lia]).
    reflexivity.
  - apply (list_set_In A dec). rewrite Hl. left. reflexivity.
Qed.

End SetOrderFacts.

(** ** Metadata Extractor *)

(** On a table without rows line 46 indexes an empty list. *)
Lemma generate_feedback_info_no_rows (so : SetOrder) :
  generate_feedback_info [] = Raise IndexError.
Proof.
  unfold generate_feedback_info. simpl map.
  rewrite !list_set_nil. reflexivity.
Qed.

(** C2 (as the code has it). On a table with at least one row whose
    evaluation names all end in a digit, [generate_feedback_info]
    returns: the course is the single course of the table, or the marker
    "Multiple courses detected" when two rows differ in it; the
    feedback type is one of its three values and the number is the
    digit. *)
Theorem C2_metadata_extractor :
  forall (so : SetOrder) (df : list ResponseRecord),
    df <> [] ->
    (forall r, In r df ->
               exists c n, last_char (EvalName r) = Ok c
                           /\ int_of_char c = Ok n) ->
    exists course_name feedback_type evaluation_number,
      generate_feedback_info df
      = Ok (course_name, feedback_type, evaluation_number)
      /\ (forall c, (forall r, In r df -> CourseName r = c) ->
                    course_name = c)
      /\ ((exists r1 r2, In r1 df /\ In r2 df
                         /\ CourseName r1 <> CourseName r2) ->
          course_name = "Multiple courses detected")
      /\ In feedback_type
            ["Large Group"; "Small Group"; "Feedback type not detected"]
      /\ exists r c, In r df /\ last_char (EvalName r) = Ok c
                     /\ int_of_char c = Ok evaluation_number.
Proof.
  intros so df Hne Hnames.
  assert (Hne' : forall f : ResponseRecord -> string, map f df <> [])
    by (intros f Hm; apply map_eq_nil in Hm; congruence).
  destruct (getitem_first string_dec (map EvalTitle df) (Hne' _))
    as (title & Htitle & _).
  destruct (getitem_first string_dec (map EvalName df) (Hne' _))
    as (ename & Hname & Hin).
  apply in_map_iff in Hin. destruct Hin as (r & <- & Hr).
  destruct (Hnames r Hr) as (c & n & Hc & Hn).
  unfold generate_feedback_info.
  rewrite Htitle, Hname. cbn [bind]. rewrite Hc. cbn [bind].
  rewrite Hn. cbn [bind].
  eexists _, _, n. split; [reflexivity|].
  split; [|split; [|split]].
  - intros c0 Hall.
    rewrite (list_set_constant string_dec (map CourseName df) c0 (Hne' _)).
    + reflexivity.
    + intros x Hx. apply in_map_iff in Hx.
      destruct Hx as (r0 & <- & Hr0). apply Hall. exact Hr0.
  - intros (r1 & r2 & H1 & H2 & Hdiff).
    assert (Hd := list_set_distinct string_dec (map CourseName df)
                    (CourseName r1) (CourseName r2)
                    (in_map CourseName df r1 H1)
                    (in_map CourseName df r2 H2) Hdiff).
    destruct (list_set string string_dec (map CourseName df))
      as [|x [|y t]]; try reflexivity.
    exfalso. apply (Hd x). reflexivity.
  - destruct (negb (find title "Large Group" =? -1));
      [|destruct (negb (find title "Workshop/Lab" =? -1))];
      simpl; auto.
  - exists r, c. auto.
Qed.

(** With two evaluations in the table, which title and name are taken
    depends on the order in which the sets are iterated. *)
Lemma first_title_depends_on_order :
  @generate_feedback_info last_occurrence_order Examples.two_evaluations
  = Ok ("Anatomy", "Large Group", 1)
  /\ @generate_feedback_info reversed_order Examples.two_evaluations
     = Ok ("Anatomy", "Small Group", 2).
Proof. split; vm_compute; reflexivity. Qed.

Lemma C2_metadata_extractor_witness :
  exists course_name feedback_type evaluation_number,
    @generate_feedback_info last_occurrence_order Examples.feedback
    = Ok (course_name, feedback_type, evaluation_number)
    /\ course_name = "Anatomy".
Proof.
  assert (Hne : Examples.feedback <> []) by discriminate.
  assert (Hnames : forall r, In r Examples.feedback ->
                     exists c n, last_char (EvalName r) = Ok c
                                 /\ int_of_char c = Ok n).
  { intros r Hr. exists "1"%char, 1.
    simpl in Hr.
    repeat (destruct Hr as [<-|Hr]; [split; reflexivity|]).
    destruct Hr. }
  destruct (C2_metadata_extractor last_occurrence_order
              Examples.feedback Hne Hnames)
    as (course_name & ft & n & Hrun & Hsingle & _).
  exists course_name, ft, n. split; [exact Hrun|].
  apply Hsingle. intros r Hr. simpl in Hr.
  repeat (destruct Hr as [<-|Hr]; [reflexivity|]).
  destruct Hr.
Defined.

(** C2 as stated fails: a table without rows makes
    [generate_feedback_info] raise [IndexError], whatever the order of
    sets. *)
Lemma C2_no_rows_raises :
  ~ (forall (so : SetOrder) (df : list ResponseRecord),
        df = []
        \/ (exists r1 r2, In r1 df /\ In r2 df
                          /\ CourseName r1 <> CourseName r2) ->
        exists info, generate_feedback_info df = Ok info).
Proof.
  intros Hclaim.
  destruct (Hclaim last_occurrence_order [] (or_introl eq_refl))
    as (info & Hinfo).
  rewrite generate_feedback_info_no_rows in Hinfo. discriminate.
Qed.

(** ** Lists, indices and slices *)

Lemma getitem_in_range {A : Type} (l : list A) (i : Z) (d : A) :
  0 <= i < Z.of_nat (List.length l) ->
  getitem l i = Ok (nth (Z.to_nat i) l d).
Proof.
  intros Hi. unfold getitem.
  replace (i <? 0) with false by (symmetry; apply Z.ltb_ge; lia).
  replace ((0 <=? i) && (i <? Z.of_nat (List.length l))) with true
    by (symmetry; apply andb_true_iff; split;
        [apply Z.leb_le | apply Z.ltb_lt]; lia).
  destruct (nth_error l (Z.to_nat i)) as [a|] eqn:Hnth.
  - f_equal. symmetry. apply nth_error_nth. exact Hnth.
  - apply nth_error_None in Hnth. lia.
Qed.



Lemma slice_rows_between {A : Type} (l : list A) (a b : nat) :
  (a <= List.length l)%nat -> (b <= List.length l)%nat ->
  slice l (Z.of_nat a) (Z.of_nat b) = rows_between a b l.
Proof.
  intros Ha Hb. unfold slice, rows_between, clip.
  replace (Z.of_nat a <? 0) with false by (symmetry; apply Z.ltb_ge; lia).
  replace (Z.of_nat b <? 0) with false by (symmetry; apply Z.ltb_ge; lia).
  rewrite !Z.min_l by lia.
  rewrite Nat2Z.id. f_equal. lia.
Qed.

(** [rows_between a b l] holds the rows of [l] at positions [a] up to,
    not including, [b]. *)
Lemma rows_between_nth {A : Type} (l : list A) (a b i : nat) :
  nth_error (rows_between a b l) i
  = if (i <? b - a)%nat then nth_error l (a + i) else None.
Proof.
  unfold rows_between.
  destruct (i <? b - a)%nat eqn:Hi.
  - apply Nat.ltb_lt in Hi.
    rewrite nth_error_firstn.
    replace (i <? b - a)%nat with true by (symmetry; apply Nat.ltb_lt; lia).
    apply nth_error_skipn.
  - apply Nat.ltb_ge in Hi. apply nth_error_None.
    rewrite length_firstn. lia.
Qed.

Lemma positions_from_bound {A : Type} (p : A -> bool) (l : list A) (i x : nat) :
  In x (positions_from p i l) -> (i <= x < i + List.length l)%nat.
Proof.
  revert i; induction l as [|y l IH]; intros i; simpl; [tauto|].
  destruct (p y); simpl; intros Hx.
  - destruct Hx as [<-|Hx]; [lia | apply IH in Hx; lia].
  - apply IH in Hx. lia.
Qed.

Lemma positions_from_length {A : Type} (p : A -> bool) (l : list A) (i : nat) :
  List.length (positions_from p i l) = List.length (filter p l).
Proof.
  revert i; induction l as [|y l IH]; intros i; simpl; [reflexivity|].
  destruct (p y); simpl; now rewrite IH.
Qed.

Lemma positions_from_ascending {A : Type} (p : A -> bool) (l : list A)
      (i : nat) :
  StronglySorted lt (positions_from p i l).
Proof.
  revert i; induction l as [|y l IH]; intros i; simpl; [constructor|].
  destruct (p y); [|apply IH].
  constructor; [apply IH|].
  apply Forall_forall. intros x Hx.
  apply positions_from_bound in Hx. lia.
Qed.


(** ** The stable sort *)

Section SortFacts.
Context {A : Type} (leb : A -> A -> bool).
Hypothesis leb_total : forall x y, leb x y = false -> leb y x = true.

Let le (x y : A) : Prop := leb x y = true.

Lemma insert_perm (x : A) (l : list A) : Permutation (insert leb x l) (x :: l).
Proof.
  induction l as [|y l IH]; simpl; [reflexivity|].
  destruct (leb x y); [reflexivity|].
  rewrite IH. apply perm_swap.
Qed.

Lemma sort_perm (l : list A) : Permutation (sort leb l) l.
Proof.
  induction l as [|x l IH]; simpl; [reflexivity|].
  rewrite insert_perm. now constructor.
Qed.

Lemma insert_hd (x y : A) (l : list A) :
  le y x -> HdRel le y l -> HdRel le y (insert leb x l).
Proof.
  intros Hyx Hhd. destruct l as [|z l]; simpl.
  - constructor. exact Hyx.
  - destruct (leb x z); constructor; [exact Hyx|].
    inversion Hhd; assumption.
Qed.

Lemma insert_sorted (x : A) (l : list A) :
  Sorted le l -> Sorted le (insert leb x l).
Proof.
  induction l as [|y l IH]; simpl; intros Hs.
  - repeat constructor.
  - destruct (leb x y) eqn:Hxy.
    + constructor; [exact Hs | constructor; exact Hxy].
    + inversion Hs as [|? ? Hs' Hhd]; subst.
      constructor; [apply IH; exact Hs'|].
      apply insert_hd; [apply leb_total; exact Hxy | exact Hhd].
Qed.

Lemma sort_sorted (l : list A) : Sorted le (sort leb l).
Proof.
  induction l as [|x l IH]; simpl; [constructor|].
  apply insert_sorted. exact IH.
Qed.

End SortFacts.

(** ** The order of the sort keys *)

Lemma cell_compare_antisym (a b : Schedule.timecell) :
  cell_compare a b = CompOpp (cell_compare b a).
Proof.
  destruct a, b; simpl; try reflexivity. apply Z.compare_antisym.
Qed.

Lemma key_leb_total (r1 r2 : Schedule.row) :
  key_leb r1 r2 = false -> key_leb r2 r1 = true.
Proof.
  unfold key_leb.
  rewrite (cell_compare_antisym (Schedule.Date r2) (Schedule.Date r1)).
  rewrite (cell_compare_antisym (Schedule.tFrom r2) (Schedule.tFrom r1)).
  destruct (cell_compare (Schedule.Date r1) (Schedule.Date r2));
    destruct (cell_compare (Schedule.tFrom r1) (Schedule.tFrom r2));
    simpl; congruence.
Qed.

Lemma cell_compare_eq_l (a b c : Schedule.timecell) :
  cell_compare a b = Eq -> cell_compare a c = cell_compare b c.
Proof.
  destruct a, b, c; simpl; try congruence; try discriminate;
    intros Hab; apply Z.compare_eq in Hab; subst; reflexivity.
Qed.

Lemma cell_compare_lt_trans (a b c : Schedule.timecell) :
  cell_compare a b = Lt -> cell_compare b c <> Gt -> cell_compare a c = Lt.
Proof.
  destruct a, b, c; simpl; try congruence; try discriminate.
  rewrite !Z.compare_lt_iff. intros Hab Hbc.
  destruct (Z.compare_spec t0 t1); try congruence; lia.
Qed.

Lemma key_le_trans (r1 r2 r3 : Schedule.row) :
  key_le r1 r2 -> key_le r2 r3 -> key_le r1 r3.
Proof.
  unfold key_le, key_leb. intros H12 H23.
  destruct (cell_compare (Schedule.Date r1) (Schedule.Date r2)) eqn:Hd12;
    [|clear H12|discriminate].
  - rewrite (cell_compare_eq_l _ _ _ Hd12).
    destruct (cell_compare (Schedule.Date r2) (Schedule.Date r3));
      [|reflexivity|discriminate].
    destruct (cell_compare (Schedule.tFrom r1) (Schedule.tFrom r2)) eqn:Ht12;
      [| |discriminate].
    + rewrite (cell_compare_eq_l _ _ _ Ht12). exact H23.
    + rewrite (cell_compare_lt_trans _ _ _ Ht12); [reflexivity|].
      destruct (cell_compare (Schedule.tFrom r2) (Schedule.tFrom r3));
        congruence.
  - rewrite (cell_compare_lt_trans _ _ _ Hd12); [reflexivity|].
    destruct (cell_compare (Schedule.Date r2) (Schedule.Date r3));
      congruence.
Qed.

(** ** Relabelling *)

Lemma relabel_length (rs : list Schedule.row) (i : Z) :
  List.length (relabel i rs) = List.length rs.
Proof.
  revert i; induction rs as [|r rs IH]; intros i; simpl; [reflexivity|].
  now rewrite IH.
Qed.

(** After [reset_index] the label of a row is its position. *)
Lemma relabel_labels (rs : list Schedule.row) (i : nat) :
  map Schedule.label (relabel (Z.of_nat i) rs)
  = map Z.of_nat (seq i (List.length rs)).
Proof.
  revert i; induction rs as [|r rs IH]; intros i; simpl; [reflexivity|].
  f_equal. replace (Z.of_nat i + 1) with (Z.of_nat (S i)) by lia. apply IH.
Qed.

Lemma relabel_assessments (rs : list Schedule.row) (i : nat) :
  map Schedule.label (filter is_assessment (relabel (Z.of_nat i) rs))
  = map Z.of_nat (positions_from is_assessment i rs).
Proof.
  revert i; induction rs as [|r rs IH]; intros i; [reflexivity|].
  cbn [relabel filter positions_from].
  replace (Z.of_nat i + 1) with (Z.of_nat (S i)) by lia.
  set (r' := Schedule.Build_row _ _ _ _ _ _ _).
  change (is_assessment r') with (is_assessment r).
  destruct (is_assessment r); cbn [map]; now rewrite IH.
Qed.

Lemma relabel_positions (rs : list Schedule.row) (i : Z) :
  positions is_assessment (relabel i rs) = positions is_assessment rs.
Proof.
  unfold positions. generalize 0%nat.
  revert i; induction rs as [|r rs IH]; intros i n; [reflexivity|].
  cbn [relabel positions_from].
  set (r' := Schedule.Build_row _ _ _ _ _ _ _).
  change (is_assessment r') with (is_assessment r).
  destruct (is_assessment r); now rewrite IH.
Qed.

Lemma relabel_sorted (rs : list Schedule.row) (i : Z) :
  Sorted key_le rs -> Sorted key_le (relabel i rs).
Proof.
  revert i; induction rs as [|r rs IH]; intros i Hs; simpl; [constructor|].
  inversion Hs as [|? ? Hs' Hhd]; subst.
  constructor; [apply IH; exact Hs'|].
  destruct rs as [|r' rs]; simpl; constructor.
  inversion Hhd; subst. assumption.
Qed.

(** ** The in-place part of the windower *)

Section InPlace.
Context {sp : Strptime}.

(** A column converts when each of its strings parses; the converted
    column is the old one with every cell stamped. *)
Lemma to_datetime_stamped (fmt : string) (col vs : list Schedule.timecell) :
  to_datetime fmt col = Ok vs -> vs = map (stamped fmt) col.
Proof.
  revert vs; induction col as [|c col IH]; intros vs; simpl.
  - intros Hvs. injection Hvs as <-. reflexivity.
  - destruct c as [s| |t]; simpl.
    + destruct (strptime fmt s); simpl; [|discriminate].
      destruct (to_datetime fmt col); simpl; [|discriminate].
      intros Hvs. injection Hvs as <-. f_equal. now apply IH.
    + destruct (to_datetime fmt col); simpl; [|discriminate].
      intros Hvs. injection Hvs as <-. f_equal. now apply IH.
    + destruct (to_datetime fmt col); simpl; [|discriminate].
      intros Hvs. injection Hvs as <-. f_equal. now apply IH.
Qed.

Lemma assign_map (upd : Schedule.row -> Schedule.timecell -> Schedule.row)
      (f : Schedule.row -> Schedule.timecell) (rs : list Schedule.row) :
  assign upd rs (map f rs) = map (fun r => upd r (f r)) rs.
Proof.
  induction rs as [|r rs IH]; simpl; [reflexivity|]. now rewrite IH.
Qed.

Lemma set_Date_run (s : Schedule.t) :
  set_Date s
  = match to_datetime "%Y-%m-%d" (map Schedule.Date (Schedule.rows s)) with
    | Ok _ =>
        (Ok tt,
         {| Schedule.columns := Schedule.columns s;
            Schedule.rows :=
              map (fun r => with_Date r (stamped "%Y-%m-%d" (Schedule.Date r)))
                  (Schedule.rows s) |})
    | Raise e => (Raise e, s)
    end.
Proof.
  unfold set_Date, bindM, get, lift, put.
  destruct (to_datetime _ _) as [dates|e] eqn:Hd; [|reflexivity].
  apply to_datetime_stamped in Hd. subst dates.
  now rewrite map_map, assign_map.
Qed.

Lemma set_tFrom_run (s : Schedule.t) :
  set_tFrom s
  = match to_datetime "%I:%M %p" (map Schedule.tFrom (Schedule.rows s)) with
    | Ok _ =>
        (Ok tt,
         {| Schedule.columns := Schedule.columns s;
            Schedule.rows :=
              map (fun r => with_tFrom r (stamped "%I:%M %p" (Schedule.tFrom r)))
                  (Schedule.rows s) |})
    | Raise e => (Raise e, s)
    end.
Proof.
  unfold set_tFrom, bindM, get, lift, put.
  destruct (to_datetime _ _) as [times|e] eqn:Ht; [|reflexivity].
  apply to_datetime_stamped in Ht. subst times.
  now rewrite map_map, assign_map.
Qed.

Lemma sort_values_run (s : Schedule.t) :
  sort_values s
  = (Ok tt,
     {| Schedule.columns := Schedule.columns s;
        Schedule.rows := sort key_leb (Schedule.rows s) |}).
Proof. reflexivity. Qed.

Lemma reset_index_inplace_run (s : Schedule.t) :
  reset_index_inplace s
  = match reset_index s with
    | Ok s' => (Ok tt, s')
    | Raise e => (Raise e, s)
    end.
Proof.
  unfold reset_index_inplace, bindM, get, lift, put.
  destruct (reset_index s); reflexivity.
Qed.

(** When lines 71-74 complete, the schedule they leave holds the rows
    of the old one with both time columns parsed, ordered by the stable
    sort, relabelled from 0, with one more column for the old labels. *)
Lemma lines_71_74_ok (s s' : Schedule.t) (u : unit) :
  lines_71_74 s = (Ok u, s') ->
  Schedule.rows s'
  = relabel 0 (sort key_leb (map parsed_row (Schedule.rows s)))
  /\ exists column,
      Schedule.columns s' = column :: Schedule.columns s
      /\ (column = "index" \/ column = "level_0")
      /\ str_in column (Schedule.columns s) = false.
Proof.
  unfold lines_71_74, bindM at 1. rewrite set_Date_run.
  destruct (to_datetime "%Y-%m-%d" _); [|discriminate].
  unfold bindM at 1. rewrite set_tFrom_run. cbn [Schedule.rows].
  destruct (to_datetime "%I:%M %p" _); [|discriminate].
  unfold bindM. rewrite sort_values_run, reset_index_inplace_run.
  cbn [Schedule.rows Schedule.columns]. rewrite map_map.
  change (map _ (Schedule.rows s)) with (map parsed_row (Schedule.rows s)).
  unfold reset_index. cbn [Schedule.rows Schedule.columns].
  destruct (str_in "index" (Schedule.columns s)) eqn:Hi; cbn [negb].
  - destruct (str_in "level_0" (Schedule.columns s)) eqn:Hl; cbn [negb];
      [discriminate|].
    intros Heq. injection Heq as _ <-. split; [reflexivity|].
    exists "level_0". auto.
  - intros Heq. injection Heq as _ <-. split; [reflexivity|].
    exists "index". auto.
Qed.

Lemma to_datetime_total (fmt : string) (col : list Schedule.timecell) :
  (forall c, In c col -> parses fmt c) ->
  to_datetime fmt col = Ok (map (stamped fmt) col).
Proof.
  induction col as [|c col IH]; intros Hall; [reflexivity|].
  cbn [to_datetime map]. rewrite IH by (intros c' Hc'; apply Hall; now right).
  assert (Hc := Hall c (or_introl eq_refl)).
  destruct c as [x| |t]; simpl in *; try reflexivity.
  destruct (strptime fmt x); [reflexivity | congruence].
Qed.

Lemma to_datetime_parses (fmt : string) (col vs : list Schedule.timecell) :
  to_datetime fmt col = Ok vs -> forall c, In c col -> parses fmt c.
Proof.
  revert vs; induction col as [|c0 col IH]; intros vs Hrun c Hc;
    [destruct Hc|].
  simpl in Hrun.
  destruct (to_datetime fmt col) as [rest|e] eqn:Hrest.
  - destruct Hc as [<-|Hc]; [|exact (IH rest eq_refl c Hc)].
    destruct c0 as [x| |t]; simpl in *; auto.
    destruct (strptime fmt x); [discriminate | discriminate].
  - exfalso. destruct c0 as [x| |t]; simpl in Hrun; try discriminate.
    destruct (strptime fmt x); simpl in Hrun; discriminate.
Qed.

(** On a well-formed schedule lines 71-74 complete. *)
Lemma lines_71_74_total (s : Schedule.t) :
  well_formed s -> lines_71_74 s = (Ok tt, prepared s).
Proof.
  intros [Hcells Hcols].
  unfold lines_71_74, bindM at 1. rewrite set_Date_run.
  rewrite to_datetime_total
    by (intros c Hc; apply in_map_iff in Hc;
        destruct Hc as (r & <- & Hr); apply (Hcells r Hr)).
  unfold bindM at 1. rewrite set_tFrom_run. cbn [Schedule.rows].
  rewrite to_datetime_total
    by (intros c Hc; rewrite map_map in Hc; apply in_map_iff in Hc;
        destruct Hc as (r & <- & Hr); apply (Hcells r Hr)).
  unfold bindM. rewrite sort_values_run, reset_index_inplace_run.
  cbn [Schedule.rows Schedule.columns]. rewrite map_map.
  change (map _ (Schedule.rows s)) with (map parsed_row (Schedule.rows s)).
  unfold reset_index, prepared. cbn [Schedule.rows Schedule.columns].
  destruct (str_in "index" (Schedule.columns s)); cbn [negb];
    [|reflexivity].
  destruct Hcols as [Hcols|Hcols]; [discriminate|].
  rewrite Hcols. reflexivity.
Qed.

(** Lines 71-74 complete on well-formed schedules only. *)
Lemma lines_71_74_well_formed (s s' : Schedule.t) (u : unit) :
  lines_71_74 s = (Ok u, s') -> well_formed s /\ s' = prepared s.
Proof.
  intros Hrun.
  assert (Hwf : well_formed s).
  { revert Hrun. unfold lines_71_74, bindM at 1. rewrite set_Date_run.
    destruct (to_datetime "%Y-%m-%d" _) as [dates|] eqn:Hd; [|discriminate].
    unfold bindM at 1. rewrite set_tFrom_run. cbn [Schedule.rows].
    destruct (to_datetime "%I:%M %p" _) as [times|] eqn:Ht; [|discriminate].
    unfold bindM. rewrite sort_values_run, reset_index_inplace_run.
    unfold reset_index. cbn [Schedule.rows Schedule.columns].
    intros Hreset. split.
    - intros r Hr. split.
      + apply (to_datetime_parses _ _ _ Hd). apply in_map. exact Hr.
      + apply (to_datetime_parses _ _ _ Ht). rewrite map_map.
        apply (in_map (fun r => Schedule.tFrom r)) in Hr. exact Hr.
    - destruct (str_in "index" (Schedule.columns s)); [|now left].
      destruct (str_in "level_0" (Schedule.columns s)); [|now right].
      discriminate. }
  split; [exact Hwf|].
  rewrite (lines_71_74_total s Hwf) in Hrun. congruence.
Qed.

(** The windower is the in-place part followed by the two look-ups in
    the list of boundaries, the slice and the filter; whatever stops
    it, the schedule stays as the in-place part left it. *)
Lemma generate_run (s : Schedule.t) (N : Z) (ft : string) :
  generate_schedule_for_evaluation N ft s
  = match lines_71_74 s with
    | (Raise e, s1) => (Raise e, s1)
    | (Ok _, s') =>
        let boundaries :=
          0 :: map Schedule.label
                   (filter is_assessment (Schedule.rows s')) in
        match getitem boundaries (N - 1) with
        | Raise e => (Raise e, s')
        | Ok lo =>
            match getitem boundaries N with
            | Raise e => (Raise e, s')
            | Ok hi =>
                (Ok (by_category ft (slice (Schedule.rows s') lo hi)), s')
            end
        end
    end.
Proof.
  unfold generate_schedule_for_evaluation, lines_71_74.
  unfold bindM.
  destruct (set_Date s) as [[[]|e] s1]; [|reflexivity].
  destruct (set_tFrom s1) as [[[]|e] s2]; [|reflexivity].
  destruct (sort_values s2) as [[[]|e] s3]; [|reflexivity].
  destruct (reset_index_inplace s3) as [[[]|e] s4]; [|reflexivity].
  unfold bindM, get, lift, ret. cbn zeta.
  fold is_assessment.
  destruct (getitem _ (N - 1)); [|reflexivity].
  destruct (getitem _ N); [|reflexivity].
  unfold by_category.
  destruct (String.eqb ft "Large Group"); [reflexivity|].
  destruct (String.eqb ft "Small Group"); reflexivity.
Qed.

End InPlace.

(** ** Schedule Windower *)

Lemma filter_length_perm {A : Type} (p : A -> bool) (l l' : list A) :
  Permutation l l' -> List.length (filter p l) = List.length (filter p l').
Proof.
  induction 1 as [|x l l' _ IH|x y l|l l' l'' _ IH1 _ IH2]; simpl.
  - reflexivity.
  - destruct (p x); simpl; now rewrite IH.
  - destruct (p x), (p y); reflexivity.
  - now rewrite IH1.
Qed.

Lemma relabel_In (rs : list Schedule.row) (i : Z) (r : Schedule.row) :
  In r (relabel i rs) ->
  exists r0, In r0 rs
             /\ Schedule.Date r = Schedule.Date r0
             /\ Schedule.tFrom r = Schedule.tFrom r0
             /\ Schedule.saved r = Schedule.label r0 :: Schedule.saved r0.
Proof.
  revert i; induction rs as [|r1 rs IH]; intros i; simpl; [tauto|].
  intros [<-|Hin].
  - exists r1. simpl. auto.
  - destruct (IH _ Hin) as (r0 & Hr0 & Hrest). exists r0. auto.
Qed.

Section Windower.
Context {sp : Strptime}.

Lemma to_datetime_no_text (fmt : string) (col vs : list Schedule.timecell) :
  to_datetime fmt col = Ok vs ->
  forall c, In c col -> forall x, stamped fmt c <> Schedule.Raw x.
Proof.
  revert vs; induction col as [|c0 col IH]; intros vs Hrun c Hc x;
    [destruct Hc|].
  simpl in Hrun.
  destruct (to_datetime fmt col) as [rest|e] eqn:Hrest.
  - destruct Hc as [<-|Hc]; [|exact (IH rest eq_refl c Hc x)].
    destruct c0 as [s| |t]; simpl in *; try discriminate.
    destruct (strptime fmt s); [discriminate|].
    simpl in Hrun. discriminate.
  - exfalso. destruct c0 as [s| |t]; simpl in Hrun; try discriminate.
    destruct (strptime fmt s); simpl in Hrun; discriminate.
Qed.

(** After lines 71-74 no cell of the two time columns is text. *)
Lemma lines_71_74_no_text (s s' : Schedule.t) (u : unit) :
  lines_71_74 s = (Ok u, s') ->
  forall r, In r (Schedule.rows s') ->
            (forall x, Schedule.Date r <> Schedule.Raw x)
            /\ (forall x, Schedule.tFrom r <> Schedule.Raw x).
Proof.
  intros Hrun r Hr.
  destruct (lines_71_74_ok s s' u Hrun) as [Hrows _].
  rewrite Hrows in Hr. apply relabel_In in Hr.
  destruct Hr as (r0 & Hr0 & -> & -> & _).
  apply (Permutation_in _ (sort_perm key_leb _)) in Hr0.
  apply in_map_iff in Hr0. destruct Hr0 as (r1 & <- & Hr1).
  revert Hrun. unfold lines_71_74, bindM at 1. rewrite set_Date_run.
  destruct (to_datetime "%Y-%m-%d" _) as [dates|] eqn:Hd; [|discriminate].
  unfold bindM at 1. rewrite set_tFrom_run. cbn [Schedule.rows].
  destruct (to_datetime "%I:%M %p" _) as [times|] eqn:Ht; [|discriminate].
  intros _. split; intros x; cbn.
  - apply (to_datetime_no_text _ _ _ Hd). apply in_map. exact Hr1.
  - apply (to_datetime_no_text _ _ _ Ht).
    rewrite map_map. cbn.
    apply (in_map (fun r => Schedule.tFrom r)) in Hr1. exact Hr1.
Qed.

Lemma lines_71_74_sorted (s s' : Schedule.t) (u : unit) :
  lines_71_74 s = (Ok u, s') -> StronglySorted key_le (Schedule.rows s').
Proof.
  intros Hrun. destruct (lines_71_74_ok s s' u Hrun) as [-> _].
  apply Sorted_StronglySorted.
  - intros r1 r2 r3. apply key_le_trans.
  - apply relabel_sorted. apply sort_sorted. exact key_leb_total.
Qed.

Lemma lines_71_74_labels (s s' : Schedule.t) (u : unit) :
  lines_71_74 s = (Ok u, s') ->
  map Schedule.label (Schedule.rows s')
  = map Z.of_nat (seq 0 (List.length (Schedule.rows s'))).
Proof.
  intros Hrun. destruct (lines_71_74_ok s s' u Hrun) as [-> _].
  rewrite relabel_length. exact (relabel_labels _ 0).
Qed.

(** Parsing, sorting and relabelling keep the number of assessment
    rows. *)
Lemma lines_71_74_assessments (s s' : Schedule.t) (u : unit) :
  lines_71_74 s = (Ok u, s') ->
  List.length (positions is_assessment (Schedule.rows s'))
  = List.length (filter is_assessment (Schedule.rows s)).
Proof.
  intros Hrun. destruct (lines_71_74_ok s s' u Hrun) as [-> _].
  unfold positions. rewrite positions_from_length.
  change (filter is_assessment (relabel 0 ?l))
    with (filter is_assessment (relabel (Z.of_nat 0) l)).
  rewrite <- (length_map Schedule.label), relabel_assessments, length_map.
  rewrite positions_from_length.
  rewrite (filter_length_perm _ _ _ (sort_perm key_leb _)).
  induction (Schedule.rows s) as [|r rs IH]; simpl; [reflexivity|].
  change (is_assessment (parsed_row r)) with (is_assessment r).
  destruct (is_assessment r); simpl; now rewrite IH.
Qed.

(** The list of boundaries the code builds on lines 75-76 is the list
    of positions of the assessment rows, with 0 in front. *)
Lemma boundaries_are_positions (s s' : Schedule.t) (u : unit) :
  lines_71_74 s = (Ok u, s') ->
  0 :: map Schedule.label (filter is_assessment (Schedule.rows s'))
  = map Z.of_nat (0%nat :: positions is_assessment (Schedule.rows s')).
Proof.
  intros Hrun. destruct (lines_71_74_ok s s' u Hrun) as [-> _].
  rewrite relabel_positions. cbn [map]. f_equal.
  exact (relabel_assessments _ 0).
Qed.

Lemma boundary_bound (rs : list Schedule.row) (i : nat) :
  (nth i (0%nat :: positions is_assessment rs) 0 <= List.length rs)%nat.
Proof.
  destruct (Nat.lt_ge_cases i
              (List.length (0%nat :: positions is_assessment rs)))
    as [Hlt|Hge].
  - assert (Hin := nth_In _ 0%nat Hlt). destruct Hin as [<-|Hin]; [lia|].
    apply positions_from_bound in Hin. lia.
  - rewrite nth_overflow by exact Hge. lia.
Qed.

(** For a valid evaluation number the windower returns the rows
    between two consecutive boundaries, filtered by category. *)
Lemma window_run (s s' : Schedule.t) (N : Z) (ft : string) :
  lines_71_74 s = (Ok tt, s') ->
  let boundaries := 0%nat :: positions is_assessment (Schedule.rows s') in
  1 <= N < Z.of_nat (List.length boundaries) ->
  generate_schedule_for_evaluation N ft s
  = (Ok (by_category ft
           (rows_between (nth (Z.to_nat (N - 1)) boundaries 0%nat)
                         (nth (Z.to_nat N) boundaries 0%nat)
                         (Schedule.rows s'))),
     s').
Proof.
  intros Hrun boundaries HN.
  rewrite generate_run, Hrun. cbn zeta.
  rewrite (boundaries_are_positions s s' tt Hrun). fold boundaries.
  rewrite (getitem_in_range _ (N - 1) 0) by (rewrite length_map; lia).
  rewrite (getitem_in_range _ N 0) by (rewrite length_map; lia).
  change 0 with (Z.of_nat 0). rewrite !map_nth.
  rewrite slice_rows_between by apply boundary_bound.
  reflexivity.
Qed.

End Windower.

Lemma example_schedule_well_formed :
  @well_formed sample_strptime Examples.schedule.
Proof.
  apply (@lines_71_74_well_formed sample_strptime Examples.schedule
           (snd (@lines_71_74 sample_strptime Examples.schedule)) tt).
  vm_compute. reflexivity.
Qed.





(** C3 (as the code has it). For a category that is neither
    "Large Group" nor "Small Group" neither filter is applied: the
    windower returns the whole window of the evaluation. *)
Theorem C3_unrecognized_category :
  forall (sp : Strptime) (s : Schedule.t) (N : Z) (ft : string),
    well_formed s ->
    let rows := Schedule.rows (prepared s) in
    let boundaries := 0%nat :: positions is_assessment rows in
    1 <= N < Z.of_nat (List.length boundaries) ->
    ft <> "Large Group" ->
    ft <> "Small Group" ->
    generate_schedule_for_evaluation N ft s
    = (Ok (rows_between (nth (Z.to_nat (N - 1)) boundaries 0%nat)
                        (nth (Z.to_nat N) boundaries 0%nat)
                        rows),
       prepared s).
Proof.
  intros sp s N ft Hwf rows boundaries HN Hlarge Hsmall.
  rewrite (window_run s _ N ft (lines_71_74_total s Hwf) HN).
  unfold by_category.
  apply String.eqb_neq in Hlarge. apply String.eqb_neq in Hsmall.
  rewrite Hlarge, Hsmall. reflexivity.
Qed.

Lemma C3_unrecognized_category_witness :
  let s' := @prepared sample_strptime Examples.schedule in
  @generate_schedule_for_evaluation sample_strptime 1
    "Feedback type not detected" Examples.schedule
  = (Ok (rows_between 0 5 (Schedule.rows s')), s')
  /\ map Schedule.ID (rows_between 0 5 (Schedule.rows s'))
     = [101; 102; 103; 104; 105].
Proof.
  intros s'. split; [|vm_compute; reflexivity].
  apply (C3_unrecognized_category sample_strptime Examples.schedule 1
           "Feedback type not detected" example_schedule_well_formed).
  - vm_compute. split; [discriminate | reflexivity].
  - discriminate.
  - discriminate.
Defined.

(** C3 as stated fails: with the category "Feedback type not detected"
    the first window of the example schedule comes back with its five
    rows. *)
Lemma C3_unrecognized_category_not_empty :
  ~ (forall (sp : Strptime) (s : Schedule.t) (N : Z) (ft : string),
        ft <> "Large Group" -> ft <> "Small Group" ->
        forall rows, fst (generate_schedule_for_evaluation N ft s) = Ok rows ->
                     rows = []).
Proof.
  intros Hclaim.
  assert (Hrun : exists rows,
             fst (@generate_schedule_for_evaluation sample_strptime 1
                    "Feedback type not detected" Examples.schedule)
             = Ok rows
             /\ List.length rows = 5%nat)
    by (eexists; split; vm_compute; reflexivity).
  destruct Hrun as (rows & Hrows & Hlen).
  apply (Hclaim sample_strptime Examples.schedule 1
           "Feedback type not detected") in Hrows; try discriminate.
  subst rows. discriminate.
Qed.

(** C10 (as the code has it). The windower works on the caller's
    schedule.  After a call on a well-formed schedule, whether it
    returned or raised on line 77, the schedule the caller holds has
    its Date and tFrom cells parsed (none is text any more), its rows
    in ascending order of (Date, tFrom), its labels reset to the
    positions and the old labels in a new column: it is not the table
    that was passed in. *)
Theorem C10_schedule_mutated :
  forall (sp : Strptime) (s : Schedule.t) (N : Z) (ft : string),
    well_formed s ->
    let s' := snd (generate_schedule_for_evaluation N ft s) in
    s' = prepared s
    /\ Schedule.rows s'
       = relabel 0 (sort key_leb (map parsed_row (Schedule.rows s)))
    /\ (forall r, In r (Schedule.rows s') ->
                  (forall x, Schedule.Date r <> Schedule.Raw x)
                  /\ (forall x, Schedule.tFrom r <> Schedule.Raw x))
    /\ StronglySorted key_le (Schedule.rows s')
    /\ map Schedule.label (Schedule.rows s')
       = map Z.of_nat (seq 0 (List.length (Schedule.rows s')))
    /\ List.length (Schedule.columns s')
       = S (List.length (Schedule.columns s))
    /\ s' <> s.
Proof.
  intros sp s N ft Hwf s'.
  assert (Hrun := lines_71_74_total s Hwf).
  assert (Hs' : s' = prepared s).
  { unfold s'. rewrite generate_run, Hrun. cbn zeta.
    destruct (getitem _ (N - 1)); [|reflexivity].
    destruct (getitem _ N); reflexivity. }
  rewrite Hs'.
  split; [reflexivity|]. split; [reflexivity|].
  split; [exact (lines_71_74_no_text s _ tt Hrun)|].
  split; [exact (lines_71_74_sorted s _ tt Hrun)|].
  split; [exact (lines_71_74_labels s _ tt Hrun)|].
  split; [reflexivity|].
  intros Heq. apply (f_equal Schedule.columns) in Heq.
  apply (f_equal (@List.length string)) in Heq.
  simpl in Heq. lia.
Qed.

Lemma C10_schedule_mutated_witness :
  let s' := snd (@generate_schedule_for_evaluation sample_strptime 2
                   "Large Group" Examples.schedule) in
  s' <> Examples.schedule
  /\ map Schedule.ID (Schedule.rows s')
     = [101; 102; 103; 104; 105; 106; 107; 108; 109; 110; 111; 112; 113;
        114; 115; 116; 117; 118; 119; 120; 121]
  /\ Schedule.columns s' = ["index"].
Proof.
  intros s'.
  split; [|split; vm_compute; reflexivity].
  exact (proj2 (proj2 (proj2 (proj2 (proj2 (proj2
           (C10_schedule_mutated sample_strptime Examples.schedule 2
              "Large Group" example_schedule_well_formed))))))).
Defined.

(** C10 as stated fails: not after any call.  On the example schedule
    with a date that is no date the call stops on line 71 and the
    caller's schedule is the table that was passed in. *)
Lemma C10_bad_date_leaves_schedule :
  ~ (forall (sp : Strptime) (s : Schedule.t) (N : Z) (ft : string),
        snd (generate_schedule_for_evaluation N ft s) <> s).
Proof.
  intros Hclaim.
  apply (Hclaim sample_strptime Examples.schedule_bad_date 1 "Large Group").
  vm_compute. reflexivity.
Qed.

(** A date that does not parse stops the windower on line 71, before
    anything is written to the schedule. *)
Lemma windower_bad_date (sp : Strptime) (s : Schedule.t) (N : Z)
      (ft : string) (e : exn) :
  to_datetime "%Y-%m-%d" (map Schedule.Date (Schedule.rows s)) = Raise e ->
  generate_schedule_for_evaluation N ft s = (Raise e, s).
Proof.
  intros Hd. rewrite generate_run.
  unfold lines_71_74, bindM at 1. rewrite set_Date_run, Hd. reflexivity.
Qed.

(** ** Session Attributor *)

Section Attributor.
Context {so : SetOrder}.

Lemma id_in_schedule (schedule : list Schedule.row) (id : Z) :
  existsb (Z.eqb id) (sort Z.leb (map Schedule.ID schedule)) = true
  <-> exists r, In r schedule /\ Schedule.ID r = id.
Proof.
  rewrite existsb_exists. split.
  - intros (x & Hx & Heq). apply Z.eqb_eq in Heq. subst x.
    apply (Permutation_in _ (sort_perm Z.leb _)) in Hx.
    apply in_map_iff in Hx. destruct Hx as (r & Hr & Hin). eauto.
  - intros (r & Hin & Hr). exists id. split; [|apply Z.eqb_refl].
    apply (Permutation_in _ (Permutation_sym (sort_perm Z.leb _))).
    rewrite <- Hr. apply in_map. exact Hin.
Qed.

Lemma title_in_found (schedule : list Schedule.row) (id : Z) :
  (exists r, In r schedule /\ Schedule.ID r = id) ->
  exists title,
    title_in schedule id = Some title
    /\ getitem (map Schedule.cName
                  (filter (fun r => Schedule.ID r =? id) schedule)) 0
       = Ok title.
Proof.
  unfold title_in.
  induction schedule as [|r0 rs IH]; intros (r & Hin & Hr); [destruct Hin|].
  simpl. destruct (Schedule.ID r0 =? id) eqn:H0.
  - exists (Schedule.cName r0). split; [reflexivity|].
    cbn [map].
    rewrite (getitem_in_range _ 0 "") by (cbn [List.length]; lia).
    reflexivity.
  - destruct Hin as [->|Hin]; [apply Z.eqb_neq in H0; congruence|].
    apply IH. eauto.
Qed.

Lemma title_in_missing (schedule : list Schedule.row) (id : Z) :
  ~ (exists r, In r schedule /\ Schedule.ID r = id) ->
  title_in schedule id = None.
Proof.
  unfold title_in. intros Hno.
  destruct (List.find _ schedule) as [r|] eqn:Hf; [|reflexivity].
  exfalso. apply Hno. apply find_some in Hf. destruct Hf as [Hin Hid].
  apply Z.eqb_eq in Hid. eauto.
Qed.

(** The inner loop never raises: the look-up of a title is guarded by
    the membership test. *)
Lemma titles_of_run (schedule : list Schedule.row) (ids : list Z)
      (titles : list string) :
  titles_of schedule (sort Z.leb (map Schedule.ID schedule)) ids titles
  = Ok (titles ++ matched_titles schedule ids).
Proof.
  revert titles; induction ids as [|id ids IH]; intros titles.
  - simpl. now rewrite app_nil_r.
  - cbn [titles_of matched_titles flat_map].
    destruct (existsb (Z.eqb id) _) eqn:Hin.
    + apply id_in_schedule in Hin.
      destruct (title_in_found schedule id Hin) as (title & Ht & Hget).
      rewrite Hget, Ht. cbn [bind]. rewrite IH.
      now rewrite <- app_assoc.
    + rewrite title_in_missing.
      * apply IH.
      * intros Hex. apply id_in_schedule in Hex. congruence.
Qed.

Lemma sessions_for_name_run (schedule : list Schedule.row)
      (sessions : list Sessions.row) (name : string * string) :
  sessions_for_name schedule (sort Z.leb (map Schedule.ID schedule))
                    sessions name
  = Ok {| Feedback.name := display name;
          Feedback.sessions :=
            match assignments sessions name with
            | [] => ["No sessions found"]
            | _ =>
                matched_titles schedule
                  (list_set Z Z.eq_dec
                     (map Sessions.ID (assignments sessions name)))
            end |}.
Proof.
  unfold sessions_for_name. fold (assignments sessions name).
  destruct (assignments sessions name) as [|a rest] eqn:Ha.
  - simpl map. rewrite list_set_nil. reflexivity.
  - assert (Hne : list_set Z Z.eq_dec (map Sessions.ID (a :: rest)) <> [])
      by (apply list_set_nonempty; discriminate).
    destruct (list_set Z Z.eq_dec (map Sessions.ID (a :: rest)))
      as [|id ids] eqn:Hids; [congruence|].
    replace (0 <? Z.of_nat (List.length (id :: ids))) with true
      by (symmetry; apply Z.ltb_lt; cbn [List.length]; lia).
    rewrite titles_of_run. reflexivity.
Qed.

Lemma sessions_loop_run (schedule : list Schedule.row)
      (sessions : list Sessions.row) (names : list (string * string))
      (done : list FacultySessions) :
  exists entries,
    sessions_loop schedule (sort Z.leb (map Schedule.ID schedule))
                  sessions names done
    = Ok (done ++ entries)
    /\ Forall2 (fun name entry =>
                  sessions_for_name schedule
                    (sort Z.leb (map Schedule.ID schedule)) sessions name
                  = Ok entry)
               names entries.
Proof.
  revert done; induction names as [|name names IH]; intros done.
  - exists []. split; [simpl; now rewrite app_nil_r | constructor].
  - cbn [sessions_loop]. rewrite sessions_for_name_run. cbn [bind].
    match goal with
    | |- context [sessions_loop _ _ _ _ ?d] =>
        destruct (IH d) as (entries & Hrun & Hall)
    end.
    eexists (_ :: entries). split.
    + rewrite Hrun, <- app_assoc. reflexivity.
    + constructor; [apply sessions_for_name_run | exact Hall].
Qed.

End Attributor.

(** C7 (as the code has it). [get_sessions_for_names] never fails and
    returns one entry per instructor, in order, under the name
    "First Last".  For an instructor without teaching-assignment rows
    the sessions are exactly ["No sessions found"]; for the others they
    are the titles of the sessions of theirs found in the windowed
    schedule, a list that is empty when none of them is in it. *)
Theorem C7_session_attributor :
  forall (so : SetOrder) (names : list (string * string))
         (schedule : list Schedule.row) (sessions : list Sessions.row),
  exists entries,
    get_sessions_for_names names schedule sessions = Ok entries
    /\ Forall2
         (fun name entry =>
            Feedback.name entry = display name
            /\ (assignments sessions name = [] ->
                Feedback.sessions entry = ["No sessions found"])
            /\ (assignments sessions name <> [] ->
                Feedback.sessions entry
                = matched_titles schedule
                    (list_set Z Z.eq_dec
                       (map Sessions.ID (assignments sessions name)))))
         names entries.
Proof.
  intros so names schedule sessions.
  destruct (sessions_loop_run schedule sessions names [])
    as (entries & Hrun & Hall).
  exists entries. split; [exact Hrun|].
  clear Hrun. induction Hall as [|name entry names entries Hone _ IH];
    constructor; [|exact IH].
  rewrite sessions_for_name_run in Hone. injection Hone as <-.
  cbn [Feedback.name Feedback.sessions].
  destruct (assignments sessions name); repeat split; congruence.
Qed.

(** C7 as stated fails: an instructor whose only session lies outside
    the window gets an empty list, not the sentinel. *)
Lemma C7_empty_sessions_list :
  ~ (forall (so : SetOrder) (names : list (string * string))
            (schedule : list Schedule.row) (sessions : list Sessions.row)
            (entries : list FacultySessions),
        get_sessions_for_names names schedule sessions = Ok entries ->
        forall entry, In entry entries -> Feedback.sessions entry <> []).
Proof.
  intros Hclaim.
  set (window :=
         rows_between 0 5
           (Schedule.rows (@prepared sample_strptime Examples.schedule))).
  assert (Hrun : @get_sessions_for_names last_occurrence_order
                   [("Roe", "John")] window Examples.faculty
                 = Ok [{| Feedback.name := "John Roe";
                          Feedback.sessions := [] |}])
    by (vm_compute; reflexivity).
  apply (Hclaim last_occurrence_order _ _ _ _ Hrun
           {| Feedback.name := "John Roe"; Feedback.sessions := [] |}).
  - left. reflexivity.
  - reflexivity.
Qed.

Lemma C7_session_attributor_witness :
  exists entries,
    @get_sessions_for_names last_occurrence_order
      [("Doe", "Jane"); ("Poe", "Ann")]
      (rows_between 0 5
         (Schedule.rows (@prepared sample_strptime Examples.schedule)))
      Examples.faculty
    = Ok entries
    /\ map Feedback.sessions entries
       = [["Cell Structure"; "Membranes"]; ["No sessions found"]].
Proof.
  destruct (C7_session_attributor last_occurrence_order
              [("Doe", "Jane"); ("Poe", "Ann")]
              (rows_between 0 5
                 (Schedule.rows (@prepared sample_strptime Examples.schedule)))
              Examples.faculty)
    as (entries & Hrun & _).
  exists entries. split; [exact Hrun|].
  vm_compute in Hrun. injection Hrun as <-. reflexivity.
Defined.

(** ** The pipeline *)

Lemma filter_map_swap {A B : Type} (f : A -> B) (p : B -> bool) (l : list A) :
  filter p (map f l) = map f (filter (fun x => p (f x)) l).
Proof.
  induction l as [|x l IH]; simpl; [reflexivity|].
  destruct (p (f x)); simpl; now rewrite IH.
Qed.

Section Pipeline.
Context {so : SetOrder} {sp : Strptime}.

Lemma questions_without_metadata (feedback : list ResponseRecord) :
  generate_questions_from_evaluation (map without_metadata feedback)
  = generate_questions_from_evaluation feedback.
Proof.
  unfold generate_questions_from_evaluation.
  rewrite !filter_map_swap, map_map. reflexivity.
Qed.

Lemma names_without_metadata (feedback : list ResponseRecord) :
  generate_faculty_names (map without_metadata feedback)
  = generate_faculty_names feedback.
Proof.
  unfold generate_faculty_names. rewrite !map_map. reflexivity.
Qed.

Lemma ratings_without_metadata (feedback : list ResponseRecord)
      (name : string * string) (questions : list string) :
  generate_ratings_and_comments_for_name
    (map without_metadata feedback) name questions
  = generate_ratings_and_comments_for_name feedback name questions.
Proof.
  unfold generate_ratings_and_comments_for_name.
  rewrite ?filter_map_swap.
  cbn [without_metadata EvaluateeLast EvaluateeFirst].
  rewrite !ratings_flat_map, ?filter_map_swap, ?map_map.
  cbn [without_metadata QuestionType ResponseText].
  f_equal. f_equal. f_equal.
  apply flat_map_ext. intros question.
  unfold ratings_for_question. rewrite filter_map_swap, map_map.
  reflexivity.
Qed.

Lemma collect_all_without_metadata (feedback : list ResponseRecord)
      (questions : list string)
      (sessions_taught : option (list FacultySessions))
      (full_names : list (string * string)) (acc : Acc) :
  collect_all (map without_metadata feedback) questions sessions_taught
              full_names acc
  = collect_all feedback questions sessions_taught full_names acc.
Proof.
  revert acc; induction full_names as [|name names IH]; intros acc;
    [reflexivity|].
  cbn [collect_all].
  replace (collect (map without_metadata feedback) questions sessions_taught
                   acc name)
    with (collect feedback questions sessions_taught acc name)
    by (unfold collect; now rewrite ratings_without_metadata).
  destruct (collect feedback questions sessions_taught acc name)
    as [acc'|e]; cbn [bind]; [apply IH | reflexivity].
Qed.

(** Without the optional tables the loop of lines 283-290 cannot
    raise. *)
Lemma collect_all_total (feedback : list ResponseRecord)
      (questions : list string) (full_names : list (string * string))
      (acc : Acc) :
  exists acc', collect_all feedback questions None full_names acc = Ok acc'.
Proof.
  revert acc; induction full_names as [|name names IH]; intros acc.
  - exists acc. reflexivity.
  - cbn [collect_all]. unfold collect.
    destruct (generate_ratings_and_comments_for_name feedback name questions)
      as [[faculty_name ratings] comments].
    cbn [bind]. apply IH.
Qed.

End Pipeline.

(** C4 as stated fails: on the example table the Metadata Extractor
    finds ("Anatomy", "Large Group", 1), and the download is labelled
    with the selected "Homeostasis" and "Small Group". *)
Lemma C4_labels_not_from_extractor :
  ~ (forall (so : SetOrder) (sp : Strptime) (g : Globals)
            (feedback : list ResponseRecord) (schedule : option Schedule.t)
            (faculty : option (list Sessions.row)) (out : Download),
        fst (process_feedback_data g feedback schedule faculty) = Ok out ->
        exists c t n,
          generate_feedback_info feedback = Ok (c, t, n)
          /\ file_name out = (c ++ " " ++ t ++ " Feedback.zip")%string).
Proof.
  intros Hclaim.
  assert (Hrun : exists out,
             fst (@process_feedback_data last_occurrence_order
                    sample_strptime Examples.selected Examples.feedback
                    None None)
             = Ok out
             /\ file_name out = "Homeostasis Small Group Feedback.zip")
    by (eexists; split; vm_compute; reflexivity).
  destruct Hrun as (out & Hout & Hname).
  destruct (Hclaim last_occurrence_order sample_strptime Examples.selected
              Examples.feedback None None out Hout)
    as (c & t & n & Hinfo & Hlabel).
  vm_compute in Hinfo. injection Hinfo as <- <- <-.
  rewrite Hname in Hlabel. discriminate.
Qed.

(** * Further properties of the code *)

(** ** Question Selector, both directions *)

(** X1. The questions returned are exactly the texts of the "Radio"
    rows that contain neither "offensive remarks" nor "mistreatment",
    each of them once. *)
Theorem questions_exactly_the_eligible :
  forall (so : SetOrder) (feedback : list ResponseRecord),
    NoDup (generate_questions_from_evaluation feedback)
    /\ forall q,
        In q (generate_questions_from_evaluation feedback)
        <-> (exists r, In r feedback /\ QuestionType r = "Radio"
                       /\ QuestionText r = q)
            /\ ~ occurs_in "offensive remarks" q
            /\ ~ occurs_in "mistreatment" q.
Proof.
  intros so feedback. unfold generate_questions_from_evaluation. split.
  - apply NoDup_filter. apply list_set_NoDup.
  - intros q. rewrite filter_In, andb_true_iff, !find_minus_one.
    rewrite list_set_In, in_map_iff.
    split.
    + intros ((r & Hq & Hr) & Hoff & Hmis).
      apply filter_In in Hr. destruct Hr as [Hr _].
      apply filter_In in Hr. destruct Hr as [Hr Hty].
      apply String.eqb_eq in Hty. eauto 6.
    + intros ((r & Hr & Hty & Hq) & Hoff & Hmis).
      split; [|split; assumption].
      exists r. split; [exact Hq|].
      apply String.eqb_eq in Hty.
      apply filter_In. split; [|exact Hty].
      apply filter_In. split; assumption.
Qed.

(** ** Rating Aggregator, edge cases *)

Lemma non_zero_none (responses : list float) :
  (forall x, In x responses -> gt_zero x = false) -> non_zero responses = [].
Proof.
  induction responses as [|x l IH]; intros Hall; [reflexivity|].
  assert (Hx := Hall x (or_introl eq_refl)).
  cbn [non_zero]. rewrite Hx.
  destruct x; apply IH; intros y Hy; apply Hall; now right.
Qed.

(** X2. When an instructor has no response to a question, or only
    zeros, negative values and NaN, the four cells are None, the count
    0, None, None: nothing is divided by the empty count. *)
Theorem no_valid_response_gives_none :
  forall (feedback : list ResponseRecord) (name : string * string)
         (question : string),
    (forall r, In r feedback ->
               EvaluateeLast r = fst name -> EvaluateeFirst r = snd name ->
               QuestionText r = question ->
               gt_zero (ResponseValue r) = false) ->
    snd (fst (generate_ratings_and_comments_for_name
                feedback name [question]))
    = [VNone; VInt 0; VNone; VNone].
Proof.
  intros feedback name question Hnone.
  unfold generate_ratings_and_comments_for_name. cbn [fst snd].
  rewrite ratings_flat_map. cbn [flat_map app]. rewrite app_nil_r.
  unfold ratings_for_question.
  rewrite non_zero_none; [reflexivity|].
  intros x Hx. apply in_map_iff in Hx. destruct Hx as (r & <- & Hr).
  apply filter_In in Hr. destruct Hr as [Hr Hq].
  apply filter_In in Hr. destruct Hr as [Hr Hn].
  apply andb_true_iff in Hn. destruct Hn as [Hl Hf].
  apply String.eqb_eq in Hq, Hl, Hf. now apply Hnone.
Qed.

Lemma no_valid_response_gives_none_witness :
  snd (fst (generate_ratings_and_comments_for_name
              Examples.feedback ("Roe", "John")
              ["I witnessed mistreatment of students"]))
  = [VNone; VInt 0; VNone; VNone].
Proof.
  apply no_valid_response_gives_none.
  intros r Hr Hl Hf Hq. simpl in Hr.
  repeat (destruct Hr as [<-|Hr]; [try discriminate; try reflexivity|]).
  destruct Hr.
Defined.

(** X3. The summary of an instructor is computed from that
    instructor's rows alone: rows about other instructors, wherever
    they stand in the table, change nothing. *)
Theorem summary_ignores_other_instructors :
  forall (feedback others : list ResponseRecord) (name : string * string)
         (questions : list string),
    (forall r, In r others ->
               EvaluateeLast r <> fst name \/ EvaluateeFirst r <> snd name) ->
    generate_ratings_and_comments_for_name (others ++ feedback) name questions
    = generate_ratings_and_comments_for_name feedback name questions
    /\ generate_ratings_and_comments_for_name
         (feedback ++ others) name questions
       = generate_ratings_and_comments_for_name feedback name questions.
Proof.
  intros feedback others name questions Hothers.
  assert (Hnil : filter (fun r => String.eqb (EvaluateeLast r) (fst name)
                                  && String.eqb (EvaluateeFirst r) (snd name))
                        others = []).
  { induction others as [|r l IH]; [reflexivity|]. cbn [filter].
    destruct (Hothers r (or_introl eq_refl)) as [Hne|Hne];
      apply String.eqb_neq in Hne; rewrite Hne;
      rewrite ?andb_false_r; cbn [andb];
      apply IH; intros r' Hr'; apply Hothers; now right. }
  unfold generate_ratings_and_comments_for_name.
  split; rewrite filter_app, Hnil; cbn [app]; rewrite ?app_nil_r;
    reflexivity.
Qed.

Lemma summary_ignores_other_instructors_witness :
  generate_ratings_and_comments_for_name
    (Examples.feedback
     ++ [Examples.rating Examples.clarity "Ann" "Poe" 1])
    ("Doe", "Jane") [Examples.clarity]
  = generate_ratings_and_comments_for_name
      Examples.feedback ("Doe", "Jane") [Examples.clarity].
Proof.
  apply (summary_ignores_other_instructors
           Examples.feedback
           [Examples.rating Examples.clarity "Ann" "Poe" 1]
           ("Doe", "Jane") [Examples.clarity]).
  intros r [<-|[]]. left. discriminate.
Defined.

(** ** Metadata Extractor on the table of one evaluation *)

Lemma last_char_app (pre : string) (c : ascii) :
  last_char (pre ++ String c "")%string = Ok c.
Proof.
  induction pre as [|a pre IH]; [reflexivity|].
  cbn [String.append last_char]. rewrite IH.
  destruct (pre ++ String c "")%string eqn:Hp; [|reflexivity].
  destruct pre; discriminate.
Qed.

Section OneEvaluation.
Context {so : SetOrder}.
Variables (df : list ResponseRecord) (title evaluation : string).
Hypothesis df_rows : df <> [].
Hypothesis df_title : forall r, In r df -> EvalTitle r = title.
Hypothesis df_name : forall r, In r df -> EvalName r = evaluation.

Lemma one_title :
  getitem (list_set string string_dec (map EvalTitle df)) 0 = Ok title.
Proof.
  rewrite (list_set_constant string_dec (map EvalTitle df) title).
  - reflexivity.
  - intros Hm. apply map_eq_nil in Hm. contradiction.
  - intros x Hx. apply in_map_iff in Hx. destruct Hx as (r & <- & Hr).
    now apply df_title.
Qed.

Lemma one_name :
  getitem (list_set string string_dec (map EvalName df)) 0 = Ok evaluation.
Proof.
  rewrite (list_set_constant string_dec (map EvalName df) evaluation).
  - reflexivity.
  - intros Hm. apply map_eq_nil in Hm. contradiction.
  - intros x Hx. apply in_map_iff in Hx. destruct Hx as (r & <- & Hr).
    now apply df_name.
Qed.

End OneEvaluation.

(** X4. On the table of one evaluation (one title, one name ending in
    a digit) the result does not depend on the order of sets: the
    number is that digit, and the type is "Large Group" when the title
    contains "Large Group", else "Small Group" when it contains
    "Workshop/Lab", else "Feedback type not detected". *)
Theorem info_of_one_evaluation :
  forall (so : SetOrder) (df : list ResponseRecord)
         (title pre : string) (c : ascii),
    df <> [] ->
    (forall r, In r df -> EvalTitle r = title) ->
    (forall r, In r df -> EvalName r = (pre ++ String c "")%string) ->
    48 <= Z.of_nat (nat_of_ascii c) <= 57 ->
    exists course_name feedback_type,
      generate_feedback_info df
      = Ok (course_name, feedback_type, Z.of_nat (nat_of_ascii c) - 48)
      /\ (occurs_in "Large Group" title -> feedback_type = "Large Group")
      /\ (~ occurs_in "Large Group" title ->
          occurs_in "Workshop/Lab" title -> feedback_type = "Small Group")
      /\ (~ occurs_in "Large Group" title ->
          ~ occurs_in "Workshop/Lab" title ->
          feedback_type = "Feedback type not detected").
Proof.
  intros so df title pre c Hne Htitle Hname Hdigit.
  unfold generate_feedback_info.
  rewrite (one_title df title Hne Htitle), (one_name df _ Hne Hname).
  cbn [bind]. rewrite last_char_app. cbn [bind]. unfold int_of_char.
  replace ((48 <=? Z.of_nat (nat_of_ascii c))
           && (Z.of_nat (nat_of_ascii c) <=? 57)) with true
    by (symmetry; apply andb_true_iff; split; apply Z.leb_le; lia).
  cbn [bind]. eexists _, _. split; [reflexivity|].
  fold (contains title "Large Group"). fold (contains title "Workshop/Lab").
  destruct (contains title "Large Group") eqn:Hl.
  - split; [reflexivity|].
    apply contains_occurs in Hl. split; intros; contradiction.
  - apply not_true_iff_false in Hl. rewrite contains_occurs in Hl.
    split; [intros; contradiction|].
    destruct (contains title "Workshop/Lab") eqn:Hw.
    + split; [reflexivity|]. apply contains_occurs in Hw.
      intros; contradiction.
    + apply not_true_iff_false in Hw. rewrite contains_occurs in Hw.
      split; [intros; contradiction | reflexivity].
Qed.

Lemma info_of_one_evaluation_witness :
  exists course_name,
    @generate_feedback_info reversed_order Examples.feedback
    = Ok (course_name, "Large Group", 1).
Proof.
  assert (Hocc : occurs_in "Large Group" "Anatomy Large Group Feedback")
    by (exists "Anatomy ", " Feedback"; reflexivity).
  destruct (info_of_one_evaluation reversed_order Examples.feedback
              "Anatomy Large Group Feedback" "Mid-course Feedback " "1"%char)
    as (course_name & ft & Hrun & Hlarge & _).
  - discriminate.
  - intros r Hr. simpl in Hr.
    repeat (destruct Hr as [<-|Hr]; [reflexivity|]). destruct Hr.
  - intros r Hr. simpl in Hr.
    repeat (destruct Hr as [<-|Hr]; [reflexivity|]). destruct Hr.
  - vm_compute. split; discriminate.
  - exists course_name. rewrite Hrun, (Hlarge Hocc). reflexivity.
Defined.

(** X5. The evaluation number is read from the last character as it
    stands, the result of [strip] on line 54 being dropped: an empty
    evaluation name raises IndexError, and a name that ends in
    anything but a digit, a trailing blank included, raises
    ValueError. *)
Theorem info_fails_on_bad_name :
  forall (so : SetOrder) (df : list ResponseRecord) (evaluation : string),
    df <> [] ->
    (forall r, In r df -> EvalName r = evaluation) ->
    (evaluation = "" -> generate_feedback_info df = Raise IndexError)
    /\ (forall pre c,
           evaluation = (pre ++ String c "")%string ->
           ~ 48 <= Z.of_nat (nat_of_ascii c) <= 57 ->
           generate_feedback_info df = Raise ValueError).
Proof.
  intros so df evaluation Hne Hname.
  destruct (getitem_first string_dec (map EvalTitle df)) as (t & Ht & _).
  { intros Hm. apply map_eq_nil in Hm. contradiction. }
  unfold generate_feedback_info.
  rewrite Ht, (one_name df _ Hne Hname). cbn [bind]. split.
  - intros ->. reflexivity.
  - intros pre c -> Hc. rewrite last_char_app. cbn [bind].
    unfold int_of_char.
    replace ((48 <=? Z.of_nat (nat_of_ascii c))
             && (Z.of_nat (nat_of_ascii c) <=? 57)) with false;
      [reflexivity|].
    symmetry. apply not_true_iff_false. rewrite andb_true_iff, !Z.leb_le.
    exact Hc.
Qed.

Lemma info_fails_on_bad_name_witness :
  @generate_feedback_info last_occurrence_order
    (map (Examples.renamed "Mid-course Feedback 1 ") Examples.feedback)
  = Raise ValueError.
Proof.
  apply (proj2 (info_fails_on_bad_name last_occurrence_order
                  (map (Examples.renamed "Mid-course Feedback 1 ")
                       Examples.feedback)
                  "Mid-course Feedback 1 " ltac:(discriminate)
                  ltac:(intros r Hr; apply in_map_iff in Hr;
                        destruct Hr as (r0 & <- & _); reflexivity))
          "Mid-course Feedback 1" " "%char eq_refl).
  vm_compute. intros [H _]. apply H. reflexivity.
Defined.

(** ** Instructor Resolver *)

Lemma string_compare_OT (a b : string) :
  String.compare a b = String_as_OT.compare a b.
Proof.
  revert b; induction a as [|x a IH]; intros [|y b]; try reflexivity.
  all: cbn [String.compare String_as_OT.compare]; rewrite IH.
  all: change (Ascii_as_OT.compare x y) with (Ascii.compare x y).
  all: destruct (Ascii.compare x y); reflexivity.
Qed.

Lemma string_lt_trans (a b c : string) :
  String.compare a b = Lt -> String.compare b c = Lt ->
  String.compare a c = Lt.
Proof.
  rewrite !string_compare_OT.
  apply (@StrictOrder_Transitive _ _ String_as_OT.lt_strorder).
Qed.

Lemma string_lt_irrefl (a : string) : String.compare a a <> Lt.
Proof.
  rewrite string_compare_OT.
  apply (@StrictOrder_Irreflexive _ _ String_as_OT.lt_strorder).
Qed.

Lemma string_compare_refl (a : string) : String.compare a a = Eq.
Proof.
  destruct (String.compare a a) eqn:Hc; [reflexivity| |].
  - now apply string_lt_irrefl in Hc.
  - rewrite String.compare_antisym in Hc.
    destruct (String.compare a a) eqn:Hc'; try discriminate.
    now apply string_lt_irrefl in Hc'.
Qed.

(** [pair_leb] in terms of the comparison of the components. *)
Lemma pair_leb_spec (p q : string * string) :
  pair_leb p q = true
  <-> String.compare (fst p) (fst q) = Lt
      \/ (fst p = fst q /\ String.compare (snd p) (snd q) <> Gt).
Proof.
  unfold pair_leb, String.ltb, String.leb.
  rewrite orb_true_iff, andb_true_iff, String.eqb_eq.
  destruct (String.compare (fst p) (fst q));
    destruct (String.compare (snd p) (snd q));
    intuition congruence.
Qed.

Lemma pair_leb_total (p q : string * string) :
  pair_leb p q = false -> pair_leb q p = true.
Proof.
  intros Hpq. apply not_true_iff_false in Hpq.
  rewrite pair_leb_spec in Hpq. apply pair_leb_spec.
  rewrite (String.compare_antisym (fst q) (fst p)).
  rewrite (String.compare_antisym (snd q) (snd p)).
  destruct (String.compare (fst p) (fst q)) eqn:Hf.
  - apply String.compare_eq_iff in Hf. right. split; [auto|].
    destruct (String.compare (snd p) (snd q)); simpl; try discriminate.
    all: exfalso; apply Hpq; right; split; [exact Hf | discriminate].
  - exfalso. apply Hpq. now left.
  - left. reflexivity.
Qed.

Lemma pair_leb_trans (p q r : string * string) :
  pair_leb p q = true -> pair_leb q r = true -> pair_leb p r = true.
Proof.
  rewrite !pair_leb_spec.
  intros [Hpq|[Epq Hpq]] [Hqr|[Eqr Hqr]].
  - left. eapply string_lt_trans; eassumption.
  - left. rewrite <- Eqr. exact Hpq.
  - left. rewrite Epq. exact Hqr.
  - right. split; [congruence|].
    destruct (String.compare (snd p) (snd q)) eqn:H1; [| |congruence].
    + apply String.compare_eq_iff in H1. rewrite H1. exact Hqr.
    + destruct (String.compare (snd q) (snd r)) eqn:H2; [| |congruence].
      * apply String.compare_eq_iff in H2. rewrite <- H2, H1. discriminate.
      * rewrite (string_lt_trans _ _ _ H1 H2). discriminate.
Qed.

Lemma pair_leb_antisym (p q : string * string) :
  pair_leb p q = true -> pair_leb q p = true -> p = q.
Proof.
  rewrite !pair_leb_spec.
  intros [Hpq|[Epq Hpq]] [Hqp|[Eqp Hqp]].
  - exfalso. apply (string_lt_irrefl (fst p)).
    eapply string_lt_trans; eassumption.
  - exfalso. rewrite Eqp in Hpq. now apply string_lt_irrefl in Hpq.
  - exfalso. rewrite Epq in Hqp. now apply string_lt_irrefl in Hqp.
  - destruct p as [p1 p2], q as [q1 q2]. simpl in *. subst q1. f_equal.
    rewrite String.compare_antisym in Hqp.
    destruct (String.compare p2 q2) eqn:Hc; simpl in *; try congruence.
    now apply String.compare_eq_iff.
Qed.

(** Two sorted lists with the same elements are the same list. *)
Lemma sorted_unique {A : Type} (le : A -> A -> Prop) (l1 l2 : list A) :
  (forall x y, le x y -> le y x -> x = y) ->
  StronglySorted le l1 -> StronglySorted le l2 -> Permutation l1 l2 ->
  l1 = l2.
Proof.
  intros Hanti. revert l2.
  induction l1 as [|x l1 IH]; intros l2 H1 H2 Hp.
  - apply Permutation_nil in Hp. now subst.
  - destruct l2 as [|y l2];
      [apply Permutation_sym, Permutation_nil in Hp; discriminate|].
    inversion H1 as [|? ? Hs1 Hx]; subst.
    inversion H2 as [|? ? Hs2 Hy]; subst.
    assert (Hxy : x = y).
    { assert (Hin1 : In x (y :: l2))
        by (apply (Permutation_in _ Hp); now left).
      assert (Hin2 : In y (x :: l1))
        by (apply (Permutation_in _ (Permutation_sym Hp)); now left).
      destruct Hin1 as [->|Hin1]; [reflexivity|].
      destruct Hin2 as [->|Hin2]; [reflexivity|].
      apply Hanti.
      - exact (proj1 (Forall_forall _ _) Hx y Hin2).
      - exact (proj1 (Forall_forall _ _) Hy x Hin1). }
    subst y. f_equal. apply IH; try assumption.
    now apply Permutation_cons_inv in Hp.
Qed.

Lemma combine_map {A B C : Type} (f : A -> B) (g : A -> C) (l : list A) :
  combine (map f l) (map g l) = map (fun x => (f x, g x)) l.
Proof. induction l as [|x l IH]; simpl; [reflexivity | now rewrite IH]. Qed.

Lemma faculty_names_sorted (so : SetOrder) (feedback : list ResponseRecord) :
  StronglySorted (fun p q => pair_leb p q = true)
                 (generate_faculty_names feedback).
Proof.
  unfold generate_faculty_names. apply Sorted_StronglySorted.
  - intros p q r. apply pair_leb_trans.
  - apply sort_sorted. exact pair_leb_total.
Qed.

Lemma faculty_names_perm (so : SetOrder) (feedback : list ResponseRecord) :
  Permutation (generate_faculty_names feedback)
              (list_set (string * string)%type pair_dec
                 (map (fun r => (EvaluateeLast r, EvaluateeFirst r))
                      feedback)).
Proof.
  unfold generate_faculty_names. rewrite combine_map. apply sort_perm.
Qed.

(** X6. The instructors are the (last, first) pairs of the rows, each
    once, in ascending order of last name and then first name; the
    list is the same whatever the order in which the set is
    iterated. *)
Theorem faculty_names_sorted_distinct :
  forall (so : SetOrder) (feedback : list ResponseRecord),
    let names := generate_faculty_names feedback in
    NoDup names
    /\ StronglySorted (fun p q => pair_leb p q = true /\ p <> q) names
    /\ (forall last first,
           In (last, first) names
           <-> exists r, In r feedback /\ EvaluateeLast r = last
                         /\ EvaluateeFirst r = first)
    /\ forall so' : SetOrder, @generate_faculty_names so' feedback = names.
Proof.
  intros so feedback names.
  assert (Hnd : NoDup names).
  { apply (Permutation_NoDup (Permutation_sym (faculty_names_perm so feedback))).
    apply list_set_NoDup. }
  split; [exact Hnd|]. split; [|split].
  - assert (Hs := faculty_names_sorted so feedback). fold names in Hs.
    induction Hs as [|p l Hs IH Hall]; [constructor|].
    inversion Hnd as [|? ? Hnotin Hnd']; subst.
    constructor; [apply IH; exact Hnd'|].
    apply Forall_forall. intros q Hq. split.
    + exact (proj1 (Forall_forall _ _) Hall q Hq).
    + intros ->. contradiction.
  - intros last first. unfold names.
    split.
    + intros Hin. apply (Permutation_in _ (faculty_names_perm so feedback)) in Hin.
      apply list_set_In, in_map_iff in Hin.
      destruct Hin as (r & Hr & Hin). injection Hr as <- <-. eauto.
    + intros (r & Hr & <- & <-).
      apply (Permutation_in _ (Permutation_sym (faculty_names_perm so feedback))).
      apply list_set_In.
      apply (in_map (fun r => (EvaluateeLast r, EvaluateeFirst r))). exact Hr.
  - intros so'. apply (sorted_unique (fun p q => pair_leb p q = true)).
    + exact pair_leb_antisym.
    + apply faculty_names_sorted.
    + apply faculty_names_sorted.
    + rewrite (faculty_names_perm so'). unfold names.
      rewrite (faculty_names_perm so).
      apply NoDup_Permutation; try apply list_set_NoDup.
      intros x. rewrite !list_set_In. reflexivity.
Qed.

(** ** Rating Aggregator, ranges *)

Lemma round_half_even_bounds (x : Q) (m M : Z) :
  (inject_Z m <= x)%Q -> (x <= inject_Z M)%Q ->
  m <= round_half_even x <= M.
Proof.
  intros Hm HM. unfold round_half_even.
  assert (Hlo : m <= Qfloor x)
    by (rewrite <- (Qfloor_Z m); now apply Qfloor_resp_le).
  assert (Hhi : Qfloor x <= M)
    by (rewrite <- (Qfloor_Z M); now apply Qfloor_resp_le).
  assert (Hf := Qfloor_le x).
  assert (Hup : (1 # 2 <= x - inject_Z (Qfloor x))%Q -> Qfloor x + 1 <= M).
  { intros Hr.
    assert (Hlt : (inject_Z (Qfloor x) < inject_Z M)%Q) by lra.
    rewrite <- Zlt_Qlt in Hlt. lia. }
  destruct (x - inject_Z (Qfloor x) ?= 1 # 2)%Q eqn:Hc.
  - apply Qeq_alt in Hc.
    destruct (Z.even (Qfloor x)); [lia|].
    split; [lia|]. apply Hup. lra.
  - lia.
  - apply Qgt_alt in Hc. split; [lia|]. apply Hup. lra.
Qed.

(** A share of the valid responses, as a percentage. *)
Lemma percent_bounds (k n : Z) :
  0 <= k <= n -> 0 < n ->
  (0 <= Py.round (inject_Z k / inject_Z n) 3 * 100 <= 100)%Q.
Proof.
  intros Hk Hn. unfold Py.round.
  change (10 ^ Z.of_nat 3) with 1000.
  set (ratio := (inject_Z k / inject_Z n)%Q).
  assert (Hnq : (0 < inject_Z n)%Q) by (rewrite <- (Zlt_Qlt 0); exact Hn).
  assert (Hr0 : (0 <= ratio)%Q).
  { unfold ratio. apply Qle_shift_div_l; [exact Hnq|].
    rewrite Qmult_0_l. rewrite <- (Zle_Qle 0). lia. }
  assert (Hr1 : (ratio <= 1)%Q).
  { unfold ratio. apply Qle_shift_div_r; [exact Hnq|].
    rewrite Qmult_1_l. rewrite <- Zle_Qle. lia. }
  destruct (round_half_even_bounds (ratio * inject_Z 1000) 0 1000)
    as [H0 H1000].
  { change (inject_Z 0) with 0%Q. change (inject_Z 1000) with 1000%Q. nra. }
  { change (inject_Z 1000) with 1000%Q. nra. }
  rewrite Qred_correct.
  rewrite (Zle_Qle 0) in H0. rewrite Zle_Qle in H1000.
  change (inject_Z 0) with 0%Q in H0.
  change (inject_Z 1000) with 1000%Q in *.
  set (v := inject_Z (round_half_even (ratio * 1000))) in *.
  unfold Qdiv. change (/ 1000)%Q with (1 # 1000)%Q. lra.
Qed.

Lemma count_two (a b : Q) (l : list Q) :
  ~ (a == b)%Q -> (count a l + count b l <= List.length l)%nat.
Proof.
  intros Hab. unfold count.
  induction l as [|x l IH]; simpl; [lia|].
  destruct (Qeq_bool a x) eqn:Ha; destruct (Qeq_bool b x) eqn:Hb;
    simpl; try lia.
  exfalso. apply Hab. apply Qeq_bool_iff in Ha, Hb.
  rewrite Ha, Hb. reflexivity.
Qed.

Lemma non_zero_positive (responses : list float) :
  Forall (fun q => (0 < q)%Q) (non_zero responses).
Proof.
  induction responses as [|x l IH]; simpl; [constructor|].
  destruct x as [q|]; [|exact IH]. unfold gt_zero.
  destruct (Qle_bool q 0) eqn:Hq; simpl; [exact IH|].
  constructor; [|exact IH].
  apply Qnot_le_lt. intros Hle. apply Qle_bool_iff in Hle. congruence.
Qed.

(** X7. For an instructor and a question, either there is no valid
    response and the cells are None, 0, None, None, or the count is the
    positive number of responses above zero and both percentages lie
    between 0 and 100. *)
Theorem percentages_within_range :
  forall (feedback : list ResponseRecord) (name : string * string)
         (question : string),
    let temp_df :=
      filter (fun r => String.eqb (EvaluateeLast r) (fst name)
                       && String.eqb (EvaluateeFirst r) (snd name))
             feedback in
    let valid :=
      non_zero
        (map ResponseValue
             (filter (fun r => String.eqb (QuestionText r) question)
                     temp_df)) in
    let ratings :=
      snd (fst (generate_ratings_and_comments_for_name
                  feedback name [question])) in
    Forall (fun q => (0 < q)%Q) valid
    /\ ((valid = [] /\ ratings = [VNone; VInt 0; VNone; VNone])
        \/ exists average favorable unfavorable,
            valid <> []
            /\ ratings = [VFloat average;
                          VInt (Z.of_nat (List.length valid));
                          VFloat favorable; VFloat unfavorable]
            /\ (0 <= favorable <= 100)%Q
            /\ (0 <= unfavorable <= 100)%Q).
Proof.
  intros feedback name question temp_df valid ratings.
  split; [apply non_zero_positive|].
  unfold ratings, generate_ratings_and_comments_for_name. cbn [fst snd].
  fold temp_df. rewrite ratings_flat_map. cbn [flat_map app].
  rewrite app_nil_r. unfold ratings_for_question. fold valid.
  destruct valid as [|v rest] eqn:Hv.
  - left. split; reflexivity.
  - right. rewrite <- Hv.
    assert (Hlen : 0 < Z.of_nat (List.length valid))
      by (rewrite Hv; cbn [List.length]; lia).
    replace (0 <? Z.of_nat (List.length valid)) with true
      by (symmetry; apply Z.ltb_lt; exact Hlen).
    eexists _, _, _. split; [rewrite Hv; discriminate|].
    split; [reflexivity|].
    split; apply percent_bounds; try exact Hlen;
      (split; [lia|]); apply inj_le; apply count_two; intros Heq;
      vm_compute in Heq; discriminate.
Qed.

Lemma Qsum_bounds (lo hi : Q) (l : list Q) (acc : Q) :
  Forall (fun q => (lo <= q <= hi)%Q) l ->
  (acc + lo * inject_Z (Z.of_nat (List.length l))
   <= fold_left Qplus l acc
   <= acc + hi * inject_Z (Z.of_nat (List.length l)))%Q.
Proof.
  intros Hall. revert acc.
  induction Hall as [|q l [Hlo Hhi] _ IH]; intros acc.
  - simpl. change (inject_Z 0) with 0%Q. lra.
  - cbn [fold_left List.length]. rewrite Nat2Z.inj_succ.
    unfold Z.succ. rewrite inject_Z_plus.
    change (inject_Z 1) with 1%Q.
    destruct (IH (acc + q)%Q) as [H1 H2]. lra.
Qed.

Lemma round_bounds (x : Q) (lo hi : Z) (ndigits : nat) :
  (inject_Z lo <= x <= inject_Z hi)%Q ->
  (inject_Z lo <= Py.round x ndigits <= inject_Z hi)%Q.
Proof.
  intros [Hlo Hhi]. unfold Py.round.
  set (p := 10 ^ Z.of_nat ndigits).
  assert (Hp : 0 < p) by (apply Z.pow_pos_nonneg; lia).
  assert (Hpq : (0 < inject_Z p)%Q) by (rewrite <- (Zlt_Qlt 0); exact Hp).
  destruct (round_half_even_bounds (x * inject_Z p) (lo * p) (hi * p))
    as [H1 H2].
  { rewrite inject_Z_mult. nra. }
  { rewrite inject_Z_mult. nra. }
  rewrite Qred_correct.
  rewrite Zle_Qle, inject_Z_mult in H1. rewrite Zle_Qle, inject_Z_mult in H2.
  split.
  - apply Qle_shift_div_l; assumption.
  - apply Qle_shift_div_r; assumption.
Qed.

(** X8. The average of an instructor on a question stays on the
    scale of the answers: when every valid response lies between two
    integers of a scale within 0 to 1000, and there are at most a
    million of them, so does the rounded average.  The two bounds keep
    the doubles of the code clear of overflow and of accumulated
    rounding, where they part from the exact sums of the model. *)
Theorem average_within_scale :
  forall (feedback : list ResponseRecord) (name : string * string)
         (question : string) (lo hi : Z),
    let temp_df :=
      filter (fun r => String.eqb (EvaluateeLast r) (fst name)
                       && String.eqb (EvaluateeFirst r) (snd name))
             feedback in
    let valid :=
      non_zero
        (map ResponseValue
             (filter (fun r => String.eqb (QuestionText r) question)
                     temp_df)) in
    valid <> [] ->
    0 <= lo -> hi <= 1000 ->
    Z.of_nat (List.length valid) <= 1000000 ->
    Forall (fun q => (inject_Z lo <= q <= inject_Z hi)%Q) valid ->
    exists average,
      nth_error (snd (fst (generate_ratings_and_comments_for_name
                             feedback name [question]))) 0
      = Some (VFloat average)
      /\ (inject_Z lo <= average <= inject_Z hi)%Q.
Proof.
  intros feedback name question lo hi temp_df valid Hne _ _ _ Hall.
  unfold generate_ratings_and_comments_for_name. cbn [fst snd].
  fold temp_df. rewrite ratings_flat_map. cbn [flat_map app].
  rewrite app_nil_r. unfold ratings_for_question. fold valid.
  assert (Hlen : 0 < Z.of_nat (List.length valid))
    by (destruct valid; [congruence | cbn [List.length]; lia]).
  replace (0 <? Z.of_nat (List.length valid)) with true
    by (symmetry; apply Z.ltb_lt; exact Hlen).
  eexists. split; [reflexivity|].
  apply round_bounds.
  assert (Hnq : (0 < inject_Z (Z.of_nat (List.length valid)))%Q)
    by (rewrite <- (Zlt_Qlt 0); exact Hlen).
  destruct (Qsum_bounds _ _ valid 0 Hall) as [H1 H2].
  unfold Qsum. split.
  - apply Qle_shift_div_l; [exact Hnq | lra].
  - apply Qle_shift_div_r; [exact Hnq | lra].
Qed.

Lemma average_within_scale_witness :
  exists average,
    nth_error (snd (fst (generate_ratings_and_comments_for_name
                           Examples.feedback ("Doe", "Jane")
                           [Examples.clarity]))) 0
    = Some (VFloat average)
    /\ (inject_Z 1 <= average <= inject_Z 5)%Q.
Proof.
  apply (average_within_scale Examples.feedback ("Doe", "Jane")
           Examples.clarity 1 5).
  - discriminate.
  - lia.
  - lia.
  - vm_compute. discriminate.
  - repeat constructor; vm_compute; discriminate.
Defined.

(** ** Session Attributor, what is attributed *)

Lemma title_in_row (schedule : list Schedule.row) (id : Z) (title : string) :
  title_in schedule id = Some title ->
  exists r, In r schedule /\ Schedule.ID r = id /\ Schedule.cName r = title.
Proof.
  unfold title_in. destruct (List.find _ schedule) as [r|] eqn:Hf;
    [|discriminate].
  intros Ht. injection Ht as <-. apply find_some in Hf.
  destruct Hf as [Hin Hid]. apply Z.eqb_eq in Hid. eauto.
Qed.

Lemma matched_titles_pairs (schedule : list Schedule.row) (ids : list Z) :
  Forall2 (fun id title => title_in schedule id = Some title)
          (filter (fun id => match title_in schedule id with
                             | Some _ => true
                             | None => false
                             end) ids)
          (matched_titles schedule ids).
Proof.
  induction ids as [|id ids IH]; [constructor|].
  cbn [filter matched_titles flat_map]. fold (matched_titles schedule ids).
  destruct (title_in schedule id) as [title|] eqn:Ht.
  - cbn [app]. constructor; assumption.
  - exact IH.
Qed.

(** X9. For an instructor with teaching-assignment rows the sessions
    listed are, one for one, the titles of the distinct identifiers of
    those rows that occur in the windowed schedule: each identifier
    counts once however often it is repeated, each title is the title
    of a row of the window with that identifier, and no session of
    another instructor or from outside the window is listed. *)
Theorem attributed_sessions_are_taught :
  forall (so : SetOrder) (names : list (string * string))
         (schedule : list Schedule.row) (sessions : list Sessions.row),
  exists entries,
    get_sessions_for_names names schedule sessions = Ok entries
    /\ Forall2
         (fun name entry =>
            assignments sessions name <> [] ->
            exists ids,
              NoDup ids
              /\ (forall id,
                     In id ids
                     <-> (exists a, In a (assignments sessions name)
                                    /\ Sessions.ID a = id)
                         /\ exists r, In r schedule /\ Schedule.ID r = id)
              /\ Forall2
                   (fun id title =>
                      exists r, In r schedule /\ Schedule.ID r = id
                                /\ Schedule.cName r = title)
                   ids (Feedback.sessions entry))
         names entries.
Proof.
  intros so names schedule sessions.
  destruct (sessions_loop_run schedule sessions names [])
    as (entries & Hrun & Hall).
  exists entries. split; [exact Hrun|]. clear Hrun.
  induction Hall as [|name entry names entries Hone _ IH];
    constructor; [|exact IH].
  rewrite sessions_for_name_run in Hone. injection Hone as <-.
  cbn [Feedback.sessions]. intros Hne.
  destruct (assignments sessions name) as [|a0 rest] eqn:Ha; [congruence|].
  rewrite <- Ha.
  set (all_ids := list_set Z Z.eq_dec
                    (map Sessions.ID (assignments sessions name))).
  exists (filter (fun id => match title_in schedule id with
                            | Some _ => true
                            | None => false
                            end) all_ids).
  split; [apply NoDup_filter, list_set_NoDup|]. split.
  - intros id. rewrite filter_In. unfold all_ids.
    rewrite list_set_In, in_map_iff. split.
    + intros [(a & Hid & Hin) Ht]. split; [eauto|].
      destruct (title_in schedule id) as [title|] eqn:Htitle;
        [|discriminate].
      destruct (title_in_row _ _ _ Htitle) as (r & Hr & Hrid & _). eauto.
    + intros [(a & Hin & Hid) Hrow]. split; [eauto|].
      destruct (title_in_found schedule id Hrow) as (title & Ht & _).
      now rewrite Ht.
  - eapply Forall2_impl; [|apply matched_titles_pairs].
    intros id title Ht. now apply title_in_row.
Qed.

(** ** Schedule Windower, edges *)

Lemma nth_last {A : Type} (l : list A) (d : A) :
  nth (List.length l - 1) l d = last l d.
Proof.
  induction l as [|x l IH]; [reflexivity|].
  destruct l as [|y l]; [reflexivity|].
  replace (List.length (x :: y :: l) - 1)%nat
    with (S (List.length (y :: l) - 1)) by (cbn [List.length]; lia).
  change (last (x :: y :: l) d) with (last (y :: l) d).
  cbn [nth]. exact IH.
Qed.

Lemma getitem_last {A : Type} (l : list A) (d : A) :
  l <> [] -> getitem l (-1) = Ok (last l d).
Proof.
  intros Hne. unfold getitem.
  assert (Hlen : 0 < Z.of_nat (List.length l))
    by (destruct l; [congruence | cbn [List.length]; lia]).
  replace (-1 <? 0) with true by reflexivity.
  replace ((0 <=? -1 + Z.of_nat (List.length l))
           && (-1 + Z.of_nat (List.length l) <? Z.of_nat (List.length l)))
    with true
    by (symmetry; apply andb_true_iff; split;
        [apply Z.leb_le | apply Z.ltb_lt]; lia).
  replace (Z.to_nat (-1 + Z.of_nat (List.length l)))
    with (List.length l - 1)%nat by lia.
  destruct (nth_error l (List.length l - 1)) as [a|] eqn:Hnth.
  - f_equal. apply nth_error_nth with (d := d) in Hnth.
    rewrite <- Hnth. apply nth_last.
  - apply nth_error_None in Hnth. lia.
Qed.

Lemma slice_to_zero {A : Type} (l : list A) (a : Z) : slice l a 0 = [].
Proof.
  unfold slice, clip.
  replace (0 <? 0) with false by reflexivity.
  rewrite Z.min_l by lia.
  replace (Z.to_nat (0 - (if a <? 0
                          then Z.max 0 (a + Z.of_nat (List.length l))
                          else Z.min a (Z.of_nat (List.length l)))))
    with 0%nat; [reflexivity|].
  destruct (a <? 0) eqn:Ha; [lia|]. apply Z.ltb_ge in Ha. lia.
Qed.

(** X10. Evaluation number 0 is not refused: the look-up
    [assessments[-1]] wraps round to the last boundary, the slice from
    there to boundary 0 is empty, and the windower returns no rows
    without raising, for every category. *)
Theorem evaluation_zero_gives_no_rows :
  forall (sp : Strptime) (s : Schedule.t) (ft : string),
    well_formed s ->
    generate_schedule_for_evaluation 0 ft s = (Ok [], prepared s).
Proof.
  intros sp s ft Hwf.
  rewrite generate_run, (lines_71_74_total s Hwf). cbn zeta.
  change (0 - 1) with (-1).
  rewrite (getitem_last _ 0) by discriminate.
  rewrite (getitem_in_range _ 0 0) by (cbn [List.length]; lia).
  cbn [Z.to_nat nth]. rewrite slice_to_zero.
  unfold by_category.
  destruct (String.eqb ft "Large Group"); [reflexivity|].
  destruct (String.eqb ft "Small Group"); reflexivity.
Qed.

Lemma evaluation_zero_gives_no_rows_witness :
  @generate_schedule_for_evaluation sample_strptime 0 "Large Group"
    Examples.schedule
  = (Ok [], @prepared sample_strptime Examples.schedule).
Proof.
  exact (evaluation_zero_gives_no_rows sample_strptime Examples.schedule
           "Large Group" example_schedule_well_formed).
Defined.

Lemma In_firstn {A : Type} (n : nat) (l : list A) (x : A) :
  In x (firstn n l) -> In x l.
Proof.
  revert l; induction n as [|n IH]; intros [|y l]; simpl; try tauto.
  intros [->|Hx]; [now left | right; now apply IH].
Qed.

Lemma In_skipn {A : Type} (n : nat) (l : list A) (x : A) :
  In x (skipn n l) -> In x l.
Proof.
  revert l; induction n as [|n IH]; intros [|y l]; simpl; try tauto.
  intros Hx. right. now apply IH.
Qed.

Lemma slice_incl {A : Type} (l : list A) (a b : Z) (x : A) :
  In x (slice l a b) -> In x l.
Proof.
  unfold slice. intros Hx.
  apply In_firstn in Hx. apply In_skipn in Hx. exact Hx.
Qed.

Lemma group_is_no_assessment (type : string) :
  str_in type LARGE_GROUPS = true \/ str_in type SMALL_GROUPS = true ->
  contains type "Assessment" = false.
Proof.
  unfold str_in, LARGE_GROUPS, SMALL_GROUPS. cbn [existsb].
  rewrite !orb_false_r, !orb_true_iff, !String.eqb_eq.
  intros [Hl|Hs]; [|destruct Hs as [->| ->]; reflexivity].
  destruct Hl as [->|[->|[->|[->| ->]]]]; reflexivity.
Qed.

(** X11. For the two recognised categories every row returned is a
    row of the caller's (now sorted) schedule whose session type is in
    the list of the category; none is an assessment row, although for
    N >= 2 the window itself starts at one. *)
Theorem filtered_window_has_category_rows :
  forall (sp : Strptime) (s : Schedule.t) (N : Z) (ft : string)
         (window : list Schedule.row),
    fst (generate_schedule_for_evaluation N ft s) = Ok window ->
    (ft = "Large Group" ->
     forall r, In r window ->
               str_in (Schedule.iLearningTypeID r) LARGE_GROUPS = true)
    /\ (ft = "Small Group" ->
        forall r, In r window ->
                  str_in (Schedule.iLearningTypeID r) SMALL_GROUPS = true)
    /\ (ft = "Large Group" \/ ft = "Small Group" ->
        forall r, In r window -> is_assessment r = false)
    /\ forall r, In r window ->
                 In r (Schedule.rows
                         (snd (generate_schedule_for_evaluation N ft s))).
Proof.
  intros sp s N ft window. rewrite generate_run.
  destruct (lines_71_74 s) as [[[]|e] s']; [|discriminate].
  cbn zeta.
  destruct (getitem _ (N - 1)) as [lo|e]; [|discriminate].
  destruct (getitem _ N) as [hi|e]; [|discriminate].
  cbn [fst snd]. intros Hw. injection Hw as <-.
  assert (Hlarge : ft = "Large Group" ->
                   forall r, In r (by_category ft
                                     (slice (Schedule.rows s') lo hi)) ->
                             str_in (Schedule.iLearningTypeID r) LARGE_GROUPS
                             = true).
  { intros -> r Hr. unfold by_category in Hr. cbn [String.eqb] in Hr.
    apply filter_In in Hr. apply Hr. }
  assert (Hsmall : ft = "Small Group" ->
                   forall r, In r (by_category ft
                                     (slice (Schedule.rows s') lo hi)) ->
                             str_in (Schedule.iLearningTypeID r) SMALL_GROUPS
                             = true).
  { intros -> r Hr. unfold by_category in Hr.
    replace (String.eqb "Small Group" "Large Group") with false in Hr
      by reflexivity.
    replace (String.eqb "Small Group" "Small Group") with true in Hr
      by reflexivity.
    apply filter_In in Hr. apply Hr. }
  split; [exact Hlarge|]. split; [exact Hsmall|]. split.
  - intros Hft r Hr. unfold is_assessment. apply group_is_no_assessment.
    destruct Hft as [Hft|Hft]; [left; now apply Hlarge | right; now apply Hsmall].
  - intros r Hr. apply (slice_incl _ lo hi). unfold by_category in Hr.
    destruct (String.eqb ft "Large Group");
      [apply filter_In in Hr; apply Hr|].
    destruct (String.eqb ft "Small Group");
      [apply filter_In in Hr; apply Hr | exact Hr].
Qed.

Lemma filtered_window_has_category_rows_witness :
  Forall (fun r => is_assessment r = false)
         (@window_of sample_strptime Examples.schedule "Large Group" 2).
Proof.
  apply Forall_forall. intros r Hr.
  refine (proj1 (proj2 (proj2
            (filtered_window_has_category_rows sample_strptime
               Examples.schedule 2 "Large Group"
               (@window_of sample_strptime Examples.schedule "Large Group" 2)
               _))) (or_introl eq_refl) r Hr).
  vm_compute. reflexivity.
Defined.

(** ** Schedule Windower, failed and repeated calls *)

Section FailedAndRepeated.
Context {sp : Strptime}.

Lemma to_datetime_fails (fmt : string) (col : list Schedule.timecell) :
  (exists c, In c col /\ ~ parses fmt c) ->
  to_datetime fmt col = Raise ValueError.
Proof.
  induction col as [|c0 col IH]; intros (c & Hc & Hbad); [destruct Hc|].
  cbn [to_datetime].
  destruct c0 as [x| |t].
  - destruct (strptime fmt x) eqn:Hx; [|reflexivity].
    destruct Hc as [<-|Hc]; [exfalso; apply Hbad; simpl; congruence|].
    cbn [bind]. rewrite IH by eauto. reflexivity.
  - destruct Hc as [<-|Hc]; [exfalso; apply Hbad; exact I|].
    cbn [bind]. rewrite IH by eauto. reflexivity.
  - destruct Hc as [<-|Hc]; [exfalso; apply Hbad; exact I|].
    cbn [bind]. rewrite IH by eauto. reflexivity.
Qed.

Lemma sort_sorted_id {A : Type} (leb : A -> A -> bool) (l : list A) :
  Sorted (fun x y => leb x y = true) l -> sort leb l = l.
Proof.
  induction 1 as [|x l Hs IH Hhd]; [reflexivity|].
  cbn [sort]. rewrite IH.
  destruct Hhd as [|y l' Hxy]; [reflexivity|].
  cbn [insert]. now rewrite Hxy.
Qed.

Lemma parsed_row_id (r : Schedule.row) :
  (forall x, Schedule.Date r <> Schedule.Raw x) ->
  (forall x, Schedule.tFrom r <> Schedule.Raw x) ->
  parsed_row r = r.
Proof.
  destruct r as [l sv id d t n ty]. cbn. intros Hd Ht.
  unfold parsed_row, with_tFrom, with_Date. cbn.
  destruct d as [x| |u]; [now destruct (Hd x)| |];
    (destruct t as [y| |v]; [now destruct (Ht y)| |]); reflexivity.
Qed.

Lemma relabel_again (rs : list Schedule.row) (i : Z) :
  relabel i (relabel i rs) = map saved_again (relabel i rs).
Proof.
  revert i; induction rs as [|r rs IH]; intros i; [reflexivity|].
  cbn [relabel map]. rewrite IH. reflexivity.
Qed.

Lemma slice_map {A B : Type} (f : A -> B) (l : list A) (a b : Z) :
  slice (map f l) a b = map f (slice l a b).
Proof.
  unfold slice. rewrite length_map, skipn_map, firstn_map. reflexivity.
Qed.

Lemma by_category_saved_again (ft : string) (l : list Schedule.row) :
  by_category ft (map saved_again l) = map saved_again (by_category ft l).
Proof.
  unfold by_category.
  destruct (String.eqb ft "Large Group"); [apply filter_map_swap|].
  destruct (String.eqb ft "Small Group"); [apply filter_map_swap|].
  reflexivity.
Qed.

(** The schedule a first call leaves is well formed again when the
    table had neither an "index" nor a "level_0" column, and a second
    run of lines 71-74 only stores the labels once more. *)
Lemma prepared_again (s : Schedule.t) :
  well_formed s ->
  str_in "index" (Schedule.columns s) = false ->
  str_in "level_0" (Schedule.columns s) = false ->
  well_formed (prepared s)
  /\ Schedule.rows (prepared (prepared s))
     = map saved_again (Schedule.rows (prepared s)).
Proof.
  intros Hwf Hi Hl.
  assert (Hrun := lines_71_74_total s Hwf).
  assert (Htext := lines_71_74_no_text s _ tt Hrun).
  split.
  - split.
    + intros r Hr. destruct (Htext r Hr) as [Hd Ht].
      split; [destruct (Schedule.Date r) | destruct (Schedule.tFrom r)];
        simpl; auto; [now destruct (Hd s0) | now destruct (Ht s0)].
    + right. unfold prepared. cbn [Schedule.columns]. rewrite Hi.
      cbn [str_in existsb]. exact Hl.
  - unfold prepared at 1. cbn [Schedule.rows].
    replace (map parsed_row (Schedule.rows (prepared s)))
      with (Schedule.rows (prepared s)).
    + rewrite sort_sorted_id.
      * unfold prepared. cbn [Schedule.rows]. apply relabel_again.
      * apply StronglySorted_Sorted.
        exact (lines_71_74_sorted s _ tt Hrun).
    + symmetry. rewrite <- (map_id (Schedule.rows (prepared s))) at 2.
      apply map_ext_in. intros r Hr. destruct (Htext r Hr).
      now apply parsed_row_id.
Qed.

End FailedAndRepeated.

(** X12. A start time that does not parse stops the windower on line
    72 with ValueError, after line 71 has already overwritten the Date
    column: the caller's schedule is left half converted, with its
    rows unsorted and its labels untouched. *)
Theorem bad_time_leaves_dates_converted :
  forall (sp : Strptime) (s : Schedule.t) (N : Z) (ft : string),
    (forall r, In r (Schedule.rows s) ->
               parses "%Y-%m-%d" (Schedule.Date r)) ->
    (exists r, In r (Schedule.rows s)
               /\ ~ parses "%I:%M %p" (Schedule.tFrom r)) ->
    generate_schedule_for_evaluation N ft s = (Raise ValueError, dates_only s)
    /\ map Schedule.label (Schedule.rows (dates_only s))
       = map Schedule.label (Schedule.rows s)
    /\ map Schedule.tFrom (Schedule.rows (dates_only s))
       = map Schedule.tFrom (Schedule.rows s)
    /\ forall r x, In r (Schedule.rows (dates_only s)) ->
                   Schedule.Date r <> Schedule.Raw x.
Proof.
  intros sp s N ft Hdates (r & Hr & Hbad).
  assert (Hd : to_datetime "%Y-%m-%d"
                 (map Schedule.Date (Schedule.rows s))
               = Ok (map (stamped "%Y-%m-%d")
                         (map Schedule.Date (Schedule.rows s)))).
  { apply to_datetime_total. intros c Hc. apply in_map_iff in Hc.
    destruct Hc as (r0 & <- & Hr0). now apply Hdates. }
  split; [|split; [|split]].
  - rewrite generate_run. unfold lines_71_74, bindM at 1.
    rewrite set_Date_run, Hd.
    unfold bindM at 1. rewrite set_tFrom_run. cbn [Schedule.rows].
    rewrite to_datetime_fails; [reflexivity|].
    exists (Schedule.tFrom r). split; [|exact Hbad].
    rewrite map_map. cbn [with_Date Schedule.tFrom].
    apply (in_map (fun r => Schedule.tFrom r)). exact Hr.
  - unfold dates_only. cbn [Schedule.rows]. rewrite map_map. reflexivity.
  - unfold dates_only. cbn [Schedule.rows]. rewrite map_map. reflexivity.
  - intros r' x Hr'. unfold dates_only in Hr'. cbn [Schedule.rows] in Hr'.
    apply in_map_iff in Hr'. destruct Hr' as (r0 & <- & Hr0).
    cbn [with_Date Schedule.Date].
    apply (to_datetime_no_text _ _ _ Hd). apply in_map. exact Hr0.
Qed.

Lemma bad_time_leaves_dates_converted_witness :
  @generate_schedule_for_evaluation sample_strptime 1 "Large Group"
    Examples.schedule_bad_time
  = (Raise ValueError, @dates_only sample_strptime Examples.schedule_bad_time).
Proof.
  apply (bad_time_leaves_dates_converted sample_strptime
           Examples.schedule_bad_time 1 "Large Group").
  - intros r Hr. simpl in Hr.
    repeat (destruct Hr as [<-|Hr]; [vm_compute; discriminate|]).
    destruct Hr.
  - exists (Examples.entry 21 122 "2024-09-01" "14:00" "Orientation" "Lecture").
    split; [left; reflexivity|]. vm_compute. intros H. apply H. reflexivity.
Defined.

(** X13. Calling the windower a second time on the schedule it has
    already mutated gives the same outcome as the first call: the same
    error, or the same rows with their label stored once more in the
    column the second [reset_index] inserts. *)
Theorem second_call_same_window :
  forall (sp : Strptime) (s : Schedule.t) (N : Z) (ft : string),
    well_formed s ->
    str_in "index" (Schedule.columns s) = false ->
    str_in "level_0" (Schedule.columns s) = false ->
    let first := generate_schedule_for_evaluation N ft s in
    let second := generate_schedule_for_evaluation N ft (snd first) in
    fst second
    = match fst first with
      | Ok window => Ok (map saved_again window)
      | Raise e => Raise e
      end
    /\ Schedule.rows (snd second) = map saved_again (Schedule.rows (snd first))
    /\ Schedule.columns (snd second) = "level_0" :: "index" :: Schedule.columns s.
Proof.
  intros sp s N ft Hwf Hi Hl first second.
  destruct (prepared_again s Hwf Hi Hl) as [Hwf' Hrows].
  assert (Hrun := lines_71_74_total s Hwf).
  assert (Hrun' := lines_71_74_total _ Hwf').
  assert (Hfirst : snd first = prepared s).
  { unfold first. rewrite generate_run, Hrun. cbn zeta.
    destruct (getitem _ (N - 1)); [|reflexivity].
    destruct (getitem _ N); reflexivity. }
  assert (Hbnd : map Schedule.label
                     (filter is_assessment (Schedule.rows (prepared (prepared s))))
                 = map Schedule.label
                       (filter is_assessment (Schedule.rows (prepared s)))).
  { rewrite Hrows.
    rewrite (filter_map_swap saved_again is_assessment), map_map.
    reflexivity. }
  unfold second. rewrite Hfirst. unfold first.
  rewrite !generate_run, Hrun, Hrun'. cbn zeta. rewrite Hbnd.
  destruct (getitem _ (N - 1)) as [lo|e]; [|cbn; split; [reflexivity|]].
  - destruct (getitem _ N) as [hi|e]; cbn [fst snd].
    + rewrite Hrows, slice_map, by_category_saved_again.
      split; [reflexivity|]. split; [reflexivity|].
      unfold prepared. cbn [Schedule.columns]. rewrite Hi.
      cbn [str_in existsb String.eqb]. reflexivity.
    + split; [reflexivity|]. split; [exact Hrows|].
      unfold prepared. cbn [Schedule.columns]. rewrite Hi.
      cbn [str_in existsb String.eqb]. reflexivity.
  - split; [exact Hrows|].
    unfold prepared. cbn [Schedule.columns]. rewrite Hi.
    cbn [str_in existsb String.eqb]. reflexivity.
Qed.

Lemma second_call_same_window_witness :
  let first := @generate_schedule_for_evaluation sample_strptime 2
                 "Large Group" Examples.schedule in
  let second := @generate_schedule_for_evaluation sample_strptime 2
                  "Large Group" (snd first) in
  fst second
  = match fst first with
    | Ok window => Ok (map saved_again window)
    | Raise e => Raise e
    end.
Proof.
  exact (proj1 (second_call_same_window sample_strptime Examples.schedule 2
                  "Large Group" example_schedule_well_formed
                  eq_refl eq_refl)).
Defined.

(** ** Schedule Windower, all the windows together *)

Lemma firstn_app_skipn {A : Type} (n k : nat) (l : list A) :
  firstn n l ++ firstn k (skipn n l) = firstn (n + k) l.
Proof.
  revert l; induction n as [|n IH]; intros l; [reflexivity|].
  destruct l as [|x l]; [now rewrite !firstn_nil|].
  cbn [firstn skipn Nat.add app]. now rewrite IH.
Qed.

Lemma rows_between_app {A : Type} (a b c : nat) (l : list A) :
  (a <= b <= c)%nat ->
  rows_between a b l ++ rows_between b c l = rows_between a c l.
Proof.
  intros Habc. unfold rows_between.
  replace (skipn b l) with (skipn (b - a) (skipn a l))
    by (rewrite skipn_skipn; f_equal; lia).
  rewrite firstn_app_skipn. f_equal. lia.
Qed.

Lemma last_any_default {A : Type} (x : A) (l : list A) (d d' : A) :
  last (x :: l) d = last (x :: l) d'.
Proof.
  revert x; induction l as [|y l IH]; intros x; [reflexivity|].
  change (last (y :: l) d = last (y :: l) d'). apply IH.
Qed.

Lemma last_cons_default {A : Type} (p : A) (l : list A) (d : A) :
  last (p :: l) d = last l p.
Proof.
  destruct l as [|q l]; [reflexivity|].
  change (last (q :: l) d = last (q :: l) p). apply last_any_default.
Qed.

Lemma last_ascending (p : nat) (l : list nat) :
  Forall (lt p) l -> (p <= last l p)%nat.
Proof.
  intros Hall. destruct l as [|q l]; [simpl; lia|].
  assert (Hin : In (last (q :: l) p) (q :: l))
    by (rewrite <- (nth_last (q :: l) p); apply nth_In;
        cbn [List.length]; lia).
  apply (proj1 (Forall_forall _ _) Hall) in Hin. lia.
Qed.

(** Consecutive ranges over an ascending list of boundaries join up to
    one range. *)
Lemma concat_consecutive {A : Type} (l : list A) (b : list nat) (a : nat) :
  Forall (le a) b -> StronglySorted lt b ->
  List.concat (map (fun xy => rows_between (fst xy) (snd xy) l) (combine (a :: b) b))
  = rows_between a (last b a) l.
Proof.
  revert a; induction b as [|p b IH]; intros a Ha Hs.
  - unfold rows_between. simpl. now rewrite Nat.sub_diag.
  - inversion Hs as [|? ? Hs' Hp]; subst.
    inversion Ha as [|? ? Hap _]; subst.
    change (combine (a :: p :: b) (p :: b))
      with ((a, p) :: combine (p :: b) b).
    rewrite map_cons, concat_cons. cbn [fst snd].
    rewrite IH; [|eapply Forall_impl; [|exact Hp]; intros; lia | exact Hs'].
    rewrite last_cons_default.
    apply rows_between_app. split; [exact Hap|]. now apply last_ascending.
Qed.

Lemma map_consecutive {B : Type} (f : nat -> nat -> B) (b : list nat) (a : nat) :
  map (fun i => f (nth (i - 1) (a :: b) 0%nat) (nth i (a :: b) 0%nat))
      (seq 1 (List.length b))
  = map (fun xy => f (fst xy) (snd xy)) (combine (a :: b) b).
Proof.
  revert a; induction b as [|p b IH]; intros a; [reflexivity|].
  change (combine (a :: p :: b) (p :: b)) with ((a, p) :: combine (p :: b) b).
  change (seq 1 (List.length (p :: b))) with (1%nat :: seq 2 (List.length b)).
  rewrite !map_cons. f_equal.
  rewrite <- seq_shift, map_map, <- IH.
  apply map_ext_in. intros i Hi. apply in_seq in Hi.
  destruct i as [|i]; [lia|].
  cbn [nth Nat.sub]. rewrite Nat.sub_0_r. reflexivity.
Qed.

Lemma by_category_concat (ft : string) (ls : list (list Schedule.row)) :
  List.concat (map (by_category ft) ls) = by_category ft (List.concat ls).
Proof.
  unfold by_category.
  destruct (String.eqb ft "Large Group"); [apply concat_filter_map|].
  destruct (String.eqb ft "Small Group"); [apply concat_filter_map|].
  now rewrite map_id.
Qed.

(** X14. The windows of the evaluations 1, 2, ..., k of a schedule with
    k assessments follow one another without gap or overlap: put end to
    end they are the rows before the last assessment, filtered by
    category.  The rows from the last assessment on are in no
    window. *)
Theorem windows_partition_the_schedule :
  forall (sp : Strptime) (s : Schedule.t) (ft : string),
    well_formed s ->
    let rows := Schedule.rows (prepared s) in
    let assessed := positions is_assessment rows in
    List.concat (map (fun N => window_of s ft (Z.of_nat N))
                (seq 1 (List.length assessed)))
    = by_category ft (firstn (last assessed 0%nat) rows).
Proof.
  intros sp s ft Hwf rows assessed.
  assert (Hrun := lines_71_74_total s Hwf).
  assert (Hmap : map (fun N => window_of s ft (Z.of_nat N))
                     (seq 1 (List.length assessed))
                 = map (fun i =>
                          by_category ft
                            (rows_between (nth (i - 1) (0%nat :: assessed) 0%nat)
                                          (nth i (0%nat :: assessed) 0%nat)
                                          rows))
                       (seq 1 (List.length assessed))).
  { apply map_ext_in. intros N HN. apply in_seq in HN.
    unfold window_of.
    rewrite (window_run s _ (Z.of_nat N) ft Hrun)
      by (fold rows; fold assessed; cbn [List.length]; lia).
    cbn [fst]. fold rows. fold assessed.
    replace (Z.to_nat (Z.of_nat N - 1)) with (N - 1)%nat by lia.
    rewrite Nat2Z.id. reflexivity. }
  rewrite Hmap.
  rewrite (map_consecutive (fun x y => by_category ft (rows_between x y rows))).
  rewrite <- (map_map (fun xy => rows_between (fst xy) (snd xy) rows)
                      (by_category ft)).
  rewrite by_category_concat, concat_consecutive.
  - unfold rows_between. rewrite Nat.sub_0_r. reflexivity.
  - apply Forall_forall. intros; lia.
  - apply positions_from_ascending.
Qed.

Lemma windows_partition_the_schedule_witness :
  map Schedule.ID
      (List.concat (map (fun N => @window_of sample_strptime Examples.schedule
                                "Small Group" (Z.of_nat N))
                   (seq 1 3)))
  = [102; 104; 109; 111; 116; 118].
Proof.
  assert (Hlen : List.length
                   (positions is_assessment
                      (Schedule.rows
                         (@prepared sample_strptime Examples.schedule)))
                 = 3%nat)
    by (vm_compute; reflexivity).
  rewrite <- Hlen.
  rewrite (windows_partition_the_schedule sample_strptime Examples.schedule
             "Small Group" example_schedule_well_formed).
  vm_compute. reflexivity.
Defined.

(** ** Comments document *)

Lemma leading_paragraphs_app (ps : list string) (rest : list block) :
  leading_paragraphs rest = [] ->
  leading_paragraphs (map Paragraph ps ++ rest) = ps.
Proof.
  intros Hrest. induction ps as [|p ps IH]; [exact Hrest|].
  cbn [map app leading_paragraphs]. now rewrite IH.
Qed.

Lemma sections_of_paragraphs (ps : list string) (rest : list block) :
  sections_of (map Paragraph ps ++ rest) = sections_of rest.
Proof. induction ps as [|p ps IH]; [reflexivity | exact IH]. Qed.

Lemma sections_of_people (comments : list FacultyComments) :
  let people :=
    flat_map (fun person =>
                Heading (Name person) 2
                :: map (fun comment => Paragraph (comment ++ newline)%string)
                       (Comments person))
             comments in
  leading_paragraphs people = []
  /\ sections_of people
     = map (fun person =>
              (Name person,
               map (fun comment => (comment ++ newline)%string)
                   (Comments person)))
           comments.
Proof.
  induction comments as [|person comments [IHl IHs]]; [split; reflexivity|].
  split; [reflexivity|].
  cbn [flat_map app sections_of map].
  replace (2 =? 2) with true by reflexivity.
  rewrite <- (map_map (fun comment => (comment ++ newline)%string) Paragraph).
  rewrite leading_paragraphs_app, sections_of_paragraphs by exact IHl.
  f_equal. exact IHs.
Qed.

(** X15. The comments document can be read back: it opens with the
    title "course - category" at level 0 and "Comments for Faculty" at
    level 1, and its level-2 sections are, in order, the people passed
    in, each with its comments, one paragraph per comment, a newline
    appended to each. *)
Theorem comments_document_reads_back :
  forall (comments : list FacultyComments) (course feedback_type : string),
    let doc := save_comments_to_docx comments course feedback_type in
    firstn 2 doc
    = [Heading (course ++ " - " ++ feedback_type)%string 0;
       Heading "Comments for Faculty" 1]
    /\ sections_of doc
       = map (fun person =>
                (Name person,
                 map (fun comment => (comment ++ newline)%string)
                     (Comments person)))
             comments.
Proof.
  intros comments course feedback_type doc. split; [reflexivity|].
  unfold doc, save_comments_to_docx. cbn [sections_of].
  replace (0 =? 2) with false by reflexivity.
  replace (1 =? 2) with false by reflexivity.
  apply sections_of_people.
Qed.

(** ** The assembled report *)

Lemma find_getitem {A B : Type} (p : A -> bool) (f : A -> B) (l : list A)
      (x : A) :
  List.find p l = Some x -> getitem (map f (filter p l)) 0 = Ok (f x).
Proof.
  induction l as [|y l IH]; [discriminate|].
  cbn [List.find filter]. destruct (p y).
  - intros Hx. injection Hx as ->. cbn [map].
    unfold getitem. cbn [List.length]. rewrite Nat2Z.inj_succ.
    replace (0 <? 0) with false by reflexivity.
    replace ((0 <=? 0) && (0 <? Z.succ (Z.of_nat (List.length (map f (filter p l))))))
      with true
      by (symmetry; apply andb_true_iff; split;
          [reflexivity | apply Z.ltb_lt; lia]).
    reflexivity.
  - exact IH.
Qed.

Lemma find_exists {A : Type} (p : A -> bool) (l : list A) :
  (exists x, In x l /\ p x = true) -> exists y, List.find p l = Some y.
Proof.
  induction l as [|y l IH]; intros (x & Hx & Hp); [destruct Hx|].
  cbn [List.find]. destruct (p y) eqn:Hy; [eauto|].
  destruct Hx as [->|Hx]; [congruence|]. apply IH. eauto.
Qed.

Section Report.
Context {so : SetOrder} {sp : Strptime}.

(** The loop of lines 283-290 cannot raise when every instructor has
    an entry among the attributed sessions, and accumulates one row,
    one group of comments and, with sessions, one cell per
    instructor. *)
Lemma collect_all_run (feedback : list ResponseRecord)
      (questions : list string)
      (sessions_taught : option (list FacultySessions))
      (names : list (string * string)) (acc : Acc) :
  (forall taught, sessions_taught = Some taught ->
     forall name, In name names ->
       exists item, In item taught /\ Feedback.name item = display name) ->
  collect_all feedback questions sessions_taught names acc
  = Ok (collected feedback questions sessions_taught names acc).
Proof.
  revert acc; induction names as [|name names IH]; intros acc Hentries.
  - unfold collected. destruct acc, sessions_taught; cbn;
      rewrite ?app_nil_r; reflexivity.
  - cbn [collect_all].
    assert (Hone : collect feedback questions sessions_taught acc name
                   = Ok (collected feedback questions sessions_taught
                                   [name] acc)).
    { unfold collect, collected.
      destruct sessions_taught as [taught|]; [|reflexivity].
      destruct (Hentries taught eq_refl name (or_introl eq_refl))
        as (item & Hitem & Hname).
      destruct (find_exists
                  (fun item => String.eqb (Feedback.name item) (display name))
                  taught) as (first & Hfirst).
      { exists item. split; [exact Hitem|]. now apply String.eqb_eq. }
      unfold generate_ratings_and_comments_for_name at 1. cbn iota beta zeta.
      fold (display name).
      rewrite (find_getitem _ sessions taught first Hfirst). cbn [bind].
      cbn [map]. unfold sessions_cell. rewrite Hfirst. reflexivity. }
    rewrite Hone. cbn [bind]. rewrite IH.
    + unfold collected. cbn [names_for_dataframe faculty_ratings
                             faculty_comments acc_sessions map].
      destruct sessions_taught; rewrite <- ?app_assoc; reflexivity.
    + intros taught Ht nm Hnm. apply (Hentries taught Ht). now right.
Qed.

Lemma attribute_sessions_entries (g : Globals)
      (names : list (string * string)) (schedule : option Schedule.t)
      (faculty : option (list Sessions.row))
      (taught : list FacultySessions) (after : option Schedule.t) :
  attribute_sessions g names schedule faculty = (Ok (Some taught), after) ->
  forall name, In name names ->
    exists item, In item taught /\ Feedback.name item = display name.
Proof.
  unfold attribute_sessions.
  destruct schedule as [sched|]; [|discriminate].
  destruct faculty as [fac|]; [|discriminate].
  destruct (feedback_number g) as [n|]; cbn [global bind]; [|discriminate].
  destruct (feedback_type g) as [t|]; cbn [global bind]; [|discriminate].
  destruct (generate_schedule_for_evaluation n t sched)
    as [[window|e] sched']; [|discriminate].
  unfold get_sessions_for_names.
  destruct (sessions_loop_run window fac names []) as (entries & Hrun & Hall).
  rewrite Hrun. cbn [bind app]. intros Heq. injection Heq as <- _.
  clear Hrun. induction Hall as [|nm entry nms entries Hone _ IH];
    intros name Hname; [destruct Hname|].
  destruct Hname as [<-|Hname].
  - exists entry. split; [now left|].
    rewrite sessions_for_name_run in Hone. injection Hone as <-. reflexivity.
  - destruct (IH name Hname) as (item & Hitem & Hn).
    exists item. split; [now right | exact Hn].
Qed.

Lemma attribute_sessions_none (g : Globals)
      (names : list (string * string)) (schedule : option Schedule.t)
      (faculty : option (list Sessions.row)) (after : option Schedule.t) :
  attribute_sessions g names schedule faculty = (Ok None, after) ->
  (schedule = None \/ faculty = None) /\ after = schedule.
Proof.
  unfold attribute_sessions.
  destruct schedule as [sched|];
    [|intros Heq; injection Heq as <-; split; [now left | reflexivity]].
  destruct faculty as [fac|];
    [|intros Heq; injection Heq as <-; split; [now right | reflexivity]].
  destruct (feedback_number g) as [n|]; cbn [global bind]; [|discriminate].
  destruct (feedback_type g) as [t|]; cbn [global bind]; [|discriminate].
  destruct (generate_schedule_for_evaluation n t sched)
    as [[window|e] sched']; [|discriminate].
  destruct (get_sessions_for_names names window fac); cbn [bind];
    discriminate.
Qed.

(** A run that returns has gone through the loop with an entry for
    every instructor. *)
Lemma process_run (g : Globals) (feedback : list ResponseRecord)
      (schedule : option Schedule.t) (faculty : option (list Sessions.row))
      (out : Download) (after : option Schedule.t) :
  process_feedback_data g feedback schedule faculty = (Ok out, after) ->
  exists sessions_taught c t,
    attribute_sessions g (generate_faculty_names feedback) schedule faculty
    = (Ok sessions_taught, after)
    /\ course g = Some c /\ feedback_type g = Some t
    /\ let acc :=
         collected feedback (generate_questions_from_evaluation feedback)
                   sessions_taught (generate_faculty_names feedback)
                   {| names_for_dataframe := []; faculty_ratings := [];
                      faculty_comments := []; acc_sessions := [] |} in
       out
       = {| Ratings_xlsx :=
              {| df_columns :=
                   list_prod (generate_questions_from_evaluation feedback)
                     ["Average Rating"; "Count";
                      "Percent Strongly Agree or Agree";
                      "Percent Disagree or Strongly Disagree"];
                 df_index := names_for_dataframe acc;
                 df_data := faculty_ratings acc;
                 df_Sessions :=
                   if Nat.eqb (List.length (acc_sessions acc))
                              (List.length (names_for_dataframe acc))
                   then Some (acc_sessions acc)
                   else None |};
            Comments_docx := save_comments_to_docx (faculty_comments acc) c t;
            file_name := (c ++ " " ++ t ++ " Feedback.zip")%string |}.
Proof.
  unfold process_feedback_data.
  destruct (attribute_sessions _ _ _ _) as [[st|e] after'] eqn:Hatt;
    cbn [bind]; [|discriminate].
  rewrite collect_all_run.
  - cbn [bind].
    destruct (course g) as [c|]; cbn [global bind]; [|discriminate].
    destruct (feedback_type g) as [t|]; cbn [global bind]; [|discriminate].
    intros Heq. injection Heq as <- <-. exists st, c, t.
    repeat split; reflexivity.
  - intros taught -> name Hname.
    exact (attribute_sessions_entries _ _ _ _ _ _ Hatt name Hname).
Qed.

End Report.

Lemma ratings_length (feedback : list ResponseRecord)
      (name : string * string) (questions : list string) :
  List.length (snd (fst (generate_ratings_and_comments_for_name
                           feedback name questions)))
  = (4 * List.length questions)%nat.
Proof.
  unfold generate_ratings_and_comments_for_name. cbn [fst snd].
  rewrite ratings_flat_map. cbn [app].
  induction questions as [|q qs IH]; [reflexivity|].
  cbn [flat_map List.length]. rewrite length_app, IH.
  unfold ratings_for_question at 1.
  destruct (0 <? _); cbn [List.length]; lia.
Qed.

Lemma comments_not_empty (feedback : list ResponseRecord)
      (name : string * string) (questions : list string) :
  snd (generate_ratings_and_comments_for_name feedback name questions) <> [].
Proof.
  rewrite comments_of_name.
  destruct (keep_comments _); discriminate.
Qed.

(** X16. In the report of a run that returns, the ratings table has
    one row per instructor of the Instructor Resolver, in its order and
    under the name "First Last"; every row has as many cells as there
    are column labels, four per eligible question; and the comments
    document has one section per instructor, in the same order, none
    of them without a paragraph. *)
Theorem report_shape :
  forall (so : SetOrder) (sp : Strptime) (g : Globals)
         (feedback : list ResponseRecord) (schedule : option Schedule.t)
         (faculty : option (list Sessions.row))
         (out : Download) (after : option Schedule.t),
    process_feedback_data g feedback schedule faculty = (Ok out, after) ->
    let names := generate_faculty_names feedback in
    let questions := generate_questions_from_evaluation feedback in
    let table := Ratings_xlsx out in
    df_index table = map display names
    /\ List.length (df_data table) = List.length names
    /\ List.length (df_columns table) = (4 * List.length questions)%nat
    /\ Forall (fun row => List.length row = List.length (df_columns table))
              (df_data table)
    /\ sections_of (Comments_docx out)
       = map (fun name =>
                (display name,
                 map (fun comment => (comment ++ newline)%string)
                     (snd (generate_ratings_and_comments_for_name
                             feedback name questions))))
             names
    /\ Forall (fun section => snd section <> [])
              (sections_of (Comments_docx out)).
Proof.
  intros so sp g feedback schedule faculty out after Hrun names questions
         table.
  destruct (process_run g feedback schedule faculty out after Hrun)
    as (st & c & t & _ & _ & _ & Hout).
  cbn zeta in Hout. subst out. unfold table.
  cbn [Ratings_xlsx Comments_docx df_index df_data df_columns collected
       names_for_dataframe faculty_ratings faculty_comments app].
  fold names. fold questions.
  assert (Hcols : List.length
                    (list_prod questions
                       ["Average Rating"; "Count";
                        "Percent Strongly Agree or Agree";
                        "Percent Disagree or Strongly Disagree"])
                  = (4 * List.length questions)%nat)
    by (rewrite length_prod; cbn [List.length]; lia).
  assert (Hsections :
            sections_of
              (save_comments_to_docx
                 (map (fun name =>
                         {| Name := display name;
                            Comments :=
                              snd (generate_ratings_and_comments_for_name
                                     feedback name questions) |})
                      names) c t)
            = map (fun name =>
                     (display name,
                      map (fun comment => (comment ++ newline)%string)
                          (snd (generate_ratings_and_comments_for_name
                                  feedback name questions))))
                  names).
  { unfold save_comments_to_docx. cbn [sections_of].
    replace (0 =? 2) with false by reflexivity.
    replace (1 =? 2) with false by reflexivity.
    rewrite (proj2 (sections_of_people _)), map_map. reflexivity. }
  split; [reflexivity|]. split; [apply length_map|].
  split; [exact Hcols|]. split; [|split; [exact Hsections|]].
  - rewrite Hcols. apply Forall_forall. intros row Hrow.
    apply in_map_iff in Hrow. destruct Hrow as (name & <- & _).
    apply ratings_length.
  - rewrite Hsections. apply Forall_forall. intros section Hs.
    apply in_map_iff in Hs. destruct Hs as (name & <- & _).
    cbn [snd]. intros Hnil. apply map_eq_nil in Hnil.
    now apply comments_not_empty in Hnil.
Qed.

Lemma report_shape_witness :
  exists out,
    @process_feedback_data last_occurrence_order sample_strptime
      Examples.selected Examples.feedback None None
    = (Ok out, None)
    /\ df_index (Ratings_xlsx out) = ["Jane Doe"; "John Roe"]
    /\ List.length (df_columns (Ratings_xlsx out)) = 4%nat.
Proof.
  assert (Hrun : exists out,
             @process_feedback_data last_occurrence_order sample_strptime
               Examples.selected Examples.feedback None None
             = (Ok out, None))
    by (eexists; vm_compute; reflexivity).
  destruct Hrun as (out & Hrun). exists out. split; [exact Hrun|].
  destruct (report_shape last_occurrence_order sample_strptime
              Examples.selected Examples.feedback None None out None Hrun)
    as (Hindex & _ & Hcols & _).
  split; [rewrite Hindex | rewrite Hcols]; vm_compute; reflexivity.
Defined.

Lemma faculty_names_empty (so : SetOrder) (feedback : list ResponseRecord) :
  generate_faculty_names feedback = [] <-> feedback = [].
Proof.
  split.
  - intros Hnil. destruct feedback as [|r feedback]; [reflexivity|].
    exfalso.
    assert (Hin : In (EvaluateeLast r, EvaluateeFirst r)
                     (generate_faculty_names (r :: feedback))).
    { apply (Permutation_in _ (Permutation_sym (faculty_names_perm so _))).
      apply list_set_In. left. reflexivity. }
    rewrite Hnil in Hin. exact Hin.
  - intros ->. unfold generate_faculty_names. cbn [map combine].
    now rewrite list_set_nil.
Qed.

Lemma find_app_none {A : Type} (p : A -> bool) (l1 l2 : list A) :
  (forall x, In x l1 -> p x = false) ->
  List.find p (l1 ++ l2) = List.find p l2.
Proof.
  induction l1 as [|y l1 IH]; intros Hnone; [reflexivity|].
  cbn [app List.find]. rewrite (Hnone y (or_introl eq_refl)).
  apply IH. intros x Hx. apply Hnone. now right.
Qed.

(** Without two instructors under one display name, the look-up of
    line 289 finds each instructor's own entry. *)
Lemma find_own_entry (names : list (string * string))
      (taught before : list FacultySessions) :
  Forall2 (fun name item => Feedback.name item = display name) names taught ->
  NoDup (map display names) ->
  (forall item, In item before ->
                ~ In (Feedback.name item) (map display names)) ->
  Forall2 (fun name item =>
             List.find (fun it => String.eqb (Feedback.name it) (display name))
                       (before ++ taught)
             = Some item)
          names taught.
Proof.
  intros Hall. revert before.
  induction Hall as [|name item names taught Hname _ IH];
    intros before Hnd Hbefore; [constructor|].
  cbn [map] in Hnd, Hbefore. inversion Hnd as [|? ? Hnotin Hnd']; subst.
  constructor.
  - rewrite find_app_none.
    + cbn [List.find]. rewrite Hname, String.eqb_refl. reflexivity.
    + intros it Hit. apply String.eqb_neq. intros Heq.
      apply (Hbefore it Hit). left. now symmetry.
  - replace (before ++ item :: taught) with ((before ++ [item]) ++ taught)
      by (now rewrite <- app_assoc).
    apply IH; [exact Hnd'|].
    intros it Hit. apply in_app_or in Hit. destruct Hit as [Hit|[<-|[]]].
    + intros Hin. apply (Hbefore it Hit). now right.
    + rewrite Hname. exact Hnotin.
Qed.

Lemma cells_of_own_entries (names : list (string * string))
      (all_taught taught : list FacultySessions) :
  Forall2 (fun name item =>
             List.find (fun it => String.eqb (Feedback.name it) (display name))
                       all_taught
             = Some item)
          names taught ->
  map (fun name => sessions_cell all_taught (display name)) names
  = map (fun item => join ", " (Feedback.sessions item)) taught.
Proof.
  induction 1 as [|name item names taught Hfind _ IH]; [reflexivity|].
  cbn [map]. rewrite IH. unfold sessions_cell at 1. now rewrite Hfind.
Qed.

Lemma get_sessions_names (so : SetOrder) (names : list (string * string))
      (window : list Schedule.row) (fac : list Sessions.row)
      (taught : list FacultySessions) :
  get_sessions_for_names names window fac = Ok taught ->
  Forall2 (fun name item => Feedback.name item = display name) names taught.
Proof.
  unfold get_sessions_for_names.
  destruct (sessions_loop_run window fac names []) as (entries & Hrun & Hall).
  rewrite Hrun. cbn [app]. intros Heq. injection Heq as <-.
  clear Hrun. induction Hall as [|name entry names entries Hone _ IH];
    constructor; [|exact IH].
  rewrite sessions_for_name_run in Hone. injection Hone as <-. reflexivity.
Qed.

(** X17. The 'Sessions' column of the ratings table.  Without the two
    optional tables no session is collected and line 295 compares 0
    with the number of rows: the column is left out, except that a
    table without any instructor gets an empty one.  With both tables
    the column is always there, one cell per instructor: the sessions,
    joined by ", ", of the first attributed entry under the
    instructor's display name, which is the instructor's own entry
    when no two instructors share a display name. *)
Theorem sessions_column :
  forall (so : SetOrder) (sp : Strptime) (g : Globals)
         (feedback : list ResponseRecord) (schedule : option Schedule.t)
         (faculty : option (list Sessions.row))
         (out : Download) (after : option Schedule.t),
    process_feedback_data g feedback schedule faculty = (Ok out, after) ->
    let names := generate_faculty_names feedback in
    let column := df_Sessions (Ratings_xlsx out) in
    (schedule = None \/ faculty = None ->
     after = schedule
     /\ (feedback = [] -> column = Some [])
     /\ (feedback <> [] -> column = None))
    /\ (forall sched fac,
           schedule = Some sched -> faculty = Some fac ->
           exists n t window taught,
             feedback_number g = Some n
             /\ feedback_type g = Some t
             /\ generate_schedule_for_evaluation n t sched
                = (Ok window, snd (generate_schedule_for_evaluation n t sched))
             /\ get_sessions_for_names names window fac = Ok taught
             /\ column
                = Some (map (fun name => sessions_cell taught (display name))
                            names)
             /\ (NoDup (map display names) ->
                 column
                 = Some (map (fun item => join ", " (Feedback.sessions item))
                             taught))).
Proof.
  intros so sp g feedback schedule faculty out after Hrun names column.
  destruct (process_run g feedback schedule faculty out after Hrun)
    as (st & c & t & Hatt & _ & Htype & Hout).
  cbn zeta in Hout. fold names in Hatt, Hout.
  assert (Hcol : column
                 = if Nat.eqb
                        (List.length
                           (match st with
                            | Some taught =>
                                map (fun name =>
                                       sessions_cell taught (display name))
                                    names
                            | None => []
                            end))
                        (List.length (map display names))
                   then Some (match st with
                              | Some taught =>
                                  map (fun name =>
                                         sessions_cell taught (display name))
                                      names
                              | None => []
                              end)
                   else None).
  { unfold column. subst out.
    cbn [Ratings_xlsx df_Sessions collected acc_sessions names_for_dataframe
         app].
    destruct st; reflexivity. }
  clear Hout. split.
  - intros Hnone.
    assert (Hst : st = None /\ after = schedule).
    { unfold attribute_sessions in Hatt.
      destruct Hnone as [-> | ->];
        [|destruct schedule];
        injection Hatt as <- <-; split; reflexivity. }
    destruct Hst as [-> ->]. split; [reflexivity|].
    rewrite Hcol, length_map. cbn [List.length].
    split.
    + intros Hempty. apply (faculty_names_empty so) in Hempty.
      unfold names. rewrite Hempty. reflexivity.
    + intros Hne. destruct names as [|nm rest] eqn:Hn; [|reflexivity].
      exfalso. apply Hne. now apply (faculty_names_empty so).
  - intros sched fac -> ->. unfold attribute_sessions in Hatt.
    destruct (feedback_number g) as [n|]; cbn [global bind] in Hatt;
      [|discriminate].
    rewrite Htype in Hatt. cbn [global bind] in Hatt.
    destruct (generate_schedule_for_evaluation n t sched)
      as [[window|e] sched'] eqn:Hgen; [|discriminate].
    destruct (get_sessions_for_names names window fac) as [taught|e]
      eqn:Hget; cbn [bind] in Hatt; [|discriminate].
    injection Hatt as <- <-.
    exists n, t, window, taught.
    split; [reflexivity|]. split; [exact Htype|].
    rewrite Hgen. split; [reflexivity|]. split; [exact Hget|].
    assert (Hsome : column
                    = Some (map (fun name =>
                                   sessions_cell taught (display name))
                                names))
      by (rewrite Hcol, !length_map, Nat.eqb_refl; reflexivity).
    split; [exact Hsome|].
    intros Hnd. rewrite Hsome. f_equal.
    apply cells_of_own_entries.
    apply (find_own_entry names taught []);
      [exact (get_sessions_names so _ _ _ _ Hget) | exact Hnd |].
    intros item [].
Qed.

Lemma sessions_column_witness :
  exists out after,
    @process_feedback_data last_occurrence_order sample_strptime
      {| course := Some "Anatomy"; feedback_type := Some "Large Group";
         feedback_number := Some 1 |}
      Examples.feedback (Some Examples.schedule) (Some Examples.faculty)
    = (Ok out, after)
    /\ df_Sessions (Ratings_xlsx out) = Some ["Cell Structure, Membranes"; ""].
Proof.
  set (g := {| course := Some "Anatomy"; feedback_type := Some "Large Group";
               feedback_number := Some 1 |}).
  assert (Hrun : exists out after,
             @process_feedback_data last_occurrence_order sample_strptime g
               Examples.feedback (Some Examples.schedule)
               (Some Examples.faculty)
             = (Ok out, after))
    by (eexists _, _; vm_compute; reflexivity).
  destruct Hrun as (out & after & Hrun). exists out, after.
  split; [exact Hrun|].
  destruct (proj2 (sessions_column last_occurrence_order sample_strptime g
                     Examples.feedback (Some Examples.schedule)
                     (Some Examples.faculty) out after Hrun)
              Examples.schedule Examples.faculty eq_refl eq_refl)
    as (n & t & window & taught & Hn & Ht & Hgen & Hget & Hcol & _).
  rewrite Hcol. injection Hn as <-. injection Ht as <-.
  vm_compute in Hgen. injection Hgen as <-.
  vm_compute in Hget. injection Hget as <-.
  vm_compute. reflexivity.
Defined.

(** X18. With [feedback_type] and [feedback_number] bound, a
    well-formed schedule and an evaluation number it has a window for,
    the stages of the pipeline before the writers do not raise,
    whatever the two other tables hold: the windower returns, every
    instructor gets an attributed entry under the display name, so
    that the look-up of line 289 always finds one, and the loop of
    lines 283-290 accumulates its row, comments and sessions cell for
    each instructor.  The caller's schedule is left sorted and
    relabelled, however the run ends. *)
Theorem stages_before_writers_complete :
  forall (so : SetOrder) (sp : Strptime) (g : Globals)
         (feedback : list ResponseRecord) (sched : Schedule.t)
         (fac : list Sessions.row) (t : string) (n : Z),
    feedback_type g = Some t ->
    feedback_number g = Some n ->
    well_formed sched ->
    1 <= n <= Z.of_nat (List.length
                          (filter is_assessment (Schedule.rows sched))) ->
    let names := generate_faculty_names feedback in
    let questions := generate_questions_from_evaluation feedback in
    let start := {| names_for_dataframe := []; faculty_ratings := [];
                    faculty_comments := []; acc_sessions := [] |} in
    exists window taught,
      generate_schedule_for_evaluation n t sched = (Ok window, prepared sched)
      /\ get_sessions_for_names names window fac = Ok taught
      /\ attribute_sessions g names (Some sched) (Some fac)
         = (Ok (Some taught), Some (prepared sched))
      /\ Forall2 (fun name item => Feedback.name item = display name)
                 names taught
      /\ collect_all feedback questions (Some taught) names start
         = Ok (collected feedback questions (Some taught) names start)
      /\ snd (process_feedback_data g feedback (Some sched) (Some fac))
         = Some (prepared sched).
Proof.
  intros so sp g feedback sched fac t n Ht Hn Hwf Hvalid names questions
         start.
  assert (Hrun := lines_71_74_total sched Hwf).
  rewrite <- (lines_71_74_assessments sched _ tt Hrun) in Hvalid.
  assert (Hwin := window_run sched _ n t Hrun).
  cbn zeta in Hwin. cbn [List.length] in Hwin.
  specialize (Hwin ltac:(lia)).
  match type of Hwin with
  | _ = (Ok ?w, _) => set (window := w) in *
  end.
  destruct (sessions_loop_run window fac names []) as (taught & Hloop & _).
  cbn [app] in Hloop.
  assert (Hget : get_sessions_for_names names window fac = Ok taught)
    by exact Hloop.
  assert (Hatt : attribute_sessions g names (Some sched) (Some fac)
                 = (Ok (Some taught), Some (prepared sched))).
  { unfold attribute_sessions. rewrite Hn, Ht. cbn [global bind].
    rewrite Hwin, Hget. reflexivity. }
  exists window, taught.
  split; [exact Hwin|]. split; [exact Hget|]. split; [exact Hatt|].
  split; [exact (get_sessions_names so _ _ _ _ Hget)|]. split.
  - apply collect_all_run. intros taught' Heq name Hname.
    injection Heq as <-.
    exact (attribute_sessions_entries _ _ _ _ _ _ Hatt name Hname).
  - unfold process_feedback_data. fold names. rewrite Hatt. reflexivity.
Qed.

Lemma stages_before_writers_complete_witness :
  exists window taught,
    @generate_schedule_for_evaluation sample_strptime 2 "Small Group"
      Examples.schedule
    = (Ok window, @prepared sample_strptime Examples.schedule)
    /\ @get_sessions_for_names reversed_order
         (@generate_faculty_names reversed_order Examples.feedback)
         window Examples.faculty
       = Ok taught
    /\ map Feedback.name taught = ["Jane Doe"; "John Roe"].
Proof.
  destruct (stages_before_writers_complete reversed_order sample_strptime
              Examples.selected Examples.feedback Examples.schedule
              Examples.faculty "Small Group" 2
              eq_refl eq_refl example_schedule_well_formed)
    as (window & taught & Hwin & Hget & _ & Hnames & _).
  - vm_compute. split; discriminate.
  - exists window, taught. split; [exact Hwin|]. split; [exact Hget|].
    vm_compute in Hwin. injection Hwin as <-.
    vm_compute in Hget. injection Hget as <-.
    reflexivity.
Defined.



(** ** The pipeline and the globals *)

(** A run with both optional tables that returns has windowed the
    schedule with the globals and filled the 'Sessions' column from
    the sessions attributed on that window. *)
Lemma run_with_tables (so : SetOrder) (sp : Strptime) (g : Globals)
      (feedback : list ResponseRecord) (sched : Schedule.t)
      (fac : list Sessions.row) (out : Download) (after : option Schedule.t) :
  process_feedback_data g feedback (Some sched) (Some fac) = (Ok out, after) ->
  exists n t window taught,
    feedback_number g = Some n
    /\ feedback_type g = Some t
    /\ generate_schedule_for_evaluation n t sched
       = (Ok window, snd (generate_schedule_for_evaluation n t sched))
    /\ after = Some (snd (generate_schedule_for_evaluation n t sched))
    /\ get_sessions_for_names (generate_faculty_names feedback) window fac
       = Ok taught
    /\ df_Sessions (Ratings_xlsx out)
       = Some (map (fun name => sessions_cell taught (display name))
                   (generate_faculty_names feedback)).
Proof.
  intros Hrun.
  destruct (process_run g feedback (Some sched) (Some fac) out after Hrun)
    as (st & c & t & Hatt & _ & Htype & Hout).
  cbn zeta in Hout. unfold attribute_sessions in Hatt.
  destruct (feedback_number g) as [n|]; cbn [global bind] in Hatt;
    [|discriminate].
  rewrite Htype in Hatt. cbn [global bind] in Hatt.
  destruct (generate_schedule_for_evaluation n t sched)
    as [[window|e] sched'] eqn:Hgen; [|discriminate].
  destruct (get_sessions_for_names (generate_faculty_names feedback)
                                   window fac) as [taught|e] eqn:Hget;
    cbn [bind] in Hatt; [|discriminate].
  injection Hatt as <- <-.
  exists n, t, window, taught.
  split; [reflexivity|]. split; [exact Htype|].
  rewrite Hgen. split; [reflexivity|]. split; [reflexivity|].
  split; [exact Hget|].
  subst out.
  cbn [Ratings_xlsx df_Sessions collected acc_sessions names_for_dataframe
       app].
  rewrite !length_map, Nat.eqb_refl. reflexivity.
Qed.

(** C4 (as the code has it). [process_feedback_data] does not call the
    Metadata Extractor.  In every run that returns, the course and the
    feedback category in the name of the download and in the title of
    the comments document are the values of the module's globals
    [course] and [feedback_type]; with the two optional tables, the
    schedule is windowed with the globals [feedback_number] and
    [feedback_type], and the sessions shown in the report are the ones
    attributed on that window.  The CourseName, EvalTitle and EvalName
    columns of the response table have no influence on the run. *)
Theorem C4_metadata_from_globals :
  forall (so : SetOrder) (sp : Strptime) (g : Globals)
         (feedback : list ResponseRecord) (schedule : option Schedule.t)
         (faculty : option (list Sessions.row)),
    process_feedback_data g (map without_metadata feedback) schedule faculty
    = process_feedback_data g feedback schedule faculty
    /\ (forall out after,
           process_feedback_data g feedback schedule faculty
           = (Ok out, after) ->
           exists c t,
             course g = Some c
             /\ feedback_type g = Some t
             /\ file_name out = (c ++ " " ++ t ++ " Feedback.zip")%string
             /\ hd_error (Comments_docx out)
                = Some (Heading (c ++ " - " ++ t)%string 0))
    /\ (forall sched fac out after,
           schedule = Some sched -> faculty = Some fac ->
           process_feedback_data g feedback schedule faculty
           = (Ok out, after) ->
           exists n t window taught,
             feedback_number g = Some n
             /\ feedback_type g = Some t
             /\ generate_schedule_for_evaluation n t sched
                = (Ok window, snd (generate_schedule_for_evaluation n t sched))
             /\ after = Some (snd (generate_schedule_for_evaluation n t sched))
             /\ get_sessions_for_names (generate_faculty_names feedback)
                                       window fac
                = Ok taught
             /\ df_Sessions (Ratings_xlsx out)
                = Some (map (fun name => sessions_cell taught (display name))
                            (generate_faculty_names feedback))).
Proof.
  intros so sp g feedback schedule faculty.
  split; [|split].
  - unfold process_feedback_data.
    rewrite questions_without_metadata, names_without_metadata.
    destruct (attribute_sessions _ _ _ _) as [[taught|e] after];
      cbn [bind]; [|reflexivity].
    rewrite collect_all_without_metadata. reflexivity.
  - intros out after Hrun.
    destruct (process_run g feedback schedule faculty out after Hrun)
      as (st & c & t & _ & Hc & Ht & Hout).
    cbn zeta in Hout. exists c, t.
    split; [exact Hc|]. split; [exact Ht|]. subst out.
    split; reflexivity.
  - intros sched fac out after -> -> Hrun.
    exact (run_with_tables so sp g feedback sched fac out after Hrun).
Qed.

Lemma C4_metadata_from_globals_witness :
  exists out after,
    @process_feedback_data last_occurrence_order sample_strptime
      {| course := Some "Homeostasis"; feedback_type := Some "Large Group";
         feedback_number := Some 3 |}
      Examples.feedback (Some Examples.schedule) (Some Examples.faculty)
    = (Ok out, after)
    /\ @generate_feedback_info last_occurrence_order Examples.feedback
       = Ok ("Anatomy", "Large Group", 1)
    /\ file_name out = "Homeostasis Large Group Feedback.zip"
    /\ df_Sessions (Ratings_xlsx out) = Some ["Apoptosis"; "Receptors"].
Proof.
  set (g := {| course := Some "Homeostasis";
               feedback_type := Some "Large Group";
               feedback_number := Some 3 |}).
  assert (Hrun : exists out after,
             @process_feedback_data last_occurrence_order sample_strptime g
               Examples.feedback (Some Examples.schedule)
               (Some Examples.faculty)
             = (Ok out, after))
    by (eexists _, _; vm_compute; reflexivity).
  destruct Hrun as (out & after & Hrun). exists out, after.
  split; [exact Hrun|]. split; [vm_compute; reflexivity|].
  destruct (C4_metadata_from_globals last_occurrence_order sample_strptime g
              Examples.feedback (Some Examples.schedule)
              (Some Examples.faculty))
    as (_ & Hlabel & Hwindow).
  destruct (Hlabel out after Hrun) as (c & t & Hc & Ht & Hname & _).
  destruct (Hwindow Examples.schedule Examples.faculty out after
              eq_refl eq_refl Hrun)
    as (n & t' & window & taught & Hn & Ht' & Hgen & _ & Hget & Hcol).
  assert (Ec : c = "Homeostasis") by (vm_compute in Hc; congruence).
  assert (Et : t = "Large Group") by (vm_compute in Ht; congruence).
  assert (Et' : t' = "Large Group") by (vm_compute in Ht'; congruence).
  assert (En : n = 3) by (vm_compute in Hn; congruence).
  subst c t t' n.
  split; [exact Hname|].
  rewrite Hcol.
  vm_compute in Hgen. injection Hgen as <-.
  vm_compute in Hget. injection Hget as <-.
  vm_compute. reflexivity.
Defined.
